(** * Notification service: lifecycle, templates and delivery orchestration

    A shallow embedding of the TypeScript sources

    - [src/domain/entities/email-notification.ts]  (entity and lifecycle),
    - [src/app/email-templates.ts]                 (template selector),
    - [src/app/send-reservation-email.ts]          (delivery orchestrator),
    - [src/domain/ports/email-sender.ts] and
      [src/domain/repositories/notification-repo.ts] (collaborator ports),
    - [src/functions/reservation-events.ts]        (Event Grid adapter),
    - [src/infra/middleware/cors.ts]               (CORS headers),
    - [src/infra/adapters/acs-email-sender.ts]     (e-mail adapter),
    - [src/infra/adapters/cosmos-notification-repo.ts] (repository adapter),

    followed by the properties proved about them. *)

From Stdlib Require Import NArith ZArith Bool List Ascii String Lia.
From Stdlib Require DecimalString.
From stdpp Require Import gmap.
Import ListNotations.

Local Open Scope N_scope.

(* ===================================================================== *)
(** * JavaScript strings *)
(* ===================================================================== *)

(** A JavaScript string is a sequence of UTF-16 code units.  [trim] and the
    regular-expression class [\s] both work on code units, so this is the
    level at which the entity's validation is written. *)
Definition codeunit := N.
Definition jsstring := list codeunit.

(** ** Literals

    Literals are written as Rocq strings (UTF-8 bytes in the source file) and
    decoded to UTF-16 by [js]. *)

Definition utf8_cont (b : N) : N := N.land b 63.

Fixpoint utf8_decode (bs : list N) : list N :=
  match bs with
  | [] => []
  | b0 :: r0 =>
    if b0 <? 128 then b0 :: utf8_decode r0
    else
      match r0 with
      | [] => []
      | b1 :: r1 =>
        if b0 <? 224 then
          (N.shiftl (N.land b0 31) 6 + utf8_cont b1) :: utf8_decode r1
        else
          match r1 with
          | [] => []
          | b2 :: r2 =>
            if b0 <? 240 then
              (N.shiftl (N.land b0 15) 12 + N.shiftl (utf8_cont b1) 6
               + utf8_cont b2) :: utf8_decode r2
            else
              match r2 with
              | [] => []
              | b3 :: r3 =>
                (N.shiftl (N.land b0 7) 18 + N.shiftl (utf8_cont b1) 12
                 + N.shiftl (utf8_cont b2) 6 + utf8_cont b3) :: utf8_decode r3
              end
          end
      end
  end.

(** A code point above the Basic Multilingual Plane is a surrogate pair. *)
Definition utf16_encode (cp : N) : list codeunit :=
  if cp <? 65536 then [cp]
  else
    let v := cp - 65536 in
    [55296 + N.shiftr v 10; 56320 + N.land v 1023].

Fixpoint bytes_of_string (s : string) : list N :=
  match s with
  | EmptyString => []
  | String a r => N_of_ascii a :: bytes_of_string r
  end.

Definition js (s : string) : jsstring :=
  flat_map utf16_encode (utf8_decode (bytes_of_string s)).

(** The double quote cannot be written inside a literal; it is code unit 34. *)
Definition DQ : jsstring := [34].

Definition jsstring_eqb (a b : jsstring) : bool :=
  bool_decide (a = b).

(** ** White space

    ECMAScript [WhiteSpace] and [LineTerminator] code units: the set removed
    by [String.prototype.trim] and matched by the class [\s]. *)
Definition isWhiteSpace (c : codeunit) : bool :=
  (c =? 9) || (c =? 10) || (c =? 11) || (c =? 12) || (c =? 13) || (c =? 32)
  || (c =? 160) || (c =? 5760)
  || ((8192 <=? c) && (c <=? 8202))
  || (c =? 8232) || (c =? 8233) || (c =? 8239) || (c =? 8287)
  || (c =? 12288) || (c =? 65279).

Fixpoint trimStart (s : jsstring) : jsstring :=
  match s with
  | [] => []
  | c :: r => if isWhiteSpace c then trimStart r else s
  end.

Definition trimEnd (s : jsstring) : jsstring :=
  rev (trimStart (rev s)).

(** [String.prototype.trim]. *)
Definition trim (s : jsstring) : jsstring :=
  trimEnd (trimStart s).

(** [s.trim() === ''] *)
Definition isBlank (s : jsstring) : bool :=
  match trim s with
  | [] => true
  | _ :: _ => false
  end.

(* ===================================================================== *)
(** * Regular expressions *)
(* ===================================================================== *)

(** The entity tests the e-mail address against one anchored regular
    expression without back-references or look-around, so [RegExp.test]
    decides membership in a regular language.  The matcher below works by
    derivatives on code units. *)
Module Regex.

Inductive re : Type :=
| Void
| Eps
| Class (p : codeunit -> bool)      (* one code unit satisfying [p] *)
| Cat (a b : re)
| Alt (a b : re)
| Star (a : re).

(** [r+] *)
Definition Plus (r : re) : re := Cat r (Star r).

Fixpoint nullable (r : re) : bool :=
  match r with
  | Void => false
  | Eps => true
  | Class _ => false
  | Cat a b => nullable a && nullable b
  | Alt a b => nullable a || nullable b
  | Star _ => true
  end.

Fixpoint deriv (c : codeunit) (r : re) : re :=
  match r with
  | Void => Void
  | Eps => Void
  | Class p => if p c then Eps else Void
  | Cat a b =>
    if nullable a then Alt (Cat (deriv c a) b) (deriv c b)
    else Cat (deriv c a) b
  | Alt a b => Alt (deriv c a) (deriv c b)
  | Star a => Cat (deriv c a) (Star a)
  end.

(** [/^r$/.test(s)] *)
Fixpoint test (r : re) (s : jsstring) : bool :=
  match s with
  | [] => nullable r
  | c :: s' => test (deriv c r) s'
  end.

(** The language of a regular expression. *)
Inductive Lang : re -> jsstring -> Prop :=
| L_Eps : Lang Eps []
| L_Class p c : p c = true -> Lang (Class p) [c]
| L_Cat a b s t : Lang a s -> Lang b t -> Lang (Cat a b) (s ++ t)
| L_AltL a b s : Lang a s -> Lang (Alt a b) s
| L_AltR a b s : Lang b s -> Lang (Alt a b) s
| L_StarNil a : Lang (Star a) []
| L_StarCons a s t : Lang a s -> Lang (Star a) t -> Lang (Star a) (s ++ t).

End Regex.

(* ===================================================================== *)
(** * Values supplied by the JavaScript runtime *)
(* ===================================================================== *)

(** A [Date] is its time value, milliseconds since the epoch. *)
Definition Date := Z.

(** Two library functions are left to the runtime: the Unicode case mapping
    of [String.prototype.toLowerCase] and the local-time calendar year of
    [Date.prototype.getFullYear] (it depends on the host's time zone). *)
Class JsRuntime : Type := {
  toLowerCase : jsstring -> jsstring;
  getFullYear : Date -> Z;
}.

(** A property read at run time yields a string or [undefined]: event
    payloads are cast to their TypeScript type without a check, so fields
    declared [string] may still be absent. *)
Definition jsval := option jsstring.

(** [!v] *)
Definition falsy (v : jsval) : bool :=
  match v with
  | None => true
  | Some [] => true
  | Some (_ :: _) => false
  end.

Definition truthy (v : jsval) : bool := negb (falsy v).

(** [typeof v !== 'string'] *)
Definition typeof_not_string (v : jsval) : bool :=
  match v with
  | None => true
  | Some _ => false
  end.

(** [v.trim() === ''], evaluated only when [v] is a string. *)
Definition trim_is_empty (v : jsval) : bool :=
  match v with
  | None => true
  | Some s => isBlank s
  end.

(** The string held by a field that is known to be a string. *)
Definition str (v : jsval) : jsstring :=
  match v with
  | Some s => s
  | None => []
  end.

(** [String(v)], as in a template literal [`${v}`]. *)
Definition String_of (v : jsval) : jsstring :=
  match v with
  | Some s => s
  | None => js "undefined"
  end.

(** [v || d] for a string default [d]. *)
Definition or_else (v : jsval) (d : jsstring) : jsstring :=
  if truthy v then str v else d.

(** [Array.prototype.join] *)
Fixpoint join (sep : jsstring) (l : list jsstring) : jsstring :=
  match l with
  | [] => []
  | [x] => x
  | x :: r => x ++ sep ++ join sep r
  end.

(** [String(n)] for an integral number. *)
Definition Number_toString (z : Z) : jsstring :=
  js (DecimalString.NilZero.string_of_int (Z.to_int z)).

(** ** Numbers

    A JavaScript number is an IEEE 754 double.  The numbers of the entity
    are counts and are kept as natural numbers.  Every natural number up
    to 2^53 is a double; from there on the doubles are
    [2 ^ (log2 n - 52)] apart. *)

(** The double nearest to [n], the one with the even significand when two
    are equally near. *)
Definition roundToDouble (n : N) : N :=
  if n <? 2 ^ 53 then n
  else
    let ulp := 2 ^ (N.log2 n - 52) in
    let q := n / ulp in
    let r := n mod ulp in
    if 2 * r <? ulp then q * ulp
    else if ulp <? 2 * r then (q + 1) * ulp
    else if N.even q then q * ulp else (q + 1) * ulp.

(** [a + b] on numbers: the exact sum, rounded to the nearest double.
    (A sum of 2^1024 - 2^970 or more would be [Infinity]; the only
    addition of the service is [retryCount + 1], and a finite double plus
    1 stays below that.) *)
Definition Number_add (a b : N) : N := roundToDouble (a + b).

(** Values that can be thrown.  [e instanceof Error] holds for [ThrowError];
    [field] is set for the entity's [NotificationError].  Any other thrown
    value is kept as its [String(e)] rendering. *)
Inductive Thrown : Type :=
| ThrowError (name : jsstring) (field : option jsstring) (message : jsstring)
| ThrowValue (rendered : jsstring).

Definition new_Error (message : jsstring) : Thrown :=
  ThrowError (js "Error") None message.

(* ===================================================================== *)
(** * Entity: [email-notification.ts] *)
(* ===================================================================== *)

Inductive NotificationType : Type :=
| ReservationCreated
| ReservationCollected
| ReservationReturned
| ReservationCancelled
| ReservationExpired
| ReservationOverdue.

(** The string each member of the enum is at run time. *)
Definition NotificationType_value (t : NotificationType) : jsstring :=
  match t with
  | ReservationCreated => js "ReservationCreated"
  | ReservationCollected => js "ReservationCollected"
  | ReservationReturned => js "ReservationReturned"
  | ReservationCancelled => js "ReservationCancelled"
  | ReservationExpired => js "ReservationExpired"
  | ReservationOverdue => js "ReservationOverdue"
  end.

(** [Object.values(NotificationType)] *)
Definition NotificationType_values : list jsstring :=
  map NotificationType_value
    [ReservationCreated; ReservationCollected; ReservationReturned;
     ReservationCancelled; ReservationExpired; ReservationOverdue].

Inductive NotificationStatus : Type :=
| Pending
| Sent
| Failed.

Module EmailNotification.
Record t : Type := mk {
  id : jsstring;
  userId : jsstring;
  userEmail : jsstring;
  type : jsstring;
  subject : jsstring;
  htmlBody : jsstring;
  textBody : option jsstring;
  status : NotificationStatus;
  reservationId : jsstring;
  createdAt : Date;
  sentAt : option Date;
  failureReason : option jsstring;
  retryCount : N;
  updatedAt : Date;
}.
End EmailNotification.
Abbreviation EmailNotification := EmailNotification.t.

Module CreateEmailNotificationParams.
Record t : Type := mk {
  id : jsval;
  userId : jsval;
  userEmail : jsval;
  type : jsstring;
  subject : jsval;
  htmlBody : jsval;
  textBody : option jsstring;
  reservationId : jsval;
}.
End CreateEmailNotificationParams.
Abbreviation CreateEmailNotificationParams := CreateEmailNotificationParams.t.

Module NotificationError.
Record t : Type := mk {
  field : jsstring;
  message : jsstring;
}.
End NotificationError.
Abbreviation NotificationError := NotificationError.t.

(** [[^\s@]] *)
Definition notSpaceAt (c : codeunit) : bool :=
  negb (isWhiteSpace c || (c =? 64)).

(** [/^[^\s@]+@[^\s@]+\.[^\s@]+$/] *)
Definition emailRegex : Regex.re :=
  Regex.Cat (Regex.Plus (Regex.Class notSpaceAt))
    (Regex.Cat (Regex.Class (N.eqb 64))
       (Regex.Cat (Regex.Plus (Regex.Class notSpaceAt))
          (Regex.Cat (Regex.Class (N.eqb 46))
             (Regex.Plus (Regex.Class notSpaceAt))))).

(** [!v || typeof v !== 'string' || v.trim() === ''] *)
Definition notNonEmptyString (v : jsval) : bool :=
  falsy v || typeof_not_string v || trim_is_empty v.

(** [validateCreateEmailNotification]: [Some e] when it throws [e]. *)
Definition validateCreateEmailNotification
    (params : CreateEmailNotificationParams) : option NotificationError :=
  let P := params in
  if notNonEmptyString P.(CreateEmailNotificationParams.id) then
    Some (NotificationError.mk (js "id")
            (js "Notification id must be a non-empty string."))
  else if notNonEmptyString P.(CreateEmailNotificationParams.userId) then
    Some (NotificationError.mk (js "userId")
            (js "Notification userId must be a non-empty string."))
  else if notNonEmptyString P.(CreateEmailNotificationParams.userEmail) then
    Some (NotificationError.mk (js "userEmail")
            (js "Notification userEmail must be a non-empty string."))
  else if negb (Regex.test emailRegex
                  (trim (str P.(CreateEmailNotificationParams.userEmail)))) then
    Some (NotificationError.mk (js "userEmail")
            (js "Notification userEmail must be a valid email address."))
  else if notNonEmptyString P.(CreateEmailNotificationParams.subject) then
    Some (NotificationError.mk (js "subject")
            (js "Notification subject must be a non-empty string."))
  else if notNonEmptyString P.(CreateEmailNotificationParams.htmlBody) then
    Some (NotificationError.mk (js "htmlBody")
            (js "Notification htmlBody must be a non-empty string."))
  else if notNonEmptyString P.(CreateEmailNotificationParams.reservationId) then
    Some (NotificationError.mk (js "reservationId")
            (js "Notification reservationId must be a non-empty string."))
  else if negb (existsb (jsstring_eqb P.(CreateEmailNotificationParams.type))
                  NotificationType_values) then
    Some (NotificationError.mk (js "type")
            (js "Notification type must be one of: "
             ++ join (js ", ") NotificationType_values))
  else None.

(** [createEmailNotification].  [now] is the value of the function's
    [new Date()]; a thrown [NotificationError] is the left result. *)
Definition createEmailNotification `{JsRuntime}
    (now : Date) (params : CreateEmailNotificationParams)
  : NotificationError + EmailNotification :=
  match validateCreateEmailNotification params with
  | Some e => inl e
  | None =>
    inr {|
      EmailNotification.id :=
        trim (str params.(CreateEmailNotificationParams.id));
      EmailNotification.userId :=
        trim (str params.(CreateEmailNotificationParams.userId));
      EmailNotification.userEmail :=
        toLowerCase (trim (str params.(CreateEmailNotificationParams.userEmail)));
      EmailNotification.type := params.(CreateEmailNotificationParams.type);
      EmailNotification.subject :=
        trim (str params.(CreateEmailNotificationParams.subject));
      EmailNotification.htmlBody :=
        str params.(CreateEmailNotificationParams.htmlBody);
      EmailNotification.textBody :=
        option_map trim params.(CreateEmailNotificationParams.textBody);
      EmailNotification.status := Pending;
      EmailNotification.reservationId :=
        trim (str params.(CreateEmailNotificationParams.reservationId));
      EmailNotification.createdAt := now;
      EmailNotification.sentAt := None;
      EmailNotification.failureReason := None;
      EmailNotification.retryCount := 0;
      EmailNotification.updatedAt := now;
    |}
  end.

(** [markNotificationSent]: the spread copies every field of
    [notification]; [status], [sentAt] and [updatedAt] are then overridden.
    [now] is the value of the function's [new Date()]. *)
Definition markNotificationSent (now : Date) (notification : EmailNotification)
  : EmailNotification :=
  {|
    EmailNotification.id := notification.(EmailNotification.id);
    EmailNotification.userId := notification.(EmailNotification.userId);
    EmailNotification.userEmail := notification.(EmailNotification.userEmail);
    EmailNotification.type := notification.(EmailNotification.type);
    EmailNotification.subject := notification.(EmailNotification.subject);
    EmailNotification.htmlBody := notification.(EmailNotification.htmlBody);
    EmailNotification.textBody := notification.(EmailNotification.textBody);
    EmailNotification.status := Sent;
    EmailNotification.reservationId :=
      notification.(EmailNotification.reservationId);
    EmailNotification.createdAt := notification.(EmailNotification.createdAt);
    EmailNotification.sentAt := Some now;
    EmailNotification.failureReason :=
      notification.(EmailNotification.failureReason);
    EmailNotification.retryCount := notification.(EmailNotification.retryCount);
    EmailNotification.updatedAt := now;
  |}.

(** [markNotificationFailed]: as above, overriding [status],
    [failureReason], [retryCount] and [updatedAt].  [retryCount + 1] is
    the addition of numbers: exact up to 2^53, rounded from there on. *)
Definition markNotificationFailed (now : Date)
    (notification : EmailNotification) (reason : jsstring)
  : EmailNotification :=
  {|
    EmailNotification.id := notification.(EmailNotification.id);
    EmailNotification.userId := notification.(EmailNotification.userId);
    EmailNotification.userEmail := notification.(EmailNotification.userEmail);
    EmailNotification.type := notification.(EmailNotification.type);
    EmailNotification.subject := notification.(EmailNotification.subject);
    EmailNotification.htmlBody := notification.(EmailNotification.htmlBody);
    EmailNotification.textBody := notification.(EmailNotification.textBody);
    EmailNotification.status := Failed;
    EmailNotification.reservationId :=
      notification.(EmailNotification.reservationId);
    EmailNotification.createdAt := notification.(EmailNotification.createdAt);
    EmailNotification.sentAt := notification.(EmailNotification.sentAt);
    EmailNotification.failureReason := Some reason;
    EmailNotification.retryCount :=
      Number_add notification.(EmailNotification.retryCount) 1;
    EmailNotification.updatedAt := now;
  |}.

(* ===================================================================== *)
(** * Template selector: [email-templates.ts] *)
(* ===================================================================== *)

Module ReservationEmailData.
Record t : Type := mk {
  userEmail : jsval;
  reservationId : jsval;
  deviceName : jsval;
  reservedAt : jsval;
  expiresAt : jsval;
  collectedAt : jsval;
  returnDueAt : jsval;
  returnedAt : jsval;
}.
End ReservationEmailData.
Abbreviation ReservationEmailData := ReservationEmailData.t.

Module EmailTemplate.
Record t : Type := mk {
  subject : jsstring;
  htmlBody : jsstring;
  textBody : jsstring;
}.
End EmailTemplate.
Abbreviation EmailTemplate := EmailTemplate.t.

Definition APP_NAME : jsstring := js "Device Loan System".
Definition SUPPORT_EMAIL : jsstring := js "support@deviceloan.edu".

(** The six template functions.  Each body is the source's template literal:
    the static markup is kept verbatim, [${...}] becomes a concatenation, and
    [now] is the value of the [new Date()] in the footer. *)

(** [getReservationCreatedEmail] *)
Definition getReservationCreatedEmail `{JsRuntime} (now : Date) (data : ReservationEmailData)
  : EmailTemplate :=
  let subject :=
    APP_NAME ++ js " - Your reservation is confirmed" in
  let htmlBody :=
    js "
<!DOCTYPE html>
<html>
<head>
  <style>
    body { font-family: Arial, sans-serif; line-height: 1.6; color: #333; }
    .container { max-width: 600px; margin: 0 auto; padding: 20px; }
    .header { background-color: #4F46E5; color: white; padding: 20px; text-align: center; }
    .content { padding: 20px; background-color: #f9fafb; }
    .footer { padding: 20px; text-align: center; font-size: 12px; color: #666; }
    .highlight { background-color: #EEF2FF; padding: 15px; border-radius: 8px; margin: 15px 0; }
    .btn { display: inline-block; background-color: #4F46E5; color: white; padding: 12px 24px; text-decoration: none; border-radius: 6px; }
  </style>
</head>
<body>
  <div class=" ++ DQ ++ js "container" ++ DQ ++ js ">
    <div class=" ++ DQ ++ js "header" ++ DQ ++ js ">
      <h1>" ++ APP_NAME ++ js "</h1>
    </div>
    <div class=" ++ DQ ++ js "content" ++ DQ ++ js ">
      <h2>Reservation Confirmed! 🎉</h2>
      <p>Your device reservation has been successfully created.</p>
      
      <div class=" ++ DQ ++ js "highlight" ++ DQ ++ js ">
        <p><strong>Reservation ID:</strong> " ++ String_of data.(ReservationEmailData.reservationId) ++ js "</p>
        " ++ (if truthy data.(ReservationEmailData.deviceName) then js "<p><strong>Device:</strong> " ++ String_of data.(ReservationEmailData.deviceName) ++ js "</p>" else []) ++ js "
        " ++ (if truthy data.(ReservationEmailData.reservedAt) then js "<p><strong>Reserved At:</strong> " ++ String_of data.(ReservationEmailData.reservedAt) ++ js "</p>" else []) ++ js "
        " ++ (if truthy data.(ReservationEmailData.expiresAt) then js "<p><strong>Collection Deadline:</strong> " ++ String_of data.(ReservationEmailData.expiresAt) ++ js "</p>" else []) ++ js "
      </div>
      
      <p><strong>Important:</strong> Please collect your device within 24 hours, or your reservation will expire.</p>
      
      <p>Visit the IT desk to collect your device. Don't forget to bring your student ID!</p>
    </div>
    <div class=" ++ DQ ++ js "footer" ++ DQ ++ js ">
      <p>If you have any questions, please contact us at " ++ SUPPORT_EMAIL ++ js "</p>
      <p>&copy; " ++ Number_toString (getFullYear now) ++ js " " ++ APP_NAME ++ js "</p>
    </div>
  </div>
</body>
</html>" in
  let textBody :=
    js "
" ++ APP_NAME ++ js " - Reservation Confirmed!

Your device reservation has been successfully created.

Reservation ID: " ++ String_of data.(ReservationEmailData.reservationId) ++ js "
" ++ (if truthy data.(ReservationEmailData.deviceName) then js "Device: " ++ String_of data.(ReservationEmailData.deviceName) else []) ++ js "
" ++ (if truthy data.(ReservationEmailData.reservedAt) then js "Reserved At: " ++ String_of data.(ReservationEmailData.reservedAt) else []) ++ js "
" ++ (if truthy data.(ReservationEmailData.expiresAt) then js "Collection Deadline: " ++ String_of data.(ReservationEmailData.expiresAt) else []) ++ js "

Important: Please collect your device within 24 hours, or your reservation will expire.

Visit the IT desk to collect your device. Don't forget to bring your student ID!

If you have any questions, please contact us at " ++ SUPPORT_EMAIL ++ js "
" in
  EmailTemplate.mk subject htmlBody textBody.

(** [getReservationCollectedEmail] *)
Definition getReservationCollectedEmail `{JsRuntime} (now : Date) (data : ReservationEmailData)
  : EmailTemplate :=
  let subject :=
    APP_NAME ++ js " - Device collected successfully" in
  let htmlBody :=
    js "
<!DOCTYPE html>
<html>
<head>
  <style>
    body { font-family: Arial, sans-serif; line-height: 1.6; color: #333; }
    .container { max-width: 600px; margin: 0 auto; padding: 20px; }
    .header { background-color: #059669; color: white; padding: 20px; text-align: center; }
    .content { padding: 20px; background-color: #f9fafb; }
    .footer { padding: 20px; text-align: center; font-size: 12px; color: #666; }
    .highlight { background-color: #ECFDF5; padding: 15px; border-radius: 8px; margin: 15px 0; }
    .warning { background-color: #FEF3C7; padding: 15px; border-radius: 8px; margin: 15px 0; }
  </style>
</head>
<body>
  <div class=" ++ DQ ++ js "container" ++ DQ ++ js ">
    <div class=" ++ DQ ++ js "header" ++ DQ ++ js ">
      <h1>" ++ APP_NAME ++ js "</h1>
    </div>
    <div class=" ++ DQ ++ js "content" ++ DQ ++ js ">
      <h2>Device Collected ✅</h2>
      <p>You have successfully collected your reserved device.</p>
      
      <div class=" ++ DQ ++ js "highlight" ++ DQ ++ js ">
        <p><strong>Reservation ID:</strong> " ++ String_of data.(ReservationEmailData.reservationId) ++ js "</p>
        " ++ (if truthy data.(ReservationEmailData.deviceName) then js "<p><strong>Device:</strong> " ++ String_of data.(ReservationEmailData.deviceName) ++ js "</p>" else []) ++ js "
        " ++ (if truthy data.(ReservationEmailData.collectedAt) then js "<p><strong>Collected At:</strong> " ++ String_of data.(ReservationEmailData.collectedAt) ++ js "</p>" else []) ++ js "
        " ++ (if truthy data.(ReservationEmailData.returnDueAt) then js "<p><strong>Return Due:</strong> " ++ String_of data.(ReservationEmailData.returnDueAt) ++ js "</p>" else []) ++ js "
      </div>
      
      <div class=" ++ DQ ++ js "warning" ++ DQ ++ js ">
        <p>⚠️ <strong>Remember:</strong> Please return the device by the due date to avoid late fees.</p>
      </div>
      
      <p>Take good care of the device and return it in the same condition you received it.</p>
    </div>
    <div class=" ++ DQ ++ js "footer" ++ DQ ++ js ">
      <p>If you have any questions, please contact us at " ++ SUPPORT_EMAIL ++ js "</p>
      <p>&copy; " ++ Number_toString (getFullYear now) ++ js " " ++ APP_NAME ++ js "</p>
    </div>
  </div>
</body>
</html>" in
  let textBody :=
    js "
" ++ APP_NAME ++ js " - Device Collected

You have successfully collected your reserved device.

Reservation ID: " ++ String_of data.(ReservationEmailData.reservationId) ++ js "
" ++ (if truthy data.(ReservationEmailData.deviceName) then js "Device: " ++ String_of data.(ReservationEmailData.deviceName) else []) ++ js "
" ++ (if truthy data.(ReservationEmailData.collectedAt) then js "Collected At: " ++ String_of data.(ReservationEmailData.collectedAt) else []) ++ js "
" ++ (if truthy data.(ReservationEmailData.returnDueAt) then js "Return Due: " ++ String_of data.(ReservationEmailData.returnDueAt) else []) ++ js "

Remember: Please return the device by the due date to avoid late fees.

Take good care of the device and return it in the same condition you received it.

If you have any questions, please contact us at " ++ SUPPORT_EMAIL ++ js "
" in
  EmailTemplate.mk subject htmlBody textBody.

(** [getReservationReturnedEmail] *)
Definition getReservationReturnedEmail `{JsRuntime} (now : Date) (data : ReservationEmailData)
  : EmailTemplate :=
  let subject :=
    APP_NAME ++ js " - Device returned - Thank you!" in
  let htmlBody :=
    js "
<!DOCTYPE html>
<html>
<head>
  <style>
    body { font-family: Arial, sans-serif; line-height: 1.6; color: #333; }
    .container { max-width: 600px; margin: 0 auto; padding: 20px; }
    .header { background-color: #2563EB; color: white; padding: 20px; text-align: center; }
    .content { padding: 20px; background-color: #f9fafb; }
    .footer { padding: 20px; text-align: center; font-size: 12px; color: #666; }
    .highlight { background-color: #EFF6FF; padding: 15px; border-radius: 8px; margin: 15px 0; }
  </style>
</head>
<body>
  <div class=" ++ DQ ++ js "container" ++ DQ ++ js ">
    <div class=" ++ DQ ++ js "header" ++ DQ ++ js ">
      <h1>" ++ APP_NAME ++ js "</h1>
    </div>
    <div class=" ++ DQ ++ js "content" ++ DQ ++ js ">
      <h2>Device Returned 🙏</h2>
      <p>Thank you for returning your device!</p>
      
      <div class=" ++ DQ ++ js "highlight" ++ DQ ++ js ">
        <p><strong>Reservation ID:</strong> " ++ String_of data.(ReservationEmailData.reservationId) ++ js "</p>
        " ++ (if truthy data.(ReservationEmailData.deviceName) then js "<p><strong>Device:</strong> " ++ String_of data.(ReservationEmailData.deviceName) ++ js "</p>" else []) ++ js "
        " ++ (if truthy data.(ReservationEmailData.returnedAt) then js "<p><strong>Returned At:</strong> " ++ String_of data.(ReservationEmailData.returnedAt) ++ js "</p>" else []) ++ js "
      </div>
      
      <p>Your loan has been completed. Feel free to reserve another device whenever you need one!</p>
    </div>
    <div class=" ++ DQ ++ js "footer" ++ DQ ++ js ">
      <p>If you have any questions, please contact us at " ++ SUPPORT_EMAIL ++ js "</p>
      <p>&copy; " ++ Number_toString (getFullYear now) ++ js " " ++ APP_NAME ++ js "</p>
    </div>
  </div>
</body>
</html>" in
  let textBody :=
    js "
" ++ APP_NAME ++ js " - Device Returned

Thank you for returning your device!

Reservation ID: " ++ String_of data.(ReservationEmailData.reservationId) ++ js "
" ++ (if truthy data.(ReservationEmailData.deviceName) then js "Device: " ++ String_of data.(ReservationEmailData.deviceName) else []) ++ js "
" ++ (if truthy data.(ReservationEmailData.returnedAt) then js "Returned At: " ++ String_of data.(ReservationEmailData.returnedAt) else []) ++ js "

Your loan has been completed. Feel free to reserve another device whenever you need one!

If you have any questions, please contact us at " ++ SUPPORT_EMAIL ++ js "
" in
  EmailTemplate.mk subject htmlBody textBody.

(** [getReservationCancelledEmail] *)
Definition getReservationCancelledEmail `{JsRuntime} (now : Date) (data : ReservationEmailData)
  : EmailTemplate :=
  let subject :=
    APP_NAME ++ js " - Reservation cancelled" in
  let htmlBody :=
    js "
<!DOCTYPE html>
<html>
<head>
  <style>
    body { font-family: Arial, sans-serif; line-height: 1.6; color: #333; }
    .container { max-width: 600px; margin: 0 auto; padding: 20px; }
    .header { background-color: #6B7280; color: white; padding: 20px; text-align: center; }
    .content { padding: 20px; background-color: #f9fafb; }
    .footer { padding: 20px; text-align: center; font-size: 12px; color: #666; }
    .highlight { background-color: #F3F4F6; padding: 15px; border-radius: 8px; margin: 15px 0; }
  </style>
</head>
<body>
  <div class=" ++ DQ ++ js "container" ++ DQ ++ js ">
    <div class=" ++ DQ ++ js "header" ++ DQ ++ js ">
      <h1>" ++ APP_NAME ++ js "</h1>
    </div>
    <div class=" ++ DQ ++ js "content" ++ DQ ++ js ">
      <h2>Reservation Cancelled</h2>
      <p>Your device reservation has been cancelled.</p>
      
      <div class=" ++ DQ ++ js "highlight" ++ DQ ++ js ">
        <p><strong>Reservation ID:</strong> " ++ String_of data.(ReservationEmailData.reservationId) ++ js "</p>
        " ++ (if truthy data.(ReservationEmailData.deviceName) then js "<p><strong>Device:</strong> " ++ String_of data.(ReservationEmailData.deviceName) ++ js "</p>" else []) ++ js "
      </div>
      
      <p>If this was a mistake or you need to reserve another device, you can create a new reservation anytime.</p>
    </div>
    <div class=" ++ DQ ++ js "footer" ++ DQ ++ js ">
      <p>If you have any questions, please contact us at " ++ SUPPORT_EMAIL ++ js "</p>
      <p>&copy; " ++ Number_toString (getFullYear now) ++ js " " ++ APP_NAME ++ js "</p>
    </div>
  </div>
</body>
</html>" in
  let textBody :=
    js "
" ++ APP_NAME ++ js " - Reservation Cancelled

Your device reservation has been cancelled.

Reservation ID: " ++ String_of data.(ReservationEmailData.reservationId) ++ js "
" ++ (if truthy data.(ReservationEmailData.deviceName) then js "Device: " ++ String_of data.(ReservationEmailData.deviceName) else []) ++ js "

If this was a mistake or you need to reserve another device, you can create a new reservation anytime.

If you have any questions, please contact us at " ++ SUPPORT_EMAIL ++ js "
" in
  EmailTemplate.mk subject htmlBody textBody.

(** [getReservationExpiredEmail] *)
Definition getReservationExpiredEmail `{JsRuntime} (now : Date) (data : ReservationEmailData)
  : EmailTemplate :=
  let subject :=
    APP_NAME ++ js " - Reservation expired" in
  let htmlBody :=
    js "
<!DOCTYPE html>
<html>
<head>
  <style>
    body { font-family: Arial, sans-serif; line-height: 1.6; color: #333; }
    .container { max-width: 600px; margin: 0 auto; padding: 20px; }
    .header { background-color: #DC2626; color: white; padding: 20px; text-align: center; }
    .content { padding: 20px; background-color: #f9fafb; }
    .footer { padding: 20px; text-align: center; font-size: 12px; color: #666; }
    .highlight { background-color: #FEF2F2; padding: 15px; border-radius: 8px; margin: 15px 0; }
  </style>
</head>
<body>
  <div class=" ++ DQ ++ js "container" ++ DQ ++ js ">
    <div class=" ++ DQ ++ js "header" ++ DQ ++ js ">
      <h1>" ++ APP_NAME ++ js "</h1>
    </div>
    <div class=" ++ DQ ++ js "content" ++ DQ ++ js ">
      <h2>Reservation Expired ⏰</h2>
      <p>Unfortunately, your device reservation has expired because it was not collected within the 24-hour window.</p>
      
      <div class=" ++ DQ ++ js "highlight" ++ DQ ++ js ">
        <p><strong>Reservation ID:</strong> " ++ String_of data.(ReservationEmailData.reservationId) ++ js "</p>
        " ++ (if truthy data.(ReservationEmailData.deviceName) then js "<p><strong>Device:</strong> " ++ String_of data.(ReservationEmailData.deviceName) ++ js "</p>" else []) ++ js "
        " ++ (if truthy data.(ReservationEmailData.expiresAt) then js "<p><strong>Expired At:</strong> " ++ String_of data.(ReservationEmailData.expiresAt) ++ js "</p>" else []) ++ js "
      </div>
      
      <p>The device is now available for other students to reserve. If you still need the device, please create a new reservation.</p>
    </div>
    <div class=" ++ DQ ++ js "footer" ++ DQ ++ js ">
      <p>If you have any questions, please contact us at " ++ SUPPORT_EMAIL ++ js "</p>
      <p>&copy; " ++ Number_toString (getFullYear now) ++ js " " ++ APP_NAME ++ js "</p>
    </div>
  </div>
</body>
</html>" in
  let textBody :=
    js "
" ++ APP_NAME ++ js " - Reservation Expired

Unfortunately, your device reservation has expired because it was not collected within the 24-hour window.

Reservation ID: " ++ String_of data.(ReservationEmailData.reservationId) ++ js "
" ++ (if truthy data.(ReservationEmailData.deviceName) then js "Device: " ++ String_of data.(ReservationEmailData.deviceName) else []) ++ js "
" ++ (if truthy data.(ReservationEmailData.expiresAt) then js "Expired At: " ++ String_of data.(ReservationEmailData.expiresAt) else []) ++ js "

The device is now available for other students to reserve. If you still need the device, please create a new reservation.

If you have any questions, please contact us at " ++ SUPPORT_EMAIL ++ js "
" in
  EmailTemplate.mk subject htmlBody textBody.

(** [getReservationOverdueEmail] *)
Definition getReservationOverdueEmail `{JsRuntime} (now : Date) (data : ReservationEmailData)
  : EmailTemplate :=
  let subject :=
    APP_NAME ++ js " - ⚠️ URGENT: Device return overdue" in
  let htmlBody :=
    js "
<!DOCTYPE html>
<html>
<head>
  <style>
    body { font-family: Arial, sans-serif; line-height: 1.6; color: #333; }
    .container { max-width: 600px; margin: 0 auto; padding: 20px; }
    .header { background-color: #DC2626; color: white; padding: 20px; text-align: center; }
    .content { padding: 20px; background-color: #f9fafb; }
    .footer { padding: 20px; text-align: center; font-size: 12px; color: #666; }
    .highlight { background-color: #FEF2F2; padding: 15px; border-radius: 8px; margin: 15px 0; border: 2px solid #DC2626; }
  </style>
</head>
<body>
  <div class=" ++ DQ ++ js "container" ++ DQ ++ js ">
    <div class=" ++ DQ ++ js "header" ++ DQ ++ js ">
      <h1>⚠️ URGENT</h1>
    </div>
    <div class=" ++ DQ ++ js "content" ++ DQ ++ js ">
      <h2>Device Return Overdue!</h2>
      <p>Your device loan is <strong>overdue</strong>. Please return the device as soon as possible.</p>
      
      <div class=" ++ DQ ++ js "highlight" ++ DQ ++ js ">
        <p><strong>Reservation ID:</strong> " ++ String_of data.(ReservationEmailData.reservationId) ++ js "</p>
        " ++ (if truthy data.(ReservationEmailData.deviceName) then js "<p><strong>Device:</strong> " ++ String_of data.(ReservationEmailData.deviceName) ++ js "</p>" else []) ++ js "
        " ++ (if truthy data.(ReservationEmailData.returnDueAt) then js "<p><strong>Was Due:</strong> " ++ String_of data.(ReservationEmailData.returnDueAt) ++ js "</p>" else []) ++ js "
      </div>
      
      <p><strong>Please return the device immediately to avoid any penalties.</strong></p>
      
      <p>If you are experiencing difficulties returning the device, please contact the IT desk immediately.</p>
    </div>
    <div class=" ++ DQ ++ js "footer" ++ DQ ++ js ">
      <p>Contact us at " ++ SUPPORT_EMAIL ++ js "</p>
      <p>&copy; " ++ Number_toString (getFullYear now) ++ js " " ++ APP_NAME ++ js "</p>
    </div>
  </div>
</body>
</html>" in
  let textBody :=
    js "
" ++ APP_NAME ++ js " - URGENT: Device Return Overdue!

Your device loan is OVERDUE. Please return the device as soon as possible.

Reservation ID: " ++ String_of data.(ReservationEmailData.reservationId) ++ js "
" ++ (if truthy data.(ReservationEmailData.deviceName) then js "Device: " ++ String_of data.(ReservationEmailData.deviceName) else []) ++ js "
" ++ (if truthy data.(ReservationEmailData.returnDueAt) then js "Was Due: " ++ String_of data.(ReservationEmailData.returnDueAt) else []) ++ js "

Please return the device immediately to avoid any penalties.

If you are experiencing difficulties returning the device, please contact the IT desk immediately.

Contact us at " ++ SUPPORT_EMAIL ++ js "
" in
  EmailTemplate.mk subject htmlBody textBody.

(** [getEmailTemplate]: the [switch] compares the run-time string of [type]
    with each member of the enum; the [default] branch throws. *)
Definition getEmailTemplate `{JsRuntime}
    (now : Date) (type : jsstring) (data : ReservationEmailData)
  : Thrown + EmailTemplate :=
  if jsstring_eqb type (NotificationType_value ReservationCreated) then
    inr (getReservationCreatedEmail now data)
  else if jsstring_eqb type (NotificationType_value ReservationCollected) then
    inr (getReservationCollectedEmail now data)
  else if jsstring_eqb type (NotificationType_value ReservationReturned) then
    inr (getReservationReturnedEmail now data)
  else if jsstring_eqb type (NotificationType_value ReservationCancelled) then
    inr (getReservationCancelledEmail now data)
  else if jsstring_eqb type (NotificationType_value ReservationExpired) then
    inr (getReservationExpiredEmail now data)
  else if jsstring_eqb type (NotificationType_value ReservationOverdue) then
    inr (getReservationOverdueEmail now data)
  else
    inl (new_Error (js "Unknown notification type: " ++ type)).

(* ===================================================================== *)
(** * Ports: [email-sender.ts], [notification-repo.ts] *)
(* ===================================================================== *)

Module EmailSendResult.
Record t : Type := mk {
  success : bool;
  messageId : option jsstring;
  error : option jsstring;
}.
End EmailSendResult.
Abbreviation EmailSendResult := EmailSendResult.t.

Module EmailContent.
Record t : Type := mk {
  to : jsval;
  subject : jsstring;
  htmlBody : jsstring;
  textBody : option jsstring;
}.
End EmailContent.
Abbreviation EmailContent := EmailContent.t.

(** A settled promise: rejected with a thrown value, or resolved. *)
Definition Settled (A : Type) : Type := (Thrown + A)%type.

(** The collaborators are interfaces; an implementation acts on some state
    [W] of the outside world and may reject. *)
Record EmailSender (W : Type) : Type := {
  sendEmail : EmailContent -> W -> Settled EmailSendResult * W;
}.
Arguments sendEmail {W} _ _ _.

(** Of the repository only [save] is used by the use case. *)
Record NotificationRepo (W : Type) : Type := {
  save : EmailNotification -> W -> Settled EmailNotification * W;
}.
Arguments save {W} _ _ _.

(** What the process itself reads from the world: [new Date()] and the
    random bits behind [crypto.randomUUID()]. *)
Record Host (W : Type) : Type := {
  clock : W -> Date * W;
  random : W -> N * W;
}.
Arguments clock {W} _ _.
Arguments random {W} _ _.

(* ===================================================================== *)
(** * Effects *)
(* ===================================================================== *)

Inductive ConsoleLevel : Type := LevelLog | LevelError.

(** What an invocation does to the outside, in order.  A call is recorded
    with its argument and with how it settled. *)
Inductive Event : Type :=
| EvSave (notification : EmailNotification) (settled : Settled EmailNotification)
| EvSend (content : EmailContent) (settled : Settled EmailSendResult)
| EvConsole (level : ConsoleLevel) (line : jsstring).

Record Run (W A : Type) : Type := mkRun {
  outcome : Settled A;
  world : W;
  trace : list Event;
}.
Arguments mkRun {W A} _ _ _.
Arguments outcome {W A} _.
Arguments world {W A} _.
Arguments trace {W A} _.

(** A computation that reads and changes the world, records its effects and
    may throw. *)
Definition M (W A : Type) : Type := W -> Run W A.

Definition ret {W A} (a : A) : M W A :=
  fun w => mkRun (inr a) w [].

Definition throw {W A} (e : Thrown) : M W A :=
  fun w => mkRun (inl e) w [].

Definition bind {W A B} (m : M W A) (f : A -> M W B) : M W B :=
  fun w =>
    match m w with
    | mkRun (inl e) w' tr => mkRun (inl e) w' tr
    | mkRun (inr a) w' tr =>
      match f a w' with
      | mkRun o w'' tr' => mkRun o w'' (tr ++ tr')
      end
    end.

(** [try { m } catch (e) { h e }] *)
Definition tryCatch {W A} (m : M W A) (h : Thrown -> M W A) : M W A :=
  fun w =>
    match m w with
    | mkRun (inl e) w' tr =>
      match h e w' with
      | mkRun o w'' tr' => mkRun o w'' (tr ++ tr')
      end
    | mkRun (inr a) w' tr => mkRun (inr a) w' tr
    end.

Declare Scope effect_scope.
Delimit Scope effect_scope with effect.
Notation "x <- m ;; k" := (bind m (fun x => k))
  (at level 100, m at next level, right associativity) : effect_scope.
Notation "m ;;; k" := (bind m (fun _ => k))
  (at level 100, right associativity) : effect_scope.

(** A synchronous call that returns or throws. *)
Definition lift {W A} (r : Thrown + A) : M W A :=
  match r with
  | inl e => throw e
  | inr a => ret a
  end.

(** A call of a synchronous function that takes its [new Date()] as the
    argument [now].  The functions called this way read the clock after
    their guards, and what a guard throws does not depend on [now]: a call
    that throws has not read the clock, a call that returns has read it
    once. *)
Definition callWithClock {W A} (host : Host W) (f : Date -> Thrown + A)
  : M W A :=
  fun w =>
    let '(now, w') := clock host w in
    match f now with
    | inl e => mkRun (inl e) w []
    | inr a => mkRun (inr a) w' []
    end.

(** [await repo.save(n)] *)
Definition awaitSave {W} (repo : NotificationRepo W) (n : EmailNotification)
  : M W EmailNotification :=
  fun w => let '(s, w') := save repo n w in mkRun s w' [EvSave n s].

(** [await sender.sendEmail(c)] *)
Definition awaitSendEmail {W} (sender : EmailSender W) (c : EmailContent)
  : M W EmailSendResult :=
  fun w => let '(s, w') := sendEmail sender c w in mkRun s w' [EvSend c s].

Definition console {W} (level : ConsoleLevel) (line : jsstring) : M W unit :=
  fun w => mkRun (inr tt) w [EvConsole level line].

(** ** [crypto.randomUUID()]

    A version-4 UUID in its canonical text form: 32 lower-case hexadecimal
    digits taken from 128 random bits, with the version and variant bits
    fixed, in groups 8-4-4-4-12. *)
Definition hexDigit (n : N) : codeunit :=
  nth (N.to_nat (n mod 16)) (js "0123456789abcdef") 48.

Definition nibble (bits : N) (i : N) : N :=
  N.shiftr bits (4 * (31 - i)).

Definition hexDigits (bits : N) (positions : list N) : jsstring :=
  map (fun i => hexDigit (nibble bits i)) positions.

Definition formatUUID (bits : N) : jsstring :=
  hexDigits bits [0; 1; 2; 3; 4; 5; 6; 7] ++ js "-"
  ++ hexDigits bits [8; 9; 10; 11] ++ js "-"
  ++ js "4" ++ hexDigits bits [13; 14; 15] ++ js "-"
  ++ [hexDigit (8 + nibble bits 16 mod 4)] ++ hexDigits bits [17; 18; 19]
  ++ js "-"
  ++ hexDigits bits [20; 21; 22; 23; 24; 25; 26; 27; 28; 29; 30; 31].

Definition randomUUID {W} (host : Host W) : M W jsstring :=
  fun w => let '(bits, w') := random host w in mkRun (inr (formatUUID bits)) w' [].

(* ===================================================================== *)
(** * Use case: [send-reservation-email.ts] *)
(* ===================================================================== *)

Record SendReservationEmailDeps (W : Type) : Type := {
  emailSender : EmailSender W;
  notificationRepo : NotificationRepo W;
}.
Arguments emailSender {W} _.
Arguments notificationRepo {W} _.

Module ReservationEventData.
Record t : Type := mk {
  reservationId : jsval;
  userId : jsval;
  userEmail : jsval;
  deviceId : jsval;
  deviceModelId : jsval;
  deviceName : jsval;
  reservedAt : jsval;
  expiresAt : jsval;
  collectedAt : jsval;
  returnDueAt : jsval;
  returnedAt : jsval;
  cancelledAt : jsval;
}.
End ReservationEventData.
Abbreviation ReservationEventData := ReservationEventData.t.

Module SendReservationEmailResult.
Record t : Type := mk {
  success : bool;
  notification : option EmailNotification;
  error : option jsstring;
}.
End SendReservationEmailResult.
Abbreviation SendReservationEmailResult := SendReservationEmailResult.t.

(** The entity's [NotificationError] as a thrown value. *)
Definition throwNotificationError (e : NotificationError) : Thrown :=
  ThrowError (js "NotificationError")
    (Some e.(NotificationError.field)) e.(NotificationError.message).

Definition liftCreate {A} (r : NotificationError + A) : Thrown + A :=
  match r with
  | inl e => inl (throwNotificationError e)
  | inr a => inr a
  end.

(** [error instanceof Error ? error.message : String(error)] *)
Definition errorMessage (error : Thrown) : jsstring :=
  match error with
  | ThrowError _ _ message => message
  | ThrowValue rendered => rendered
  end.

Section UseCase.
Context `{JsRuntime} {W : Type}.
Variable host : Host W.

Local Open Scope effect_scope.

(** The [try] block of [sendReservationEmail]. *)
Definition sendReservationEmail_try
    (deps : SendReservationEmailDeps W)
    (eventType : jsstring) (eventData : ReservationEventData)
  : M W SendReservationEmailResult :=
  (* Prepare template data *)
  let templateData := {|
    ReservationEmailData.userEmail :=
      eventData.(ReservationEventData.userEmail);
    ReservationEmailData.reservationId :=
      eventData.(ReservationEventData.reservationId);
    ReservationEmailData.deviceName :=
      eventData.(ReservationEventData.deviceName);
    ReservationEmailData.reservedAt :=
      eventData.(ReservationEventData.reservedAt);
    ReservationEmailData.expiresAt :=
      eventData.(ReservationEventData.expiresAt);
    ReservationEmailData.collectedAt :=
      eventData.(ReservationEventData.collectedAt);
    ReservationEmailData.returnDueAt :=
      eventData.(ReservationEventData.returnDueAt);
    ReservationEmailData.returnedAt :=
      eventData.(ReservationEventData.returnedAt);
  |} in
  (* Get the email template *)
  template <- callWithClock host (fun now =>
    getEmailTemplate now eventType templateData) ;;
  (* Create the notification record *)
  uuid <- randomUUID host ;;
  notification <- callWithClock host (fun now =>
    liftCreate (createEmailNotification now {|
    CreateEmailNotificationParams.id := Some uuid;
    CreateEmailNotificationParams.userId :=
      eventData.(ReservationEventData.userId);
    CreateEmailNotificationParams.userEmail :=
      eventData.(ReservationEventData.userEmail);
    CreateEmailNotificationParams.type := eventType;
    CreateEmailNotificationParams.subject :=
      Some template.(EmailTemplate.subject);
    CreateEmailNotificationParams.htmlBody :=
      Some template.(EmailTemplate.htmlBody);
    CreateEmailNotificationParams.textBody :=
      Some template.(EmailTemplate.textBody);
    CreateEmailNotificationParams.reservationId :=
      eventData.(ReservationEventData.reservationId);
  |})) ;;
  (* Save initial pending notification *)
  notification <- awaitSave (notificationRepo deps) notification ;;
  (* Send the email *)
  sendResult <- awaitSendEmail (emailSender deps) {|
    EmailContent.to := eventData.(ReservationEventData.userEmail);
    EmailContent.subject := template.(EmailTemplate.subject);
    EmailContent.htmlBody := template.(EmailTemplate.htmlBody);
    EmailContent.textBody := Some template.(EmailTemplate.textBody);
  |} ;;
  if sendResult.(EmailSendResult.success) then
    (* Mark as sent *)
    notification <- callWithClock host (fun now =>
      inr (markNotificationSent now notification)) ;;
    notification <- awaitSave (notificationRepo deps) notification ;;
    console LevelLog
      (js "Email sent successfully: "
       ++ notification.(EmailNotification.id) ++ js " to "
       ++ String_of eventData.(ReservationEventData.userEmail)) ;;;
    ret {|
      SendReservationEmailResult.success := true;
      SendReservationEmailResult.notification := Some notification;
      SendReservationEmailResult.error := None;
    |}
  else
    (* Mark as failed *)
    notification <- callWithClock host (fun now =>
      inr (markNotificationFailed now notification
             (or_else sendResult.(EmailSendResult.error)
                (js "Unknown error")))) ;;
    notification <- awaitSave (notificationRepo deps) notification ;;
    console LevelError
      (js "Email send failed: "
       ++ notification.(EmailNotification.id) ++ js " - "
       ++ String_of sendResult.(EmailSendResult.error)) ;;;
    ret {|
      SendReservationEmailResult.success := false;
      SendReservationEmailResult.notification := Some notification;
      SendReservationEmailResult.error :=
        sendResult.(EmailSendResult.error);
    |}.

(** The [catch] clause. *)
Definition sendReservationEmail_catch (error : Thrown)
  : M W SendReservationEmailResult :=
  let message := errorMessage error in
  console LevelError (js "Error in sendReservationEmail: " ++ message) ;;;
  ret {|
    SendReservationEmailResult.success := false;
    SendReservationEmailResult.notification := None;
    SendReservationEmailResult.error := Some message;
  |}.

(** [sendReservationEmail] *)
Definition sendReservationEmail
    (deps : SendReservationEmailDeps W)
    (eventType : jsstring) (eventData : ReservationEventData)
  : M W SendReservationEmailResult :=
  tryCatch (sendReservationEmail_try deps eventType eventData)
    sendReservationEmail_catch.

End UseCase.

(* ===================================================================== *)
(** * A reference world *)
(* ===================================================================== *)

(** In-memory collaborators on which the use case can be run: a store that
    upserts by id and returns what it was given, a sender that answers by a
    fixed rule and keeps an outbox, a clock that ticks at every reading, and
    a runtime in the UTC time zone that lower-cases Basic Latin letters. *)
Module InMemory.

Record World : Type := mkWorld {
  time : Date;
  entropy : N;
  store : gmap jsstring EmailNotification;
  outbox : list EmailContent;
}.

Definition host : Host World := {|
  clock := fun w =>
    (time w, mkWorld (time w + 1)%Z (entropy w) (store w) (outbox w));
  random := fun w =>
    (entropy w,
     mkWorld (time w) (entropy w * 6364136223846793005 + 1442695040888963407)
       (store w) (outbox w));
|}.

Definition repo : NotificationRepo World := {|
  save := fun n w =>
    (inr n,
     mkWorld (time w) (entropy w)
       (<[n.(EmailNotification.id) := n]> (store w)) (outbox w));
|}.

Definition sender (reply : EmailContent -> EmailSendResult)
  : EmailSender World := {|
  sendEmail := fun c w =>
    (inr (reply c),
     mkWorld (time w) (entropy w) (store w) (outbox w ++ [c]));
|}.

Definition deps (reply : EmailContent -> EmailSendResult)
  : SendReservationEmailDeps World := {|
  emailSender := sender reply;
  notificationRepo := repo;
|}.

Definition delivered : EmailContent -> EmailSendResult :=
  fun _ => EmailSendResult.mk true (Some (js "msg-1")) None.

Definition refused (error : option jsstring)
  : EmailContent -> EmailSendResult :=
  fun _ => EmailSendResult.mk false None error.

Definition asciiLower (c : codeunit) : codeunit :=
  if (65 <=? c) && (c <=? 90) then c + 32 else c.

(** Calendar year of a time value in UTC (proleptic Gregorian). *)
Definition utcFullYear (t : Date) : Z :=
  let days := (t / 86400000)%Z in
  let z := (days + 719468)%Z in
  let era := (z / 146097)%Z in
  let doe := (z - era * 146097)%Z in
  let yoe := ((doe - doe / 1460 + doe / 36524 - doe / 146096) / 365)%Z in
  let doy := (doe - (365 * yoe + yoe / 4 - yoe / 100))%Z in
  let mp := ((5 * doy + 2) / 153)%Z in
  (yoe + era * 400 + (if (mp <? 10)%Z then 0 else 1))%Z.

Definition runtime : JsRuntime := {|
  toLowerCase := map asciiLower;
  getFullYear := utcFullYear;
|}.

(** 2026-01-01T00:00:00Z, an empty store and an empty outbox. *)
Definition initial : World :=
  mkWorld 1767225600000%Z 78611719388578709490803688960304785762 ∅ [].

End InMemory.

(** The event payload of the scenarios: only [reservationId], [userId] and
    [userEmail] are present. *)
Definition scenarioEvent (userId userEmail : jsval) : ReservationEventData :=
  {|
    ReservationEventData.reservationId := Some (js "R1");
    ReservationEventData.userId := userId;
    ReservationEventData.userEmail := userEmail;
    ReservationEventData.deviceId := None;
    ReservationEventData.deviceModelId := None;
    ReservationEventData.deviceName := None;
    ReservationEventData.reservedAt := None;
    ReservationEventData.expiresAt := None;
    ReservationEventData.collectedAt := None;
    ReservationEventData.returnDueAt := None;
    ReservationEventData.returnedAt := None;
    ReservationEventData.cancelledAt := None;
  |}.

(* ===================================================================== *)
(** * Reading a trace *)
(* ===================================================================== *)

Definition isSave (e : Event) : bool :=
  match e with
  | EvSave _ _ => true
  | _ => false
  end.

Definition isSend (e : Event) : bool :=
  match e with
  | EvSend _ _ => true
  | _ => false
  end.

(** The calls to the collaborators, without the console lines. *)
Definition calls (tr : list Event) : list Event :=
  List.filter (fun e => isSave e || isSend e) tr.

(** Sent and Failed are the terminal states. *)
Definition terminal (s : NotificationStatus) : bool :=
  match s with
  | Pending => false
  | Sent => true
  | Failed => true
  end.

(** The order of effects as the specification words it: one Pending write,
    then one terminal write, then at most one send attempt. *)
Definition WritesThenSend (tr : list Event) : Prop :=
  exists p sp t st sends,
    calls tr = EvSave p sp :: EvSave t st :: sends
    /\ p.(EmailNotification.status) = Pending
    /\ terminal t.(EmailNotification.status) = true
    /\ forallb isSend sends = true
    /\ (length sends <= 1)%nat.

(** The record the use case writes after the sender has answered. *)
Definition settle (now : Date) (saved : EmailNotification)
    (sendResult : EmailSendResult) : EmailNotification :=
  if sendResult.(EmailSendResult.success) then markNotificationSent now saved
  else
    markNotificationFailed now saved
      (or_else sendResult.(EmailSendResult.error) (js "Unknown error")).

(** The params the use case hands to [createEmailNotification]. *)
Definition eventParams (uuid : jsstring) (eventType : jsstring)
    (eventData : ReservationEventData) (template : EmailTemplate)
  : CreateEmailNotificationParams :=
  {|
    CreateEmailNotificationParams.id := Some uuid;
    CreateEmailNotificationParams.userId :=
      eventData.(ReservationEventData.userId);
    CreateEmailNotificationParams.userEmail :=
      eventData.(ReservationEventData.userEmail);
    CreateEmailNotificationParams.type := eventType;
    CreateEmailNotificationParams.subject :=
      Some template.(EmailTemplate.subject);
    CreateEmailNotificationParams.htmlBody :=
      Some template.(EmailTemplate.htmlBody);
    CreateEmailNotificationParams.textBody :=
      Some template.(EmailTemplate.textBody);
    CreateEmailNotificationParams.reservationId :=
      eventData.(ReservationEventData.reservationId);
  |}.

(** The template data the use case builds from an event. *)
Definition eventTemplateData (eventData : ReservationEventData)
  : ReservationEmailData :=
  {|
    ReservationEmailData.userEmail :=
      eventData.(ReservationEventData.userEmail);
    ReservationEmailData.reservationId :=
      eventData.(ReservationEventData.reservationId);
    ReservationEmailData.deviceName :=
      eventData.(ReservationEventData.deviceName);
    ReservationEmailData.reservedAt :=
      eventData.(ReservationEventData.reservedAt);
    ReservationEmailData.expiresAt :=
      eventData.(ReservationEventData.expiresAt);
    ReservationEmailData.collectedAt :=
      eventData.(ReservationEventData.collectedAt);
    ReservationEmailData.returnDueAt :=
      eventData.(ReservationEventData.returnDueAt);
    ReservationEmailData.returnedAt :=
      eventData.(ReservationEventData.returnedAt);
  |}.

(* ===================================================================== *)
(** * The specification's reading of validity *)
(* ===================================================================== *)

(** The shape [local@domain.tld]: three non-empty runs of code units that
    are neither white space nor [@], separated by [@] and by [.]. *)
Definition EmailShape (s : jsstring) : Prop :=
  exists local domain tld : jsstring,
    s = local ++ [64] ++ domain ++ [46] ++ tld
    /\ (local <> [] /\ forallb notSpaceAt local = true)
    /\ (domain <> [] /\ forallb notSpaceAt domain = true)
    /\ (tld <> [] /\ forallb notSpaceAt tld = true).

(** The checks of [create], in the order the specification lists them. *)
Inductive Check : Type :=
| CheckId
| CheckUserId
| CheckUserEmailNonEmpty
| CheckUserEmailFormat
| CheckSubject
| CheckHtmlBody
| CheckReservationId
| CheckType.

Definition checkOrder : list Check :=
  [CheckId; CheckUserId; CheckUserEmailNonEmpty; CheckUserEmailFormat;
   CheckSubject; CheckHtmlBody; CheckReservationId; CheckType].

(** The field an error of each check names. *)
Definition checkField (c : Check) : jsstring :=
  match c with
  | CheckId => js "id"
  | CheckUserId => js "userId"
  | CheckUserEmailNonEmpty => js "userEmail"
  | CheckUserEmailFormat => js "userEmail"
  | CheckSubject => js "subject"
  | CheckHtmlBody => js "htmlBody"
  | CheckReservationId => js "reservationId"
  | CheckType => js "type"
  end.

(** "Non-empty after trimming". *)
Definition NonEmptyTrimmed (v : jsval) : Prop :=
  exists s, v = Some s /\ trim s <> [].

(** What each check asks of the params, in the specification's words:
    the required fields are non-empty after trimming, the e-mail address has
    the shape [local@domain.tld], the type is one of the recognised ones. *)
Definition Passes (params : CreateEmailNotificationParams) (c : Check) : Prop :=
  match c with
  | CheckId => NonEmptyTrimmed params.(CreateEmailNotificationParams.id)
  | CheckUserId => NonEmptyTrimmed params.(CreateEmailNotificationParams.userId)
  | CheckUserEmailNonEmpty =>
    NonEmptyTrimmed params.(CreateEmailNotificationParams.userEmail)
  | CheckUserEmailFormat =>
    exists s, params.(CreateEmailNotificationParams.userEmail) = Some s
              /\ EmailShape (trim s)
  | CheckSubject => NonEmptyTrimmed params.(CreateEmailNotificationParams.subject)
  | CheckHtmlBody =>
    NonEmptyTrimmed params.(CreateEmailNotificationParams.htmlBody)
  | CheckReservationId =>
    NonEmptyTrimmed params.(CreateEmailNotificationParams.reservationId)
  | CheckType =>
    exists t : NotificationType,
      params.(CreateEmailNotificationParams.type) = NotificationType_value t
  end.

(** Params that satisfy every validity invariant. *)
Definition ValidParams (params : CreateEmailNotificationParams) : Prop :=
  Forall (Passes params) checkOrder.

(** The six subject lines as the specification gives them, with the
    application name as prefix. *)
Definition fixedSubject (t : NotificationType) : jsstring :=
  match t with
  | ReservationCreated =>
    js "Device Loan System - Your reservation is confirmed"
  | ReservationCollected =>
    js "Device Loan System - Device collected successfully"
  | ReservationReturned =>
    js "Device Loan System - Device returned - Thank you!"
  | ReservationCancelled =>
    js "Device Loan System - Reservation cancelled"
  | ReservationExpired =>
    js "Device Loan System - Reservation expired"
  | ReservationOverdue =>
    js "Device Loan System - ⚠️ URGENT: Device return overdue"
  end.

(** The [switch] of [getEmailTemplate], by cases on a member of the enum. *)
Definition templateFor `{JsRuntime} (t : NotificationType)
    (now : Date) (data : ReservationEmailData) : EmailTemplate :=
  match t with
  | ReservationCreated => getReservationCreatedEmail now data
  | ReservationCollected => getReservationCollectedEmail now data
  | ReservationReturned => getReservationReturnedEmail now data
  | ReservationCancelled => getReservationCancelledEmail now data
  | ReservationExpired => getReservationExpiredEmail now data
  | ReservationOverdue => getReservationOverdueEmail now data
  end.

(** ** The scenarios on the reference world

    The runs of the scenarios start in [InMemory.initial]; the clock is read
    at 1767225600000 (template), 1767225600001 (creation) and 1767225600002
    (transition). *)

Definition scenarioData : ReservationEventData :=
  scenarioEvent (Some (js "U1")) (Some (js "a@b.com")).

Definition scenarioTemplate : EmailTemplate :=
  @templateFor InMemory.runtime ReservationCreated 1767225600000%Z
    (eventTemplateData scenarioData).

Definition scenarioPending : EmailNotification :=
  {|
    EmailNotification.id := js "3b241101-e2bb-4255-8caf-4136c566a962";
    EmailNotification.userId := js "U1";
    EmailNotification.userEmail := js "a@b.com";
    EmailNotification.type := NotificationType_value ReservationCreated;
    EmailNotification.subject :=
      js "Device Loan System - Your reservation is confirmed";
    EmailNotification.htmlBody := scenarioTemplate.(EmailTemplate.htmlBody);
    EmailNotification.textBody :=
      Some (trim scenarioTemplate.(EmailTemplate.textBody));
    EmailNotification.status := Pending;
    EmailNotification.reservationId := js "R1";
    EmailNotification.createdAt := 1767225600001%Z;
    EmailNotification.sentAt := None;
    EmailNotification.failureReason := None;
    EmailNotification.retryCount := 0;
    EmailNotification.updatedAt := 1767225600001%Z;
  |}.

Definition scenarioContent : EmailContent :=
  {|
    EmailContent.to := Some (js "a@b.com");
    EmailContent.subject :=
      js "Device Loan System - Your reservation is confirmed";
    EmailContent.htmlBody := scenarioTemplate.(EmailTemplate.htmlBody);
    EmailContent.textBody := Some scenarioTemplate.(EmailTemplate.textBody);
  |}.

(** ** Sample data for the entity *)

Definition sampleParams : CreateEmailNotificationParams :=
  {|
    CreateEmailNotificationParams.id := Some (js " n-1 ");
    CreateEmailNotificationParams.userId := Some (js "U1");
    CreateEmailNotificationParams.userEmail := Some (js "  Alice@Example.COM ");
    CreateEmailNotificationParams.type :=
      NotificationType_value ReservationCreated;
    CreateEmailNotificationParams.subject := Some (js "Hello");
    CreateEmailNotificationParams.htmlBody := Some (js "<p>Hello</p>");
    CreateEmailNotificationParams.textBody := None;
    CreateEmailNotificationParams.reservationId := Some (js "R1");
  |}.

Definition sampleNotification : EmailNotification :=
  {|
    EmailNotification.id := js "n-1";
    EmailNotification.userId := js "U1";
    EmailNotification.userEmail := js "alice@example.com";
    EmailNotification.type := NotificationType_value ReservationCreated;
    EmailNotification.subject := js "Hello";
    EmailNotification.htmlBody := js "<p>Hello</p>";
    EmailNotification.textBody := None;
    EmailNotification.status := Pending;
    EmailNotification.reservationId := js "R1";
    EmailNotification.createdAt := 1767225600000%Z;
    EmailNotification.sentAt := None;
    EmailNotification.failureReason := None;
    EmailNotification.retryCount := 0;
    EmailNotification.updatedAt := 1767225600000%Z;
  |}.

(** A chain of failures: [markNotificationFailed] applied once per attempt,
    each with its own clock reading and reason. *)
Fixpoint failChain (attempts : list (Date * jsstring)) (n : EmailNotification)
  : EmailNotification :=
  match attempts with
  | [] => n
  | (now, reason) :: rest => failChain rest (markNotificationFailed now n reason)
  end.

(** A notification with another [retryCount]. *)
Definition withRetryCount (retryCount : N) (n : EmailNotification)
  : EmailNotification :=
  {|
    EmailNotification.id := n.(EmailNotification.id);
    EmailNotification.userId := n.(EmailNotification.userId);
    EmailNotification.userEmail := n.(EmailNotification.userEmail);
    EmailNotification.type := n.(EmailNotification.type);
    EmailNotification.subject := n.(EmailNotification.subject);
    EmailNotification.htmlBody := n.(EmailNotification.htmlBody);
    EmailNotification.textBody := n.(EmailNotification.textBody);
    EmailNotification.status := n.(EmailNotification.status);
    EmailNotification.reservationId := n.(EmailNotification.reservationId);
    EmailNotification.createdAt := n.(EmailNotification.createdAt);
    EmailNotification.sentAt := n.(EmailNotification.sentAt);
    EmailNotification.failureReason := n.(EmailNotification.failureReason);
    EmailNotification.retryCount := retryCount;
    EmailNotification.updatedAt := n.(EmailNotification.updatedAt);
  |}.

(** The sample notification after 2^53 failures were counted. *)
Definition saturatedNotification : EmailNotification :=
  withRetryCount (2 ^ 53) sampleNotification.

(** A store whose [save] always resolves, but not with the record it was
    given: it keeps the record as written and answers with a copy in which
    it has counted the write in [retryCount]. *)
Definition countingRepo : NotificationRepo InMemory.World := {|
  save := fun n w =>
    (inr (withRetryCount (n.(EmailNotification.retryCount) + 1) n),
     snd (save InMemory.repo n w));
|}.

Definition depsCountingStore : SendReservationEmailDeps InMemory.World := {|
  emailSender := InMemory.sender InMemory.delivered;
  notificationRepo := countingRepo;
|}.

(** The scenario event with an address that has no [local@domain.tld]
    shape. *)
Definition invalidEmailData : ReservationEventData :=
  scenarioEvent (Some (js "U1")) (Some (js "not-an-email")).

(** The scenario run against a sender that answers by [reply]. *)
Abbreviation scenarioRun reply eventData :=
  (@sendReservationEmail InMemory.runtime InMemory.World InMemory.host
     (InMemory.deps reply) (NotificationType_value ReservationCreated)
     eventData InMemory.initial).

(* ===================================================================== *)
(** * Further definitions: lifecycle chains and template data *)
(* ===================================================================== *)

(** A transition of the lifecycle with the clock reading it is given. *)
Inductive Transition : Type :=
| ToSent (now : Date)
| ToFailed (now : Date) (reason : jsstring).

Definition applyTransition (n : EmailNotification) (t : Transition)
  : EmailNotification :=
  match t with
  | ToSent now => markNotificationSent now n
  | ToFailed now reason => markNotificationFailed now n reason
  end.

(** Transitions applied one after the other, the first of the list first. *)
Definition applyTransitions (ts : list Transition) (n : EmailNotification)
  : EmailNotification :=
  fold_left applyTransition ts n.

Definition isFailure (t : Transition) : bool :=
  match t with
  | ToSent _ => false
  | ToFailed _ _ => true
  end.

Definition transitionTime (t : Transition) : Date :=
  match t with
  | ToSent now => now
  | ToFailed now _ => now
  end.

Definition transitionStatus (t : Transition) : NotificationStatus :=
  match t with
  | ToSent _ => Sent
  | ToFailed _ _ => Failed
  end.

(** An optional field as a template reads it: anything falsy is absent. *)
Definition presentOrAbsent (v : jsval) : jsval :=
  if truthy v then v else None.

(** Template data with every falsy optional field made absent and the
    e-mail address dropped. *)
Definition essentialData (data : ReservationEmailData) : ReservationEmailData :=
  {|
    ReservationEmailData.userEmail := None;
    ReservationEmailData.reservationId :=
      data.(ReservationEmailData.reservationId);
    ReservationEmailData.deviceName :=
      presentOrAbsent data.(ReservationEmailData.deviceName);
    ReservationEmailData.reservedAt :=
      presentOrAbsent data.(ReservationEmailData.reservedAt);
    ReservationEmailData.expiresAt :=
      presentOrAbsent data.(ReservationEmailData.expiresAt);
    ReservationEmailData.collectedAt :=
      presentOrAbsent data.(ReservationEmailData.collectedAt);
    ReservationEmailData.returnDueAt :=
      presentOrAbsent data.(ReservationEmailData.returnDueAt);
    ReservationEmailData.returnedAt :=
      presentOrAbsent data.(ReservationEmailData.returnedAt);
  |}.

(** The message of the [type] check. *)
Definition typeMessage : jsstring :=
  js "Notification type must be one of: ReservationCreated, ReservationCollected, ReservationReturned, ReservationCancelled, ReservationExpired, ReservationOverdue".

(** The number of occurrences of a code unit. *)
Definition occurrences (c : codeunit) (s : jsstring) : nat :=
  length (List.filter (N.eqb c) s).

(** Params whose id is blank and whose other fields are missing. *)
Definition blankIdParams : CreateEmailNotificationParams :=
  {|
    CreateEmailNotificationParams.id := Some (js "   ");
    CreateEmailNotificationParams.userId := None;
    CreateEmailNotificationParams.userEmail := None;
    CreateEmailNotificationParams.type := js "Other";
    CreateEmailNotificationParams.subject := None;
    CreateEmailNotificationParams.htmlBody := None;
    CreateEmailNotificationParams.textBody := None;
    CreateEmailNotificationParams.reservationId := None;
  |}.

(** A string that does not start with white space. *)
Definition headKept (s : jsstring) : Prop :=
  match s with
  | [] => True
  | c :: _ => isWhiteSpace c = false
  end.


(** ** Collaborators that reject, on the reference world *)

(** A store that rejects with [e] the records selected by [reject] and
    behaves like [InMemory.repo] on the others. *)
Definition rejectingRepo (reject : EmailNotification -> bool) (e : Thrown)
  : NotificationRepo InMemory.World := {|
  save := fun n w =>
    if reject n then (inl e, w) else save InMemory.repo n w;
|}.

(** A sender whose [sendEmail] rejects with [e]. *)
Definition throwingSender (e : Thrown) : EmailSender InMemory.World := {|
  sendEmail := fun _ w => (inl e, w);
|}.

Definition isPending (n : EmailNotification) : bool :=
  match n.(EmailNotification.status) with
  | Pending => true
  | _ => false
  end.

Definition storeDown : Thrown :=
  new_Error (js "Failed to save EmailNotification: connect ETIMEDOUT").

(** The failure result of the [catch] clause. *)
Definition failureResult (e : Thrown) : SendReservationEmailResult :=
  {|
    SendReservationEmailResult.success := false;
    SendReservationEmailResult.notification := None;
    SendReservationEmailResult.error := Some (errorMessage e);
  |}.

Definition depsStoreDown : SendReservationEmailDeps InMemory.World := {|
  emailSender := InMemory.sender InMemory.delivered;
  notificationRepo := rejectingRepo (fun _ => true) storeDown;
|}.

Definition depsSenderThrows : SendReservationEmailDeps InMemory.World := {|
  emailSender := throwingSender (new_Error (js "socket hang up"));
  notificationRepo := InMemory.repo;
|}.

Definition depsSecondWriteFails : SendReservationEmailDeps InMemory.World := {|
  emailSender := InMemory.sender InMemory.delivered;
  notificationRepo := rejectingRepo (fun n => negb (isPending n)) storeDown;
|}.

(** The scenario run against given collaborators. *)
Abbreviation scenarioRunWith deps eventType eventData :=
  (@sendReservationEmail InMemory.runtime InMemory.World InMemory.host
     deps eventType eventData InMemory.initial).

(** The scenario event with an address written with capitals and spaces. *)
Definition untidyEmailData : ReservationEventData :=
  scenarioEvent (Some (js " U1 ")) (Some (js " Alice@Example.COM ")).

Definition untidyPending : EmailNotification :=
  {|
    EmailNotification.id := js "3b241101-e2bb-4255-8caf-4136c566a962";
    EmailNotification.userId := js "U1";
    EmailNotification.userEmail := js "alice@example.com";
    EmailNotification.type := NotificationType_value ReservationCreated;
    EmailNotification.subject :=
      js "Device Loan System - Your reservation is confirmed";
    EmailNotification.htmlBody := scenarioTemplate.(EmailTemplate.htmlBody);
    EmailNotification.textBody :=
      Some (trim scenarioTemplate.(EmailTemplate.textBody));
    EmailNotification.status := Pending;
    EmailNotification.reservationId := js "R1";
    EmailNotification.createdAt := 1767225600001%Z;
    EmailNotification.sentAt := None;
    EmailNotification.failureReason := None;
    EmailNotification.retryCount := 0;
    EmailNotification.updatedAt := 1767225600001%Z;
  |}.

Definition untidyContent : EmailContent :=
  {|
    EmailContent.to := Some (js " Alice@Example.COM ");
    EmailContent.subject :=
      js "Device Loan System - Your reservation is confirmed";
    EmailContent.htmlBody := scenarioTemplate.(EmailTemplate.htmlBody);
    EmailContent.textBody := Some scenarioTemplate.(EmailTemplate.textBody);
  |}.

(* ===================================================================== *)
(** * Event adapter: [functions/reservation-events.ts] *)
(* ===================================================================== *)

(** [RESERVATION_EVENT_TYPES], the own properties of the table. *)
Definition RESERVATION_EVENT_TYPES : list (jsstring * NotificationType) :=
  [(js "reservation.created", ReservationCreated);
   (js "reservation.collected", ReservationCollected);
   (js "reservation.returned", ReservationReturned);
   (js "reservation.cancelled", ReservationCancelled);
   (js "reservation.expired", ReservationExpired);
   (js "reservation.overdue", ReservationOverdue)].

(** The table is an object literal, so a key it does not own is looked up
    on [Object.prototype] ([constructor], [toString], [__proto__], ...).
    What is found there is a function or an object; [String] renders it as
    ["function ..."] or ["[object ...]"].  Which keys the prototype answers
    is the runtime's. *)
Inductive InheritedValue : Type :=
| FunctionValue (source : jsstring)      (* String(v) = "function" ++ source *)
| ObjectValue (tag : jsstring).          (* String(v) = "[object " ++ tag ++ "]" *)

Class ObjectPrototype : Type := {
  inheritedProperty : jsstring -> option InheritedValue;
}.

(** The value of [RESERVATION_EVENT_TYPES[eventType]] when it is truthy. *)
Inductive TableValue : Type :=
| OwnValue (t : NotificationType)
| Inherited (v : InheritedValue).

Fixpoint ownProperty (table : list (jsstring * NotificationType))
    (key : jsstring) : option NotificationType :=
  match table with
  | [] => None
  | (k, t) :: rest => if jsstring_eqb key k then Some t else ownProperty rest key
  end.

Definition lookupEventType `{ObjectPrototype} (eventType : jsstring)
  : option TableValue :=
  match ownProperty RESERVATION_EVENT_TYPES eventType with
  | Some t => Some (OwnValue t)
  | None => option_map Inherited (inheritedProperty eventType)
  end.

(** [String(notificationType)], also what the use case sees of the value:
    it compares it with the six strings of the enum and prints it. *)
Definition renderTableValue (v : TableValue) : jsstring :=
  match v with
  | OwnValue t => NotificationType_value t
  | Inherited (FunctionValue source) => js "function" ++ source
  | Inherited (ObjectValue tag) => js "[object " ++ tag ++ js "]"
  end.

Module EventGridEvent.
Record t : Type := mk {
  id : jsstring;
  eventType : jsstring;
  data : ReservationEventData;
}.
End EventGridEvent.
Abbreviation EventGridEvent := EventGridEvent.t.

(** [getEmailSender] and [getNotificationRepo] of [config/appServices], as
    the adapter calls them: each returns its instance or throws. *)
Record AppServices (W : Type) : Type := {
  getEmailSender : W -> Settled (EmailSender W) * W;
  getNotificationRepo : W -> Settled (NotificationRepo W) * W;
}.
Arguments getEmailSender {W} _ _.
Arguments getNotificationRepo {W} _ _.

Inductive ContextLevel : Type := ContextLog | ContextWarn | ContextError.

(** What the handler does: lines written to the invocation context, and
    the effects of the use case it awaits. *)
Inductive AdapterEvent : Type :=
| EvContext (level : ContextLevel) (line : jsstring)
| EvUseCase (e : Event).

Record AdapterRun (W : Type) : Type := mkAdapterRun {
  settled : Settled unit;
  worldAfter : W;
  events : list AdapterEvent;
}.
Arguments mkAdapterRun {W} _ _ _.
Arguments settled {W} _.
Arguments worldAfter {W} _.
Arguments events {W} _.

Section Adapter.
Context `{JsRuntime} `{ObjectPrototype} {W : Type}.
Variable host : Host W.
Variable services : AppServices W.

(** The [try] block of [handleReservationEvent]. *)
Definition handleReservationEvent_try (event : EventGridEvent) (w : W)
  : AdapterRun W :=
  (* Check if this is a reservation event we handle *)
  let eventType := event.(EventGridEvent.eventType) in
  match lookupEventType eventType with
  | None =>
    mkAdapterRun (inr tt) w
      [EvContext ContextLog
         (js "Ignoring unhandled event type: " ++ eventType)]
  | Some notificationType =>
    (* Parse the event data *)
    let eventData := event.(EventGridEvent.data) in
    if falsy eventData.(ReservationEventData.userEmail) then
      mkAdapterRun (inr tt) w
        [EvContext ContextWarn
           (js "Event " ++ event.(EventGridEvent.id)
            ++ js " missing userEmail, skipping notification")]
    else if falsy eventData.(ReservationEventData.reservationId) then
      mkAdapterRun (inr tt) w
        [EvContext ContextWarn
           (js "Event " ++ event.(EventGridEvent.id)
            ++ js " missing reservationId, skipping notification")]
    else
      let processing :=
        EvContext ContextLog
          (js "Processing " ++ renderTableValue notificationType
           ++ js " for reservation "
           ++ String_of eventData.(ReservationEventData.reservationId)) in
      (* Send the email notification *)
      match getEmailSender services w with
      | (inl e, w1) => mkAdapterRun (inl e) w1 [processing]
      | (inr sender, w1) =>
        match getNotificationRepo services w1 with
        | (inl e, w2) => mkAdapterRun (inl e) w2 [processing]
        | (inr repo, w2) =>
          let r :=
            sendReservationEmail host
              {| emailSender := sender; notificationRepo := repo |}
              (renderTableValue notificationType) eventData w2 in
          match outcome r with
          | inl e =>
            mkAdapterRun (inl e) (world r)
              (processing :: map EvUseCase (trace r))
          | inr result =>
            mkAdapterRun (inr tt) (world r)
              (processing :: map EvUseCase (trace r)
               ++ [if result.(SendReservationEmailResult.success) then
                     EvContext ContextLog
                       (js "Email sent successfully for event "
                        ++ event.(EventGridEvent.id))
                   else
                     EvContext ContextError
                       (js "Failed to send email for event "
                        ++ event.(EventGridEvent.id) ++ js ": "
                        ++ String_of
                             result.(SendReservationEmailResult.error))])
          end
        end
      end
  end.

(** [handleReservationEvent]: the first line is logged before the [try];
    the [catch] clause logs and does not throw again. *)
Definition handleReservationEvent (event : EventGridEvent) (w : W)
  : AdapterRun W :=
  let received :=
    EvContext ContextLog
      (js "Received event: " ++ event.(EventGridEvent.eventType)
       ++ js " - " ++ event.(EventGridEvent.id)) in
  let body := handleReservationEvent_try event w in
  match settled body with
  | inr _ => mkAdapterRun (inr tt) (worldAfter body) (received :: events body)
  | inl error =>
    mkAdapterRun (inr tt) (worldAfter body)
      (received :: events body
       ++ [EvContext ContextError
             (js "Error processing reservation event: "
              ++ errorMessage error)])
  end.

End Adapter.

(** The event types of the table, by type. *)
Definition eventTypeName (t : NotificationType) : jsstring :=
  match t with
  | ReservationCreated => js "reservation.created"
  | ReservationCollected => js "reservation.collected"
  | ReservationReturned => js "reservation.returned"
  | ReservationCancelled => js "reservation.cancelled"
  | ReservationExpired => js "reservation.expired"
  | ReservationOverdue => js "reservation.overdue"
  end.

(** The properties of [Object.prototype] in Node.js. *)
Definition nodePrototype : ObjectPrototype := {|
  inheritedProperty := fun key =>
    if jsstring_eqb key (js "__proto__") then Some (ObjectValue (js "Object"))
    else if jsstring_eqb key (js "constructor") then
      Some (FunctionValue (js " Object() { [native code] }"))
    else if existsb (jsstring_eqb key)
              [js "__defineGetter__"; js "__defineSetter__";
               js "hasOwnProperty"; js "__lookupGetter__";
               js "__lookupSetter__"; js "isPrototypeOf";
               js "propertyIsEnumerable"; js "toString"; js "valueOf";
               js "toLocaleString"] then
      Some (FunctionValue (js " " ++ key ++ js "() { [native code] }"))
    else None;
|}.

(** Services on the reference world that hand out the in-memory
    collaborators. *)
Definition memoryServices (reply : EmailContent -> EmailSendResult)
  : AppServices InMemory.World := {|
  getEmailSender := fun w => (inr (InMemory.sender reply), w);
  getNotificationRepo := fun w => (inr InMemory.repo, w);
|}.

(** Services whose configuration is missing. *)
Definition unconfiguredServices : AppServices InMemory.World := {|
  getEmailSender := fun w =>
    (inl (new_Error
            (js "ACS_CONNECTION_STRING environment variable is required")), w);
  getNotificationRepo := fun w => (inr InMemory.repo, w);
|}.

Definition scenarioGridEvent (eventType : jsstring)
    (eventData : ReservationEventData) : EventGridEvent :=
  EventGridEvent.mk (js "evt-1") eventType eventData.

(* ===================================================================== *)
(** * CORS: [infra/middleware/cors.ts] *)
(* ===================================================================== *)

(** [String.prototype.split] with a separator of one code unit. *)
Fixpoint String_split (sep : codeunit) (s : jsstring) : list jsstring :=
  match s with
  | [] => [[]]
  | c :: rest =>
    if N.eqb c sep then [] :: String_split sep rest
    else match String_split sep rest with
         | [] => [[c]]
         | piece :: pieces => (c :: piece) :: pieces
         end
  end.

(** [ALLOWED_ORIGINS], from the value of the environment variable of the
    same name when the module is loaded. *)
Definition ALLOWED_ORIGINS (env : jsval) : list jsstring :=
  [js "http://localhost:5173"; js "http://localhost:3000"]
  (* Add production origins from environment variable *)
  ++ match env with
     | Some s => String_split 44 s
     | None => []
     end.

(** Headers given as a plain object: own string properties by name. *)
Abbreviation Headers := (gmap jsstring jsstring).

(** [HttpResponseInit], with the properties the handlers of the service
    set.  [headers] is absent or a plain object. *)
Module HttpResponseInit.
Record t (Body : Type) : Type := mk {
  status : option Z;
  jsonBody : option Body;
  headers : option Headers;
}.
Arguments mk {Body} _ _ _.
Arguments status {Body} _.
Arguments jsonBody {Body} _.
Arguments headers {Body} _.
End HttpResponseInit.
Abbreviation HttpResponseInit := HttpResponseInit.t.

(** [{...headers}]: spreading [undefined] adds nothing. *)
Definition spreadHeaders (headers : option Headers) : Headers :=
  match headers with
  | Some h => h
  | None => ∅
  end.

(** Adds CORS headers to response *)
Definition addCorsHeaders {Body} (env : jsval) (response : HttpResponseInit Body)
    (origin : jsval) : HttpResponseInit Body :=
  let requestOrigin := or_else origin (js "*") in
  let allowedOrigin :=
    if existsb (jsstring_eqb requestOrigin) (ALLOWED_ORIGINS env)
    then requestOrigin
    else or_else (nth_error (ALLOWED_ORIGINS env) 0) (js "*") in
  {|
    HttpResponseInit.status := response.(HttpResponseInit.status);
    HttpResponseInit.jsonBody := response.(HttpResponseInit.jsonBody);
    HttpResponseInit.headers :=
      Some (<[js "Access-Control-Max-Age" := js "3600"]>
            (<[js "Access-Control-Allow-Headers"
               := js "Content-Type, Authorization"]>
             (<[js "Access-Control-Allow-Methods"
                := js "GET, POST, PUT, DELETE, OPTIONS"]>
              (<[js "Access-Control-Allow-Origin" := allowedOrigin]>
               (spreadHeaders response.(HttpResponseInit.headers))))));
  |}.

(** Handles CORS preflight requests *)
Definition handleCorsPreflight {Body} (env : jsval) (origin : jsval)
  : HttpResponseInit Body :=
  let requestOrigin := or_else origin (js "*") in
  let allowedOrigin :=
    if existsb (jsstring_eqb requestOrigin) (ALLOWED_ORIGINS env)
    then requestOrigin
    else or_else (nth_error (ALLOWED_ORIGINS env) 0) (js "*") in
  {|
    HttpResponseInit.status := Some 204%Z;
    HttpResponseInit.jsonBody := None;
    HttpResponseInit.headers :=
      Some (<[js "Access-Control-Max-Age" := js "3600"]>
            (<[js "Access-Control-Allow-Headers"
               := js "Content-Type, Authorization"]>
             (<[js "Access-Control-Allow-Methods"
                := js "GET, POST, PUT, DELETE, OPTIONS"]>
              (<[js "Access-Control-Allow-Origin" := allowedOrigin]> ∅))));
  |}.

(** ** Reading a response *)

(** The value of the header [name] of a response. *)
Definition header {Body} (response : HttpResponseInit Body) (name : jsstring)
  : option jsstring :=
  match response.(HttpResponseInit.headers) with
  | Some h => h !! name
  | None => None
  end.

Definition corsHeaderNames : list jsstring :=
  [js "Access-Control-Allow-Origin"; js "Access-Control-Allow-Methods";
   js "Access-Control-Allow-Headers"; js "Access-Control-Max-Age"].

(** The request's origin as the CORS functions read it. *)
Definition requestedOrigin (origin : jsval) : jsstring :=
  or_else origin (js "*").

(** A health response of the service, for the examples. *)
Definition healthyResponse : HttpResponseInit jsstring :=
  {|
    HttpResponseInit.status := Some 200%Z;
    HttpResponseInit.jsonBody := Some (js "healthy");
    HttpResponseInit.headers :=
      Some {[ js "Cache-Control" := js "no-store" ]};
  |}.

(* ===================================================================== *)
(** * Infrastructure adapters: logging and effects *)
(* ===================================================================== *)

(** The adapters log through a [Logger] of [infra/logging/logger.ts].  A
    call of one of its methods is recorded with its arguments; the methods
    write to the console and to the telemetry client and return. *)
Inductive LogLevel : Type := LogTrace | LogDebug | LogInfo | LogWarn.

(** A value of a [LogContext]: [string | number | boolean | undefined]. *)
Inductive LogValue : Type :=
| LogString (s : jsstring)
| LogNumber (n : Z)
| LogBoolean (b : bool)
| LogUndefined.

Definition LogContext : Type := list (jsstring * LogValue).

Definition logValue (v : jsval) : LogValue :=
  match v with
  | Some s => LogString s
  | None => LogUndefined
  end.

Inductive LoggerCall : Type :=
| LogMessage (level : LogLevel) (message : jsstring) (context : LogContext)
| LogError (message : jsstring) (error : Thrown) (context : LogContext)
| TrackDependency (name target : jsstring) (duration : Z) (success : bool)
    (context : LogContext).

(** A run of an adapter's method: how its promise settles, the world it
    leaves, and what it did, in order. *)
Record RunOf (E W A : Type) : Type := mkRunOf {
  value : Settled A;
  after : W;
  did : list E;
}.
Arguments mkRunOf {E W A} _ _ _.
Arguments value {E W A} _.
Arguments after {E W A} _.
Arguments did {E W A} _.

(* ===================================================================== *)
(** * E-mail adapter: [infra/adapters/acs-email-sender.ts] *)
(* ===================================================================== *)

(** The message handed to the SDK's [EmailClient.beginSend]. *)
Module EmailMessage.
Record t : Type := mk {
  senderAddress : jsstring;
  subject : jsstring;
  html : jsstring;
  plainText : option jsstring;
  to : list jsval;                      (* recipients.to[i].address *)
}.
End EmailMessage.
Abbreviation EmailMessage := EmailMessage.t.

(** What the SDK's poller resolves with. *)
Module SendOperation.
Record t : Type := mk {
  id : jsstring;
  status : jsstring;
}.
End SendOperation.
Abbreviation SendOperation := SendOperation.t.

(** [KnownEmailSendStatus.Succeeded] of [@azure/communication-email]. *)
Definition KnownEmailSendStatus_Succeeded : jsstring := js "Succeeded".

(** The SDK's [EmailClient]: [beginSend] resolves with a poller, whose
    [pollUntilDone] resolves with the state of the operation. *)
Record EmailClient (W Poller : Type) : Type := {
  beginSend : EmailMessage -> W -> Settled Poller * W;
  pollUntilDone : Poller -> W -> Settled SendOperation * W;
}.
Arguments beginSend {W Poller} _ _ _.
Arguments pollUntilDone {W Poller} _ _ _.

(** The fields of an [AcsEmailSender] that [sendEmail] reads. *)
Record AcsEmailSender (W Poller : Type) : Type := {
  client : EmailClient W Poller;
  senderAddress : jsstring;
}.
Arguments client {W Poller} _.
Arguments senderAddress {W Poller} _.

Inductive SenderEvent : Type :=
| SvLog (call : LoggerCall)
| SvBeginSend (message : EmailMessage) (rejected : option Thrown)
| SvPollUntilDone (settled : Settled SendOperation).

Section AcsEmailSender.
Context {W Poller : Type}.
Variable host : Host W.

(** The [catch] clause of [sendEmail]. *)
Definition AcsEmailSender_sendEmail_catch (startTime : Date)
    (content : EmailContent) (error : Thrown) (w : W)
  : RunOf SenderEvent W EmailSendResult :=
  let '(now, w') := clock host w in
  let duration := (now - startTime)%Z in
  let errorMessage := errorMessage error in
  mkRunOf
    (inr {|
       EmailSendResult.success := false;
       EmailSendResult.messageId := None;
       EmailSendResult.error := Some errorMessage;
     |})
    w'
    [SvLog (LogError (js "Email send error") error
              [(js "to", logValue content.(EmailContent.to));
               (js "durationMs", LogNumber duration)]);
     SvLog (TrackDependency (js "ACS.Email.Send")
              (js "AzureCommunicationServices") duration false
              [(js "recipient", logValue content.(EmailContent.to))])].

(** [AcsEmailSender.sendEmail] *)
Definition AcsEmailSender_sendEmail (this : AcsEmailSender W Poller)
    (content : EmailContent) (w : W) : RunOf SenderEvent W EmailSendResult :=
  let '(startTime, w0) := clock host w in
  let sending :=
    SvLog (LogMessage LogDebug (js "Sending email")
             [(js "to", logValue content.(EmailContent.to));
              (js "subject", LogString content.(EmailContent.subject))]) in
  let message := {|
    EmailMessage.senderAddress := senderAddress this;
    EmailMessage.subject := content.(EmailContent.subject);
    EmailMessage.html := content.(EmailContent.htmlBody);
    EmailMessage.plainText := content.(EmailContent.textBody);
    EmailMessage.to := [content.(EmailContent.to)];
  |} in
  (* Start the send operation *)
  match beginSend (client this) message w0 with
  | (inl error, w1) =>
    let r := AcsEmailSender_sendEmail_catch startTime content error w1 in
    mkRunOf (value r) (after r)
      (sending :: SvBeginSend message (Some error) :: did r)
  | (inr poller, w1) =>
    (* Wait for the operation to complete *)
    match pollUntilDone (client this) poller w1 with
    | (inl error, w2) =>
      let r := AcsEmailSender_sendEmail_catch startTime content error w2 in
      mkRunOf (value r) (after r)
        (sending :: SvBeginSend message None :: SvPollUntilDone (inl error)
         :: did r)
    | (inr result, w2) =>
      let '(now, w3) := clock host w2 in
      let duration := (now - startTime)%Z in
      if jsstring_eqb result.(SendOperation.status)
           KnownEmailSendStatus_Succeeded then
        mkRunOf
          (inr {|
             EmailSendResult.success := true;
             EmailSendResult.messageId := Some result.(SendOperation.id);
             EmailSendResult.error := None;
           |})
          w3
          [sending; SvBeginSend message None; SvPollUntilDone (inr result);
           SvLog (LogMessage LogInfo (js "Email sent successfully")
                    [(js "to", logValue content.(EmailContent.to));
                     (js "messageId", LogString result.(SendOperation.id));
                     (js "durationMs", LogNumber duration)]);
           SvLog (TrackDependency (js "ACS.Email.Send")
                    (js "AzureCommunicationServices") duration true
                    [(js "recipient", logValue content.(EmailContent.to))])]
      else
        let error :=
          js "Email send failed with status: "
          ++ result.(SendOperation.status) in
        mkRunOf
          (inr {|
             EmailSendResult.success := false;
             EmailSendResult.messageId := None;
             EmailSendResult.error := Some error;
           |})
          w3
          [sending; SvBeginSend message None; SvPollUntilDone (inr result);
           SvLog (LogMessage LogWarn (js "Email send failed")
                    [(js "to", logValue content.(EmailContent.to));
                     (js "status", LogString result.(SendOperation.status));
                     (js "durationMs", LogNumber duration)]);
           SvLog (TrackDependency (js "ACS.Email.Send")
                    (js "AzureCommunicationServices") duration false
                    [(js "recipient", logValue content.(EmailContent.to));
                     (js "status",
                      LogString result.(SendOperation.status))])]
    end
  end.

(** The adapter as the port the use case is given. *)
Definition acsEmailSender (this : AcsEmailSender W Poller) : EmailSender W := {|
  sendEmail := fun content w =>
    let r := AcsEmailSender_sendEmail this content w in
    (value r, after r);
|}.

End AcsEmailSender.

(** ** Reading a run of the adapter *)




(** ** A reference client *)

(** A client on the in-memory world: the message is put into the outbox
    as the content it carries; the operation ends in [status]. *)
Definition memoryClient (status : jsstring)
  : EmailClient InMemory.World jsstring := {|
  beginSend := fun message w =>
    (inr (js "op-1"),
     InMemory.mkWorld (InMemory.time w) (InMemory.entropy w)
       (InMemory.store w)
       (InMemory.outbox w
        ++ map (fun address => {|
                  EmailContent.to := address;
                  EmailContent.subject := message.(EmailMessage.subject);
                  EmailContent.htmlBody := message.(EmailMessage.html);
                  EmailContent.textBody := message.(EmailMessage.plainText);
                |}) message.(EmailMessage.to)));
  pollUntilDone := fun poller w =>
    (inr {| SendOperation.id := poller; SendOperation.status := status |}, w);
|}.

(** A client whose service cannot be reached. *)
Definition unreachableClient : EmailClient InMemory.World jsstring := {|
  beginSend := fun message w => (inl (new_Error (js "getaddrinfo ENOTFOUND")), w);
  pollUntilDone := fun poller w =>
    (inr {| SendOperation.id := poller; SendOperation.status := js "Failed" |},
     w);
|}.

Definition memoryAcsSender (client : EmailClient InMemory.World jsstring)
  : AcsEmailSender InMemory.World jsstring := {|
  client := client;
  senderAddress := js "DoNotReply@deviceloan.edu";
|}.

(* ===================================================================== *)
(** * Repository adapter: [infra/adapters/cosmos-notification-repo.ts] *)
(* ===================================================================== *)

(** A [Date] object: a time value, or an Invalid Date. *)
Inductive DateValue : Type :=
| ValidDate (time : Z)
| InvalidDate.

(** [Date.prototype.toISOString] and [new Date(string)].  Which strings
    the constructor reads beyond the ISO format is the runtime's. *)
Class JsDates : Type := {
  toISOString : Date -> jsstring;
  parseDate : jsstring -> DateValue;
}.

Definition NotificationStatus_value (s : NotificationStatus) : jsstring :=
  match s with
  | Pending => js "Pending"
  | Sent => js "Sent"
  | Failed => js "Failed"
  end.

Module NotificationDocument.
Record t : Type := mk {
  id : jsstring;
  userId : jsstring;
  userEmail : jsstring;
  type : jsstring;
  subject : jsstring;
  htmlBody : jsstring;
  textBody : option jsstring;
  status : NotificationStatus;
  reservationId : jsstring;
  createdAt : jsstring;                 (* ISO string *)
  sentAt : option jsstring;             (* ISO string *)
  failureReason : option jsstring;
  retryCount : N;
  updatedAt : jsstring;                 (* ISO string *)
}.
End NotificationDocument.
Abbreviation NotificationDocument := NotificationDocument.t.

(** What [mapToDomain] returns: an [EmailNotification] whose [sentAt] is
    whatever [new Date] made of the stored string. *)
Module LoadedNotification.
Record t : Type := mk {
  id : jsstring;
  userId : jsstring;
  userEmail : jsstring;
  type : jsstring;
  subject : jsstring;
  htmlBody : jsstring;
  textBody : option jsstring;
  status : NotificationStatus;
  reservationId : jsstring;
  createdAt : Date;
  sentAt : option DateValue;
  failureReason : option jsstring;
  retryCount : N;
  updatedAt : Date;
}.
End LoadedNotification.
Abbreviation LoadedNotification := LoadedNotification.t.

(** [mapToDocument] *)
Definition mapToDocument `{JsDates} (notification : EmailNotification)
  : NotificationDocument :=
  {|
    NotificationDocument.id := notification.(EmailNotification.id);
    NotificationDocument.userId := notification.(EmailNotification.userId);
    NotificationDocument.userEmail :=
      notification.(EmailNotification.userEmail);
    NotificationDocument.type := notification.(EmailNotification.type);
    NotificationDocument.subject := notification.(EmailNotification.subject);
    NotificationDocument.htmlBody :=
      notification.(EmailNotification.htmlBody);
    NotificationDocument.textBody :=
      notification.(EmailNotification.textBody);
    NotificationDocument.status := notification.(EmailNotification.status);
    NotificationDocument.reservationId :=
      notification.(EmailNotification.reservationId);
    NotificationDocument.createdAt :=
      toISOString notification.(EmailNotification.createdAt);
    NotificationDocument.sentAt :=
      option_map toISOString notification.(EmailNotification.sentAt);
    NotificationDocument.failureReason :=
      notification.(EmailNotification.failureReason);
    NotificationDocument.retryCount :=
      notification.(EmailNotification.retryCount);
    NotificationDocument.updatedAt :=
      toISOString notification.(EmailNotification.updatedAt);
  |}.

(** [mapToDomain] *)
Definition mapToDomain `{JsDates} (document : NotificationDocument)
  : Thrown + LoadedNotification :=
  match parseDate document.(NotificationDocument.createdAt) with
  | InvalidDate =>
    inl (new_Error (js "Invalid createdAt value from Cosmos DB: "
                    ++ document.(NotificationDocument.createdAt)))
  | ValidDate createdAt =>
    match parseDate document.(NotificationDocument.updatedAt) with
    | InvalidDate =>
      inl (new_Error (js "Invalid updatedAt value from Cosmos DB: "
                      ++ document.(NotificationDocument.updatedAt)))
    | ValidDate updatedAt =>
      inr {|
        LoadedNotification.id := document.(NotificationDocument.id);
        LoadedNotification.userId := document.(NotificationDocument.userId);
        LoadedNotification.userEmail :=
          document.(NotificationDocument.userEmail);
        LoadedNotification.type := document.(NotificationDocument.type);
        LoadedNotification.subject :=
          document.(NotificationDocument.subject);
        LoadedNotification.htmlBody :=
          document.(NotificationDocument.htmlBody);
        LoadedNotification.textBody :=
          document.(NotificationDocument.textBody);
        LoadedNotification.status := document.(NotificationDocument.status);
        LoadedNotification.reservationId :=
          document.(NotificationDocument.reservationId);
        LoadedNotification.createdAt := createdAt;
        LoadedNotification.sentAt :=
          if truthy document.(NotificationDocument.sentAt)
          then Some (parseDate (str document.(NotificationDocument.sentAt)))
          else None;
        LoadedNotification.failureReason :=
          document.(NotificationDocument.failureReason);
        LoadedNotification.retryCount :=
          document.(NotificationDocument.retryCount);
        LoadedNotification.updatedAt := updatedAt;
      |}
    end
  end.

(** [wrapError] *)
Definition wrapError (message : jsstring) (error : Thrown) : Thrown :=
  new_Error (message ++ js ": " ++ errorMessage error).

(** A value the SDK rejects with: the thrown value and the numeric or
    string [code] and [statusCode] it may carry. *)
Inductive CodeValue : Type :=
| CodeNumber (n : Z)
| CodeString (s : jsstring).

Module SdkError.
Record t : Type := mk {
  thrown : Thrown;
  code : option CodeValue;
  statusCode : option CodeValue;
}.
End SdkError.
Abbreviation SdkError := SdkError.t.

(** An error made by the adapter itself has neither. *)
Definition ownError (error : Thrown) : SdkError :=
  SdkError.mk error None None.

(** [isNotFound] *)
Definition isNotFound (error : SdkError) : bool :=
  let code :=
    match error.(SdkError.code) with
    | Some c => Some c
    | None => error.(SdkError.statusCode)
    end in
  match code with
  | Some (CodeNumber 404) => true
  | _ => false
  end.

(** The SDK's container: [items.upsert], [item(id, key).read] and
    [item(id, key).delete]; [upsert] and [read] resolve with the
    [resource] of the response, which may be missing. *)
Record Container (W : Type) : Type := {
  items_upsert : NotificationDocument -> W
                 -> (SdkError + option NotificationDocument) * W;
  item_read : jsstring -> jsstring -> W
              -> (SdkError + option NotificationDocument) * W;
  item_delete : jsstring -> jsstring -> W -> (SdkError + unit) * W;
}.
Arguments items_upsert {W} _ _ _.
Arguments item_read {W} _ _ _ _.
Arguments item_delete {W} _ _ _ _.

Inductive RepoEvent : Type :=
| RvLog (call : LoggerCall)
| RvUpsert (document : NotificationDocument)
    (settled : SdkError + option NotificationDocument)
| RvRead (id partitionKey : jsstring)
    (settled : SdkError + option NotificationDocument)
| RvDelete (id partitionKey : jsstring) (settled : SdkError + unit).

Section CosmosNotificationRepo.
Context `{JsDates} {W : Type}.
Variable host : Host W.
Variable container : Container W.

(** The [catch] clause of [getById]. *)
Definition CosmosNotificationRepo_getById_catch (startTime : Date)
    (id : jsstring) (error : SdkError) (w : W)
  : RunOf RepoEvent W (option LoadedNotification) :=
  if isNotFound error then
    let '(now, w') := clock host w in
    let duration := (now - startTime)%Z in
    mkRunOf (inr None) w'
      [RvLog (LogMessage LogDebug (js "Notification not found (404)")
                [(js "notificationId", LogString id);
                 (js "durationMs", LogNumber duration)])]
  else
    let '(now, w') := clock host w in
    let duration := (now - startTime)%Z in
    mkRunOf
      (inl (wrapError (js "Failed to get EmailNotification by id")
              error.(SdkError.thrown)))
      w'
      [RvLog (LogError (js "Failed to get notification by ID")
                error.(SdkError.thrown)
                [(js "notificationId", LogString id);
                 (js "durationMs", LogNumber duration)])].

(** [getById] *)
Definition CosmosNotificationRepo_getById (id : jsstring) (w : W)
  : RunOf RepoEvent W (option LoadedNotification) :=
  let '(startTime, w0) := clock host w in
  let getting :=
    RvLog (LogMessage LogDebug (js "Getting notification by ID")
             [(js "notificationId", LogString id)]) in
  match item_read container id id w0 with
  | (inl error, w1) =>
    let r := CosmosNotificationRepo_getById_catch startTime id error w1 in
    mkRunOf (value r) (after r)
      (getting :: RvRead id id (inl error) :: did r)
  | (inr resource, w1) =>
    let '(now, w2) := clock host w1 in
    let duration := (now - startTime)%Z in
    match resource with
    | None =>
      mkRunOf (inr None) w2
        [getting; RvRead id id (inr resource);
         RvLog (LogMessage LogDebug (js "Notification not found")
                  [(js "notificationId", LogString id);
                   (js "durationMs", LogNumber duration)])]
    | Some document =>
      let retrieved :=
        RvLog (LogMessage LogDebug (js "Notification retrieved successfully")
                 [(js "notificationId", LogString id);
                  (js "durationMs", LogNumber duration)]) in
      match mapToDomain document with
      | inr notification =>
        mkRunOf (inr (Some notification)) w2
          [getting; RvRead id id (inr resource); retrieved]
      | inl error =>
        let r :=
          CosmosNotificationRepo_getById_catch startTime id (ownError error)
            w2 in
        mkRunOf (value r) (after r)
          (getting :: RvRead id id (inr resource) :: retrieved :: did r)
      end
    end
  end.

(** The [catch] clause of [save]. *)
Definition CosmosNotificationRepo_save_catch (startTime : Date)
    (notification : EmailNotification) (error : Thrown) (w : W)
  : RunOf RepoEvent W LoadedNotification :=
  let '(now, w') := clock host w in
  let duration := (now - startTime)%Z in
  mkRunOf
    (inl (wrapError (js "Failed to save EmailNotification") error))
    w'
    [RvLog (LogError (js "Failed to save notification") error
              [(js "notificationId",
                LogString notification.(EmailNotification.id));
               (js "durationMs", LogNumber duration)])].

(** [save] *)
Definition CosmosNotificationRepo_save (notification : EmailNotification)
    (w : W) : RunOf RepoEvent W LoadedNotification :=
  let '(startTime, w0) := clock host w in
  let saving :=
    RvLog (LogMessage LogDebug (js "Saving notification")
             [(js "notificationId",
               LogString notification.(EmailNotification.id));
              (js "userId", LogString notification.(EmailNotification.userId));
              (js "type", LogString notification.(EmailNotification.type));
              (js "status",
               LogString
                 (NotificationStatus_value
                    notification.(EmailNotification.status)))]) in
  let document := mapToDocument notification in
  match items_upsert container document w0 with
  | (inl error, w1) =>
    let r :=
      CosmosNotificationRepo_save_catch startTime notification
        error.(SdkError.thrown) w1 in
    mkRunOf (value r) (after r)
      (saving :: RvUpsert document (inl error) :: did r)
  | (inr resource, w1) =>
    let '(now, w2) := clock host w1 in
    let duration := (now - startTime)%Z in
    match resource with
    | None =>
      let noResource :=
        RvLog (LogError (js "Upsert returned no resource")
                 (new_Error (js "No resource returned"))
                 [(js "notificationId",
                   LogString notification.(EmailNotification.id))]) in
      let r :=
        CosmosNotificationRepo_save_catch startTime notification
          (new_Error (js "Upsert returned no resource")) w2 in
      mkRunOf (value r) (after r)
        (saving :: RvUpsert document (inr resource) :: noResource :: did r)
    | Some stored =>
      let saved :=
        RvLog (LogMessage LogInfo (js "Notification saved")
                 [(js "notificationId",
                   LogString notification.(EmailNotification.id));
                  (js "status",
                   LogString
                     (NotificationStatus_value
                        notification.(EmailNotification.status)));
                  (js "userId",
                   LogString notification.(EmailNotification.userId));
                  (js "durationMs", LogNumber duration)]) in
      match mapToDomain stored with
      | inr loaded =>
        mkRunOf (inr loaded) w2
          [saving; RvUpsert document (inr resource); saved]
      | inl error =>
        let r :=
          CosmosNotificationRepo_save_catch startTime notification error
            w2 in
        mkRunOf (value r) (after r)
          (saving :: RvUpsert document (inr resource) :: saved :: did r)
      end
    end
  end.

(** [delete] *)
Definition CosmosNotificationRepo_delete (id : jsstring) (w : W)
  : RunOf RepoEvent W unit :=
  let '(startTime, w0) := clock host w in
  let deleting :=
    RvLog (LogMessage LogDebug (js "Deleting notification")
             [(js "notificationId", LogString id)]) in
  match item_delete container id id w0 with
  | (inr _, w1) =>
    let '(now, w2) := clock host w1 in
    let duration := (now - startTime)%Z in
    mkRunOf (inr tt) w2
      [deleting; RvDelete id id (inr tt);
       RvLog (LogMessage LogInfo (js "Notification deleted")
                [(js "notificationId", LogString id);
                 (js "durationMs", LogNumber duration)])]
  | (inl error, w1) =>
    let '(now, w2) := clock host w1 in
    let duration := (now - startTime)%Z in
    if isNotFound error then
      (* idempotent delete *)
      mkRunOf (inr tt) w2
        [deleting; RvDelete id id (inl error);
         RvLog (LogMessage LogDebug
                  (js "Notification not found for deletion (idempotent)")
                  [(js "notificationId", LogString id);
                   (js "durationMs", LogNumber duration)])]
    else
      mkRunOf
        (inl (wrapError (js "Failed to delete EmailNotification")
                error.(SdkError.thrown)))
        w2
        [deleting; RvDelete id id (inl error);
         RvLog (LogError (js "Failed to delete notification")
                  error.(SdkError.thrown)
                  [(js "notificationId", LogString id);
                   (js "durationMs", LogNumber duration)])]
  end.

End CosmosNotificationRepo.

(** ** Reading a notification that was loaded *)

(** An entity as a loaded notification. *)
Definition loaded (notification : EmailNotification) : LoadedNotification :=
  {|
    LoadedNotification.id := notification.(EmailNotification.id);
    LoadedNotification.userId := notification.(EmailNotification.userId);
    LoadedNotification.userEmail := notification.(EmailNotification.userEmail);
    LoadedNotification.type := notification.(EmailNotification.type);
    LoadedNotification.subject := notification.(EmailNotification.subject);
    LoadedNotification.htmlBody := notification.(EmailNotification.htmlBody);
    LoadedNotification.textBody := notification.(EmailNotification.textBody);
    LoadedNotification.status := notification.(EmailNotification.status);
    LoadedNotification.reservationId :=
      notification.(EmailNotification.reservationId);
    LoadedNotification.createdAt := notification.(EmailNotification.createdAt);
    LoadedNotification.sentAt :=
      option_map ValidDate notification.(EmailNotification.sentAt);
    LoadedNotification.failureReason :=
      notification.(EmailNotification.failureReason);
    LoadedNotification.retryCount :=
      notification.(EmailNotification.retryCount);
    LoadedNotification.updatedAt := notification.(EmailNotification.updatedAt);
  |}.

(** The date [t] survives being stored as an ISO string. *)
Definition DateRoundTrips `{JsDates} (t : Date) : Prop :=
  toISOString t <> [] /\ parseDate (toISOString t) = ValidDate t.

Definition upserts (events : list RepoEvent) : list NotificationDocument :=
  flat_map (fun e =>
    match e with
    | RvUpsert document _ => [document]
    | _ => []
    end) events.

(** ** A reference runtime for dates *)

Module IsoDates.

Fixpoint digits (width : nat) (z : Z) : jsstring :=
  match width with
  | O => []
  | S k => digits k (z / 10)%Z ++ [Z.to_N (48 + z mod 10)%Z]
  end.

(** Year, month and day of a day number (days since 1970-01-01). *)
Definition civil (days : Z) : Z * Z * Z :=
  let z := (days + 719468)%Z in
  let era := (z / 146097)%Z in
  let doe := (z - era * 146097)%Z in
  let yoe := ((doe - doe / 1460 + doe / 36524 - doe / 146096) / 365)%Z in
  let doy := (doe - (365 * yoe + yoe / 4 - yoe / 100))%Z in
  let mp := ((5 * doy + 2) / 153)%Z in
  let d := (doy - (153 * mp + 2) / 5 + 1)%Z in
  let m := (if (mp <? 10)%Z then mp + 3 else mp - 9)%Z in
  let y := (yoe + era * 400 + (if (m <=? 2)%Z then 1 else 0))%Z in
  (y, m, d).

(** The day number of a year, month and day. *)
Definition dayNumber (y m d : Z) : Z :=
  let y := (if (m <=? 2)%Z then y - 1 else y)%Z in
  let era := (y / 400)%Z in
  let yoe := (y - era * 400)%Z in
  let doy := ((153 * (if (2 <? m)%Z then m - 3 else m + 9) + 2) / 5 + d - 1)%Z in
  let doe := (yoe * 365 + yoe / 4 - yoe / 100 + doy)%Z in
  (era * 146097 + doe - 719468)%Z.

(** [YYYY-MM-DDTHH:mm:ss.sssZ], with the expanded year [+YYYYYY] or
    [-YYYYYY] outside the years 0 to 9999. *)
Definition toISOString (t : Date) : jsstring :=
  let '(y, m, d) := civil (t / 86400000)%Z in
  let ms := (t mod 86400000)%Z in
  (if ((0 <=? y) && (y <=? 9999))%Z then digits 4 y
   else (if (y <? 0)%Z then js "-" else js "+") ++ digits 6 (Z.abs y))
  ++ js "-" ++ digits 2 m ++ js "-" ++ digits 2 d ++ js "T"
  ++ digits 2 (ms / 3600000)%Z ++ js ":"
  ++ digits 2 (ms / 60000 mod 60)%Z ++ js ":"
  ++ digits 2 (ms / 1000 mod 60)%Z ++ js "."
  ++ digits 3 (ms mod 1000)%Z ++ js "Z".

Definition number (s : jsstring) : Z :=
  fold_left (fun n c => (10 * n + (Z.of_N c - 48))%Z) s 0%Z.

Definition slice (from to : nat) (s : jsstring) : jsstring :=
  firstn (to - from) (skipn from s).

(** Reads the strings [toISOString] writes for the years 0 to 9999, and
    nothing else. *)
Definition parseDate (s : jsstring) : DateValue :=
  let t :=
    (dayNumber (number (slice 0 4 s)) (number (slice 5 7 s))
       (number (slice 8 10 s)) * 86400000
     + number (slice 11 13 s) * 3600000 + number (slice 14 16 s) * 60000
     + number (slice 17 19 s) * 1000 + number (slice 20 23 s))%Z in
  if jsstring_eqb (toISOString t) s then ValidDate t else InvalidDate.

Definition runtime : JsDates := Build_JsDates toISOString parseDate.

End IsoDates.

(** ** Reference values for the repository *)

(** The sample notification after it was sent, three seconds later. *)
Definition sentNotification : EmailNotification :=
  markNotificationSent 1767225603000%Z sampleNotification.

(** A container that holds nothing and rejects every access to an item as
    not found, with the SDK's numeric [code]. *)
Definition emptyContainer : Container InMemory.World := {|
  items_upsert := fun document w => (inr None, w);
  item_read := fun id partitionKey w =>
    (inl (SdkError.mk (new_Error (js "Entity with the specified id does not exist in the system."))
            (Some (CodeNumber 404)) None), w);
  item_delete := fun id partitionKey w =>
    (inl (SdkError.mk (new_Error (js "Entity with the specified id does not exist in the system."))
            (Some (CodeNumber 404)) None), w);
|}.

(** A container whose service answers every request with 503; the SDK
    reports the status under [code]. *)
Definition unavailableContainer : Container InMemory.World := {|
  items_upsert := fun document w =>
    (inl (SdkError.mk (new_Error (js "Service Unavailable"))
            (Some (CodeNumber 503)) None), w);
  item_read := fun id partitionKey w =>
    (inl (SdkError.mk (new_Error (js "Service Unavailable"))
            (Some (CodeNumber 503)) None), w);
  item_delete := fun id partitionKey w =>
    (inl (SdkError.mk (new_Error (js "Service Unavailable"))
            (Some (CodeNumber 503)) None), w);
|}.

(* ===================================================================== *)
(** * Properties of strings *)
(* ===================================================================== *)

Lemma trimStart_nil_iff (s : jsstring) :
  trimStart s = [] <-> forallb isWhiteSpace s = true.
Proof.
  induction s as [|c s IH]; simpl; [tauto|].
  destruct (isWhiteSpace c); simpl; [exact IH|].
  split; discriminate.
Qed.

Lemma trimStart_blank (s : jsstring) :
  forallb isWhiteSpace s = true -> trimStart s = [].
Proof. apply trimStart_nil_iff. Qed.

Lemma trimStart_keeps (c : codeunit) (s : jsstring) :
  isWhiteSpace c = false -> trimStart (c :: s) = c :: s.
Proof. intros Hc. simpl. rewrite Hc. reflexivity. Qed.

Lemma forallb_rev {A} (p : A -> bool) (l : list A) :
  forallb p (rev l) = forallb p l.
Proof.
  induction l as [|x l IH]; simpl; [reflexivity|].
  rewrite forallb_app, IH. simpl. rewrite andb_true_r. apply andb_comm.
Qed.

Lemma trimStart_suffix (s : jsstring) :
  exists a, s = a ++ trimStart s /\ forallb isWhiteSpace a = true.
Proof.
  induction s as [|c s [a [Ha Hb]]]; simpl.
  - exists []. split; reflexivity.
  - destruct (isWhiteSpace c) eqn:Hc.
    + exists (c :: a). simpl. rewrite Hc, Hb. split; [f_equal; exact Ha | reflexivity].
    + exists []. split; reflexivity.
Qed.

(** A string is blank exactly when all its code units are white space. *)
Lemma isBlank_forallb (s : jsstring) :
  isBlank s = forallb isWhiteSpace s.
Proof.
  unfold isBlank, trim, trimEnd.
  destruct (forallb isWhiteSpace s) eqn:Hs.
  - rewrite (trimStart_blank s Hs). reflexivity.
  - destruct (rev (trimStart (rev (trimStart s)))) as [|c r] eqn:Hr;
      [|reflexivity].
    exfalso.
    apply (f_equal (@rev _)) in Hr. rewrite rev_involutive in Hr. simpl in Hr.
    apply trimStart_nil_iff in Hr. rewrite forallb_rev in Hr.
    destruct (trimStart_suffix s) as [a [Ha Hb]].
    rewrite Ha, forallb_app, Hb, Hr in Hs. discriminate.
Qed.

(** Trimming leaves alone a string that starts and ends with something
    other than white space. *)
Lemma trim_framed (c d : codeunit) (m : jsstring) :
  isWhiteSpace c = false -> isWhiteSpace d = false ->
  trim (c :: m ++ [d]) = c :: m ++ [d].
Proof.
  intros Hc Hd. unfold trim, trimEnd.
  rewrite (trimStart_keeps c _ Hc).
  change (c :: m ++ [d]) with ((c :: m) ++ [d]).
  rewrite rev_app_distr.
  change (rev [d] ++ rev (c :: m)) with (d :: rev (c :: m)).
  rewrite (trimStart_keeps d _ Hd).
  change (d :: rev (c :: m)) with (rev [d] ++ rev (c :: m)).
  rewrite <- rev_app_distr, rev_involutive. reflexivity.
Qed.

(* ===================================================================== *)
(** * Properties of the matcher *)
(* ===================================================================== *)

Module RegexFacts.
Import Regex.

Ltac invert H := inversion H; subst; clear H.

Lemma nullable_Lang (r : re) : nullable r = true <-> Lang r [].
Proof.
  induction r as [| |p|a IHa b IHb|a IHa b IHb|a IHa]; simpl.
  - split; [discriminate | inversion 1].
  - split; [constructor | reflexivity].
  - split; [discriminate | inversion 1].
  - rewrite andb_true_iff, IHa, IHb. split.
    + intros [Ha Hb]. exact (L_Cat a b [] [] Ha Hb).
    + intros Hl. invert Hl.
      match goal with E : _ ++ _ = [] |- _ =>
        apply app_eq_nil in E as [-> ->] end.
      split; assumption.
  - rewrite orb_true_iff, IHa, IHb. split.
    + intros [Ha|Hb]; [apply L_AltL | apply L_AltR]; assumption.
    + intros Hl. invert Hl; [left | right]; assumption.
  - split; [constructor | reflexivity].
Qed.

Lemma deriv_sound (c : codeunit) (r : re) :
  forall s, Lang (deriv c r) s -> Lang r (c :: s).
Proof.
  induction r as [| |p|a IHa b IHb|a IHa b IHb|a IHa]; simpl; intros s Hs.
  - invert Hs.
  - invert Hs.
  - destruct (p c) eqn:Hp; invert Hs.
    constructor. exact Hp.
  - assert (Hcat : forall w, Lang (Cat (deriv c a) b) w ->
                             Lang (Cat a b) (c :: w)).
    { intros w Hw. invert Hw.
      match goal with Hu : Lang (deriv c a) ?u, Hv : Lang b ?v |- _ =>
        exact (L_Cat a b (c :: u) v (IHa u Hu) Hv) end. }
    destruct (nullable a) eqn:Hn.
    + invert Hs.
      * apply Hcat. assumption.
      * apply nullable_Lang in Hn.
        match goal with Hr : Lang (deriv c b) s |- _ =>
          exact (L_Cat a b [] (c :: s) Hn (IHb s Hr)) end.
    + apply Hcat. exact Hs.
  - invert Hs; [apply L_AltL, IHa | apply L_AltR, IHb]; assumption.
  - invert Hs.
    match goal with Hu : Lang (deriv c a) ?u, Hv : Lang (Star a) ?v |- _ =>
      exact (L_StarCons a (c :: u) v (IHa u Hu) Hv) end.
Qed.

Lemma deriv_complete (r : re) (w : jsstring) :
  Lang r w -> forall c s, w = c :: s -> Lang (deriv c r) s.
Proof.
  induction 1 as [|p d Hp|a b u v Hu IHu Hv IHv|a b u Hu IHu|a b u Hu IHu
                  |a|a u v Hu IHu Hv IHv]; intros c s Heq; simpl.
  - discriminate.
  - injection Heq as -> <-. rewrite Hp. constructor.
  - destruct u as [|c' u'].
    + simpl in Heq. subst v.
      assert (Hn : nullable a = true) by (apply nullable_Lang; exact Hu).
      rewrite Hn. apply L_AltR. apply IHv. reflexivity.
    + simpl in Heq. injection Heq as -> <-.
      assert (Hc : Lang (Cat (deriv c a) b) (u' ++ v))
        by (constructor; [apply IHu; reflexivity | exact Hv]).
      destruct (nullable a); [apply L_AltL|]; exact Hc.
  - apply L_AltL. apply IHu. exact Heq.
  - apply L_AltR. apply IHu. exact Heq.
  - discriminate.
  - destruct u as [|c' u'].
    + simpl in Heq. apply (IHv c s Heq).
    + simpl in Heq. injection Heq as -> <-.
      constructor; [apply IHu; reflexivity | exact Hv].
Qed.

(** The matcher decides the language. *)
Theorem test_Lang (r : re) (s : jsstring) :
  test r s = true <-> Lang r s.
Proof.
  revert r. induction s as [|c s IH]; intros r; simpl.
  - apply nullable_Lang.
  - rewrite IH. split.
    + apply deriv_sound.
    + intros Hl. exact (deriv_complete r (c :: s) Hl c s eq_refl).
Qed.

Lemma Lang_Star_Class (p : codeunit -> bool) (s : jsstring) :
  Lang (Star (Class p)) s <-> forallb p s = true.
Proof.
  split.
  - remember (Star (Class p)) as r eqn:Hr. intros Hl.
    induction Hl as [| | | | | a | a u v Hu _ Hv IHv]; try discriminate.
    + reflexivity.
    + injection Hr as ->. invert Hu. simpl.
      rewrite IHv by reflexivity. rewrite andb_true_r. assumption.
  - induction s as [|c s IH]; simpl; intros Hs.
    + constructor.
    + apply andb_true_iff in Hs as [Hc Hs].
      exact (L_StarCons (Class p) [c] s (L_Class p c Hc) (IH Hs)).
Qed.

Lemma Lang_Plus_Class (p : codeunit -> bool) (s : jsstring) :
  Lang (Plus (Class p)) s <-> s <> [] /\ forallb p s = true.
Proof.
  unfold Plus. split.
  - intros Hl. invert Hl.
    match goal with Hu : Lang (Class p) _, Hv : Lang (Star _) _ |- _ =>
      invert Hu; apply Lang_Star_Class in Hv; simpl;
      split; [discriminate | rewrite Hv; rewrite andb_true_r; assumption]
    end.
  - intros [Hne Hs]. destruct s as [|c s]; [contradiction|].
    simpl in Hs. apply andb_true_iff in Hs as [Hc Hs].
    apply (L_Cat (Class p) (Star (Class p)) [c] s).
    + constructor. exact Hc.
    + apply Lang_Star_Class. exact Hs.
Qed.

Lemma Lang_Class_eqb (k : N) (s : jsstring) :
  Lang (Class (N.eqb k)) s <-> s = [k].
Proof.
  split.
  - intros Hl. invert Hl.
    match goal with Hc : (_ =? _) = true |- _ =>
      apply N.eqb_eq in Hc; subst; reflexivity end.
  - intros ->. constructor. apply N.eqb_refl.
Qed.

Lemma Lang_Cat_inv (a b : re) (s : jsstring) :
  Lang (Cat a b) s -> exists u v, s = u ++ v /\ Lang a u /\ Lang b v.
Proof. intros Hl. invert Hl. eauto. Qed.

End RegexFacts.

(** [emailRegex.test] accepts exactly the strings of that shape. *)
Theorem emailRegex_shape (s : jsstring) :
  Regex.test emailRegex s = true <-> EmailShape s.
Proof.
  rewrite RegexFacts.test_Lang. unfold emailRegex, EmailShape. split.
  - intros Hl.
    apply RegexFacts.Lang_Cat_inv in Hl as (l & r1 & -> & Hlocal & H1).
    apply RegexFacts.Lang_Cat_inv in H1 as (at_ & r2 & -> & Hat & H2).
    apply RegexFacts.Lang_Cat_inv in H2 as (d & r3 & -> & Hdom & H3).
    apply RegexFacts.Lang_Cat_inv in H3 as (dot & t & -> & Hdot & Htld).
    apply RegexFacts.Lang_Class_eqb in Hat, Hdot. subst.
    apply RegexFacts.Lang_Plus_Class in Hlocal, Hdom, Htld.
    exists l, d, t. repeat split; tauto.
  - intros (l & d & t & -> & Hl & Hd & Ht).
    repeat (apply Regex.L_Cat);
      try (apply RegexFacts.Lang_Plus_Class; assumption);
      apply RegexFacts.Lang_Class_eqb; reflexivity.
Qed.

(* ===================================================================== *)
(** * Properties of the entity *)
(* ===================================================================== *)

Arguments js : simpl never.

Lemma notNonEmptyString_Some (s : jsstring) :
  notNonEmptyString (Some s) = isBlank s.
Proof.
  unfold notNonEmptyString. destruct s as [|c s]; reflexivity.
Qed.

(** The guard of a required field is the negation of "non-empty after
    trimming". *)
Lemma notNonEmptyString_false (v : jsval) :
  notNonEmptyString v = false <-> NonEmptyTrimmed v.
Proof.
  unfold NonEmptyTrimmed. destruct v as [s|].
  - rewrite notNonEmptyString_Some. unfold isBlank. split.
    + intros Hb. exists s. split; [reflexivity|].
      destruct (trim s); [discriminate | discriminate].
    + intros (s' & Hs & Hne). injection Hs as <-.
      destruct (trim s); [contradiction | reflexivity].
  - split; [discriminate|]. intros (s & Hs & _). discriminate.
Qed.

Lemma notNonEmptyString_true (v : jsval) :
  notNonEmptyString v = true -> ~ NonEmptyTrimmed v.
Proof.
  intros Ht Hn. apply notNonEmptyString_false in Hn. congruence.
Qed.

Lemma jsstring_eqb_eq (a b : jsstring) :
  jsstring_eqb a b = true <-> a = b.
Proof. unfold jsstring_eqb. apply bool_decide_eq_true. Qed.

(** [Object.values(NotificationType).includes(type)] holds exactly for the
    six members of the enum. *)
Lemma includes_NotificationType (type : jsstring) :
  existsb (jsstring_eqb type) NotificationType_values = true
  <-> exists t : NotificationType, type = NotificationType_value t.
Proof.
  rewrite existsb_exists. unfold NotificationType_values. split.
  - intros (x & Hin & Heq). apply jsstring_eqb_eq in Heq. subst x.
    apply in_map_iff in Hin as (t & Ht & _). exists t. symmetry. exact Ht.
  - intros (t & ->). exists (NotificationType_value t).
    split; [|apply jsstring_eqb_eq; reflexivity].
    apply in_map. destruct t; simpl; tauto.
Qed.

Lemma emailFormat_passes (v : jsval) :
  NonEmptyTrimmed v ->
  (Regex.test emailRegex (trim (str v)) = true
   <-> exists s, v = Some s /\ EmailShape (trim s)).
Proof.
  intros (s & -> & _). simpl. rewrite emailRegex_shape. split.
  - intros Hs. exists s. split; [reflexivity | exact Hs].
  - intros (s' & Hs' & Hshape). injection Hs' as <-. exact Hshape.
Qed.

(** The validator throws nothing exactly on valid params. *)
Lemma validate_None_iff (params : CreateEmailNotificationParams) :
  validateCreateEmailNotification params = None <-> ValidParams params.
Proof.
  unfold validateCreateEmailNotification, ValidParams, checkOrder.
  repeat rewrite Forall_cons_iff. simpl Passes.
  destruct (notNonEmptyString _) eqn:E1 at 1;
    [split; [discriminate | intros [P _]; apply notNonEmptyString_false in P; congruence]|].
  destruct (notNonEmptyString _) eqn:E2 at 1;
    [split; [discriminate | intros (_ & P & _); apply notNonEmptyString_false in P; congruence]|].
  destruct (notNonEmptyString _) eqn:E3 at 1;
    [split; [discriminate | intros (_ & _ & P & _); apply notNonEmptyString_false in P; congruence]|].
  pose proof (emailFormat_passes _ (proj1 (notNonEmptyString_false _) E3)) as Hfmt.
  destruct (Regex.test emailRegex _) eqn:E4; cbn [negb];
    [|split; [discriminate | intros (_ & _ & _ & P & _); apply Hfmt in P; discriminate]].
  destruct (notNonEmptyString _) eqn:E5 at 1;
    [split; [discriminate | intros (_ & _ & _ & _ & P & _); apply notNonEmptyString_false in P; congruence]|].
  destruct (notNonEmptyString _) eqn:E6 at 1;
    [split; [discriminate | intros (_ & _ & _ & _ & _ & P & _); apply notNonEmptyString_false in P; congruence]|].
  destruct (notNonEmptyString _) eqn:E7 at 1;
    [split; [discriminate | intros (_ & _ & _ & _ & _ & _ & P & _); apply notNonEmptyString_false in P; congruence]|].
  destruct (existsb (jsstring_eqb _) NotificationType_values) eqn:E8;
    cbn [negb];
    [|split; [discriminate | intros (_ & _ & _ & _ & _ & _ & _ & P & _); apply includes_NotificationType in P; congruence]].
  split; [intros _ | reflexivity].
  apply notNonEmptyString_false in E1, E2, E3, E5, E6, E7.
  apply includes_NotificationType in E8.
  repeat split; try assumption; [apply Hfmt; reflexivity | constructor].
Qed.

(** ** Creation *)

(** On valid params [createEmailNotification] returns a Pending record
    that has never failed. *)
Lemma create_on_valid `{JsRuntime} (now : Date)
    (params : CreateEmailNotificationParams) :
  ValidParams params ->
  exists n,
    createEmailNotification now params = inr n
    /\ n.(EmailNotification.status) = Pending
    /\ n.(EmailNotification.retryCount) = 0.
Proof.
  intros Hvalid. apply validate_None_iff in Hvalid.
  unfold createEmailNotification. rewrite Hvalid.
  eexists. split; [reflexivity|]. split; reflexivity.
Qed.

(** *** C4.  For all construction params that satisfy the validity
    invariants, [createEmailNotification] returns a notification with
    status [Pending], [retryCount] 0, [createdAt] equal to [updatedAt], and
    [userEmail] equal to the input e-mail address trimmed and lower-cased. *)
Theorem create_initial_state `{JsRuntime} (now : Date)
    (params : CreateEmailNotificationParams) :
  ValidParams params ->
  exists n email,
    createEmailNotification now params = inr n
    /\ params.(CreateEmailNotificationParams.userEmail) = Some email
    /\ n.(EmailNotification.status) = Pending
    /\ n.(EmailNotification.retryCount) = 0
    /\ n.(EmailNotification.createdAt) = n.(EmailNotification.updatedAt)
    /\ n.(EmailNotification.createdAt) = now
    /\ n.(EmailNotification.userEmail) = toLowerCase (trim email).
Proof.
  intros Hvalid.
  assert (Hemail : NonEmptyTrimmed params.(CreateEmailNotificationParams.userEmail)).
  { unfold ValidParams, checkOrder in Hvalid.
    repeat rewrite Forall_cons_iff in Hvalid. tauto. }
  destruct Hemail as (email & Hemail & _).
  apply validate_None_iff in Hvalid.
  unfold createEmailNotification. rewrite Hvalid.
  eexists. exists email. split; [reflexivity|]. simpl.
  rewrite Hemail. simpl. repeat split; reflexivity.
Qed.

Lemma sampleParams_valid : ValidParams sampleParams.
Proof. apply validate_None_iff. vm_compute. reflexivity. Defined.

Lemma create_initial_state_witness :
  ValidParams sampleParams
  /\ exists n email,
       @createEmailNotification InMemory.runtime 1767225600000%Z sampleParams
       = inr n
       /\ sampleParams.(CreateEmailNotificationParams.userEmail) = Some email
       /\ n.(EmailNotification.status) = Pending
       /\ n.(EmailNotification.retryCount) = 0
       /\ n.(EmailNotification.createdAt) = n.(EmailNotification.updatedAt)
       /\ n.(EmailNotification.createdAt) = 1767225600000%Z
       /\ n.(EmailNotification.userEmail)
          = @toLowerCase InMemory.runtime (trim email).
Proof.
  split.
  - exact sampleParams_valid.
  - exact (@create_initial_state InMemory.runtime 1767225600000%Z sampleParams
             sampleParams_valid).
Defined.

Example create_sample_email :
  match @createEmailNotification InMemory.runtime 0%Z sampleParams with
  | inr n => n.(EmailNotification.userEmail) = js "alice@example.com"
             /\ n.(EmailNotification.id) = js "n-1"
  | inl _ => False
  end.
Proof. vm_compute. split; reflexivity. Qed.

(** *** C5.  [createEmailNotification] fails with an error that names the
    first invalid field, the fields being checked in the order id, userId,
    userEmail (non-empty), userEmail (format), subject, htmlBody,
    reservationId, type; it succeeds if and only if every check passes. *)
Theorem create_validation_order `{JsRuntime} (now : Date)
    (params : CreateEmailNotificationParams) :
  match createEmailNotification now params with
  | inl e =>
    exists before c after,
      checkOrder = before ++ c :: after
      /\ Forall (Passes params) before
      /\ ~ Passes params c
      /\ e.(NotificationError.field) = checkField c
  | inr _ => Forall (Passes params) checkOrder
  end
  /\ ((exists n, createEmailNotification now params = inr n)
      <-> Forall (Passes params) checkOrder).
Proof.
  split.
  - unfold createEmailNotification.
    destruct (validateCreateEmailNotification params) as [e|] eqn:Hv;
      [|apply validate_None_iff; exact Hv].
    revert Hv. unfold validateCreateEmailNotification.
    destruct (notNonEmptyString params.(CreateEmailNotificationParams.id)) eqn:E1.
    { intros [= <-]. exists [], CheckId. eexists.
      split; [reflexivity|]. split; [constructor|].
      split; [apply notNonEmptyString_true; exact E1 | reflexivity]. }
    apply notNonEmptyString_false in E1.
    destruct (notNonEmptyString params.(CreateEmailNotificationParams.userId)) eqn:E2.
    { intros [= <-]. exists [CheckId], CheckUserId. eexists.
      split; [reflexivity|]. split; [repeat constructor; assumption|].
      split; [apply notNonEmptyString_true; exact E2 | reflexivity]. }
    apply notNonEmptyString_false in E2.
    destruct (notNonEmptyString params.(CreateEmailNotificationParams.userEmail)) eqn:E3.
    { intros [= <-]. exists [CheckId; CheckUserId], CheckUserEmailNonEmpty.
      eexists.
      split; [reflexivity|]. split; [repeat constructor; assumption|].
      split; [apply notNonEmptyString_true; exact E3 | reflexivity]. }
    apply notNonEmptyString_false in E3.
    pose proof (emailFormat_passes _ E3) as Hfmt.
    destruct (Regex.test emailRegex _) eqn:E4; cbn [negb].
    2:{ intros [= <-].
        exists [CheckId; CheckUserId; CheckUserEmailNonEmpty],
          CheckUserEmailFormat.
        eexists.
        split; [reflexivity|]. split; [repeat constructor; assumption|].
        split; [|reflexivity].
        intros P. apply Hfmt in P. discriminate. }
    assert (E4' : Passes params CheckUserEmailFormat)
      by (apply Hfmt; reflexivity).
    destruct (notNonEmptyString params.(CreateEmailNotificationParams.subject)) eqn:E5.
    { intros [= <-].
      exists [CheckId; CheckUserId; CheckUserEmailNonEmpty;
              CheckUserEmailFormat], CheckSubject.
      eexists.
      split; [reflexivity|]. split; [repeat constructor; assumption|].
      split; [apply notNonEmptyString_true; exact E5 | reflexivity]. }
    apply notNonEmptyString_false in E5.
    destruct (notNonEmptyString params.(CreateEmailNotificationParams.htmlBody)) eqn:E6.
    { intros [= <-].
      exists [CheckId; CheckUserId; CheckUserEmailNonEmpty;
              CheckUserEmailFormat; CheckSubject], CheckHtmlBody.
      eexists.
      split; [reflexivity|]. split; [repeat constructor; assumption|].
      split; [apply notNonEmptyString_true; exact E6 | reflexivity]. }
    apply notNonEmptyString_false in E6.
    destruct (notNonEmptyString params.(CreateEmailNotificationParams.reservationId)) eqn:E7.
    { intros [= <-].
      exists [CheckId; CheckUserId; CheckUserEmailNonEmpty;
              CheckUserEmailFormat; CheckSubject; CheckHtmlBody],
        CheckReservationId.
      eexists.
      split; [reflexivity|]. split; [repeat constructor; assumption|].
      split; [apply notNonEmptyString_true; exact E7 | reflexivity]. }
    apply notNonEmptyString_false in E7.
    destruct (existsb (jsstring_eqb _) NotificationType_values) eqn:E8;
      cbn [negb]; [discriminate|].
    intros [= <-].
    exists [CheckId; CheckUserId; CheckUserEmailNonEmpty;
            CheckUserEmailFormat; CheckSubject; CheckHtmlBody;
            CheckReservationId], CheckType.
    eexists.
    split; [reflexivity|]. split; [repeat constructor; assumption|].
    split; [|reflexivity].
    intros P. apply includes_NotificationType in P. congruence.
  - unfold createEmailNotification.
    fold (ValidParams params). rewrite <- validate_None_iff.
    destruct (validateCreateEmailNotification params) as [e|].
    + split; [intros [n Hn]; discriminate | discriminate].
    + split; [reflexivity | intros _; eexists; reflexivity].
Qed.

(** ** Transitions *)

Lemma two_53 : 2 ^ 53 = 9007199254740992.
Proof. reflexivity. Qed.

(** Addition is exact as long as the sum does not exceed 2^53. *)
Lemma Number_add_exact (a b : N) :
  a + b <= 2 ^ 53 -> Number_add a b = a + b.
Proof.
  intros Hle. unfold Number_add, roundToDouble.
  destruct (N.ltb_spec (a + b) (2 ^ 53)) as [Hlt | Hge]; [reflexivity|].
  assert (Heq : a + b = 2 ^ 53) by (apply N.le_antisymm; assumption).
  rewrite Heq. vm_compute. reflexivity.
Qed.

(** At 2^53 adding 1 changes nothing: 2^53 + 1 is no double, and of its
    two neighbours 2^53 has the even significand. *)
Lemma Number_add_saturates : Number_add (2 ^ 53) 1 = 2 ^ 53.
Proof. vm_compute. reflexivity. Qed.

(** Above 2^53 a sum that falls between two doubles goes to the nearer
    one, and half-way to the one with the even significand. *)
Example Number_add_rounds :
  Number_add (2 ^ 53 - 1) 1 = 2 ^ 53
  /\ Number_add (2 ^ 53 + 2) 1 = 2 ^ 53 + 4
  /\ Number_add (2 ^ 53 + 4) 1 = 2 ^ 53 + 4
  /\ Number_add (2 ^ 54) 1 = 2 ^ 54
  /\ Number_add (2 ^ 1024 - 2 ^ 971) 1 = 2 ^ 1024 - 2 ^ 971.
Proof. repeat split; vm_compute; reflexivity. Qed.

Lemma failChain_app (l1 l2 : list (Date * jsstring)) (n : EmailNotification) :
  failChain (l1 ++ l2) n = failChain l2 (failChain l1 n).
Proof.
  revert n. induction l1 as [|[now reason] l1 IH]; intros n; [reflexivity|].
  cbn [app failChain]. apply IH.
Qed.

Lemma failChain_retryCount (attempts : list (Date * jsstring))
    (n : EmailNotification) :
  n.(EmailNotification.retryCount) + N.of_nat (length attempts) <= 2 ^ 53 ->
  (failChain attempts n).(EmailNotification.retryCount)
  = n.(EmailNotification.retryCount) + N.of_nat (length attempts).
Proof.
  rewrite two_53.
  revert n. induction attempts as [|[now reason] rest IH]; intros n Hle.
  - cbn [failChain length]. lia.
  - cbn [failChain length] in *.
    assert (Hstep : (markNotificationFailed now n reason)
                      .(EmailNotification.retryCount)
                    = n.(EmailNotification.retryCount) + 1).
    { unfold markNotificationFailed. cbn [EmailNotification.retryCount].
      apply Number_add_exact. rewrite two_53. lia. }
    rewrite IH; rewrite Hstep; lia.
Qed.

Lemma failChain_saturated (attempts : list (Date * jsstring))
    (n : EmailNotification) :
  n.(EmailNotification.retryCount) = 2 ^ 53 ->
  (failChain attempts n).(EmailNotification.retryCount) = 2 ^ 53.
Proof.
  revert n. induction attempts as [|[now reason] rest IH]; intros n Hn.
  - exact Hn.
  - cbn [failChain]. apply IH.
    unfold markNotificationFailed. cbn [EmailNotification.retryCount].
    rewrite Hn. exact Number_add_saturates.
Qed.

(** From a count of 0 a chain of [k] failures counts [k] up to 2^53 and
    stays at 2^53 from there on. *)
Lemma failChain_from_zero (attempts : list (Date * jsstring))
    (n : EmailNotification) :
  n.(EmailNotification.retryCount) = 0 ->
  (failChain attempts n).(EmailNotification.retryCount)
  = N.min (N.of_nat (length attempts)) (2 ^ 53).
Proof.
  intros Hn.
  destruct (N.le_gt_cases (N.of_nat (length attempts)) (2 ^ 53)) as [Hle | Hgt].
  - rewrite failChain_retryCount by (rewrite Hn; exact Hle).
    rewrite Hn, N.min_l by exact Hle. reflexivity.
  - rewrite N.min_r by (apply N.lt_le_incl; exact Hgt).
    set (k := N.to_nat (2 ^ 53)).
    assert (Hk : N.of_nat k = 2 ^ 53) by apply N2Nat.id.
    clearbody k.
    rewrite <- (firstn_skipn k attempts), failChain_app.
    apply failChain_saturated.
    assert (Hlen : length (firstn k attempts) = k).
    { rewrite length_firstn. apply Nat.min_l.
      rewrite two_53 in Hk, Hgt. lia. }
    rewrite failChain_retryCount; rewrite Hn, Hlen, Hk; [reflexivity|].
    apply N.le_refl.
Qed.

(** *** C7.  Starting from a freshly created notification, [k] applications
    of [markNotificationFailed] in a chain give [retryCount = k] for every
    [k] up to 2^53 (and 2^53 for every larger [k]); a single application
    adds exactly 1 to the count of any notification whose count is below
    2^53, and the count is 0 until the first failure (a fresh notification
    has 0, and [markNotificationSent] leaves the count alone). *)
Theorem retryCount_counts_failures `{JsRuntime} (created : Date)
    (params : CreateEmailNotificationParams) (fresh : EmailNotification) :
  createEmailNotification created params = inr fresh ->
  (forall attempts : list (Date * jsstring),
      N.of_nat (length attempts) <= 2 ^ 53 ->
      (failChain attempts fresh).(EmailNotification.retryCount)
      = N.of_nat (length attempts))
  /\ (forall attempts : list (Date * jsstring),
         (failChain attempts fresh).(EmailNotification.retryCount)
         = N.min (N.of_nat (length attempts)) (2 ^ 53))
  /\ (forall (n : EmailNotification) (now : Date) (reason : jsstring),
         n.(EmailNotification.retryCount) < 2 ^ 53 ->
         (markNotificationFailed now n reason).(EmailNotification.retryCount)
         = n.(EmailNotification.retryCount) + 1)
  /\ fresh.(EmailNotification.retryCount) = 0
  /\ (forall now : Date,
         (markNotificationSent now fresh).(EmailNotification.retryCount) = 0).
Proof.
  intros Hcreate.
  assert (H0 : fresh.(EmailNotification.retryCount) = 0).
  { unfold createEmailNotification in Hcreate.
    destruct (validateCreateEmailNotification params); [discriminate|].
    injection Hcreate as <-. reflexivity. }
  split; [|split; [|split; [|split]]].
  - intros attempts Hle.
    rewrite failChain_retryCount by (rewrite H0; exact Hle).
    rewrite H0. reflexivity.
  - intros attempts. apply failChain_from_zero. exact H0.
  - intros n now reason Hlt.
    unfold markNotificationFailed. cbn [EmailNotification.retryCount].
    apply Number_add_exact. rewrite two_53 in *. lia.
  - exact H0.
  - intros now. unfold markNotificationSent.
    cbn [EmailNotification.retryCount]. exact H0.
Qed.

(** *** C10.  Frame: [markNotificationSent] changes only [status], [sentAt]
    and [updatedAt]; [markNotificationFailed] changes only [status],
    [failureReason], [retryCount] and [updatedAt].  Every other field is
    the one of the argument, in particular [retryCount] and [failureReason]
    for the first and [sentAt] and [createdAt] for the second. *)
Theorem transitions_frame (now : Date) (n : EmailNotification)
    (reason : jsstring) :
  let s := markNotificationSent now n in
  let f := markNotificationFailed now n reason in
  (s.(EmailNotification.id) = n.(EmailNotification.id)
   /\ s.(EmailNotification.userId) = n.(EmailNotification.userId)
   /\ s.(EmailNotification.userEmail) = n.(EmailNotification.userEmail)
   /\ s.(EmailNotification.type) = n.(EmailNotification.type)
   /\ s.(EmailNotification.subject) = n.(EmailNotification.subject)
   /\ s.(EmailNotification.htmlBody) = n.(EmailNotification.htmlBody)
   /\ s.(EmailNotification.textBody) = n.(EmailNotification.textBody)
   /\ s.(EmailNotification.reservationId) = n.(EmailNotification.reservationId)
   /\ s.(EmailNotification.createdAt) = n.(EmailNotification.createdAt)
   /\ s.(EmailNotification.failureReason) = n.(EmailNotification.failureReason)
   /\ s.(EmailNotification.retryCount) = n.(EmailNotification.retryCount))
  /\ (s.(EmailNotification.status) = Sent
      /\ s.(EmailNotification.sentAt) = Some now
      /\ s.(EmailNotification.updatedAt) = now)
  /\ (f.(EmailNotification.id) = n.(EmailNotification.id)
      /\ f.(EmailNotification.userId) = n.(EmailNotification.userId)
      /\ f.(EmailNotification.userEmail) = n.(EmailNotification.userEmail)
      /\ f.(EmailNotification.type) = n.(EmailNotification.type)
      /\ f.(EmailNotification.subject) = n.(EmailNotification.subject)
      /\ f.(EmailNotification.htmlBody) = n.(EmailNotification.htmlBody)
      /\ f.(EmailNotification.textBody) = n.(EmailNotification.textBody)
      /\ f.(EmailNotification.reservationId)
         = n.(EmailNotification.reservationId)
      /\ f.(EmailNotification.createdAt) = n.(EmailNotification.createdAt)
      /\ f.(EmailNotification.sentAt) = n.(EmailNotification.sentAt))
  /\ (f.(EmailNotification.status) = Failed
      /\ f.(EmailNotification.failureReason) = Some reason
      /\ f.(EmailNotification.retryCount)
         = Number_add n.(EmailNotification.retryCount) 1
      /\ (n.(EmailNotification.retryCount) < 2 ^ 53 ->
          f.(EmailNotification.retryCount)
          = n.(EmailNotification.retryCount) + 1)
      /\ f.(EmailNotification.updatedAt) = now).
Proof.
  cbv zeta. unfold markNotificationSent, markNotificationFailed.
  cbn [EmailNotification.id EmailNotification.userId
       EmailNotification.userEmail EmailNotification.type
       EmailNotification.subject EmailNotification.htmlBody
       EmailNotification.textBody EmailNotification.status
       EmailNotification.reservationId EmailNotification.createdAt
       EmailNotification.sentAt EmailNotification.failureReason
       EmailNotification.retryCount EmailNotification.updatedAt].
  assert (Hexact : n.(EmailNotification.retryCount) < 2 ^ 53 ->
                   Number_add n.(EmailNotification.retryCount) 1
                   = n.(EmailNotification.retryCount) + 1).
  { intros Hlt. apply Number_add_exact. rewrite two_53 in *. lia. }
  repeat match goal with
  | |- _ /\ _ => split
  end; try reflexivity.
  exact Hexact.
Qed.

Lemma create_sampleNotification :
  @createEmailNotification InMemory.runtime 1767225600000%Z sampleParams
  = inr sampleNotification.
Proof. vm_compute. reflexivity. Defined.

Lemma retryCount_counts_failures_witness :
  @createEmailNotification InMemory.runtime 1767225600000%Z sampleParams
  = inr sampleNotification
  /\ (forall attempts : list (Date * jsstring),
         N.of_nat (length attempts) <= 2 ^ 53 ->
         (failChain attempts sampleNotification).(EmailNotification.retryCount)
         = N.of_nat (length attempts))
  /\ (forall attempts : list (Date * jsstring),
         (failChain attempts sampleNotification).(EmailNotification.retryCount)
         = N.min (N.of_nat (length attempts)) (2 ^ 53))
  /\ (forall (n : EmailNotification) (now : Date) (reason : jsstring),
         n.(EmailNotification.retryCount) < 2 ^ 53 ->
         (markNotificationFailed now n reason).(EmailNotification.retryCount)
         = n.(EmailNotification.retryCount) + 1)
  /\ sampleNotification.(EmailNotification.retryCount) = 0
  /\ (forall now : Date,
         (markNotificationSent now sampleNotification).(EmailNotification.retryCount)
         = 0).
Proof.
  split.
  - exact create_sampleNotification.
  - exact (@retryCount_counts_failures InMemory.runtime 1767225600000%Z
             sampleParams sampleNotification create_sampleNotification).
Defined.

(** The claim fails at 2^53: for a notification whose count is 2^53 a
    further failure leaves the count as it is, since 2^53 + 1 is no
    number of JavaScript. *)
Lemma retryCount_saturates_counterexample :
  let n := saturatedNotification in
  let failed := markNotificationFailed 1767225600003%Z n (js "SMTP down") in
  n.(EmailNotification.retryCount) = 9007199254740992
  /\ failed.(EmailNotification.status) = Failed
  /\ failed.(EmailNotification.retryCount) = 9007199254740992
  /\ failed.(EmailNotification.retryCount)
     <> n.(EmailNotification.retryCount) + 1.
Proof.
  cbv zeta. split; [vm_compute; reflexivity|].
  split; [reflexivity|].
  split; [vm_compute; reflexivity|].
  vm_compute. discriminate.
Qed.

Example failChain_three :
  (failChain [(1%Z, js "a"); (2%Z, js "b"); (3%Z, js "c")] sampleNotification)
    .(EmailNotification.retryCount) = 3.
Proof. reflexivity. Qed.

(* ===================================================================== *)
(** * Properties of the templates *)
(* ===================================================================== *)

(** On a member of the enum the [switch] takes that member's branch. *)
Lemma getEmailTemplate_member `{JsRuntime} (now : Date)
    (t : NotificationType) (data : ReservationEmailData) :
  getEmailTemplate now (NotificationType_value t) data
  = inr (templateFor t now data).
Proof.
  unfold getEmailTemplate.
  destruct t;
    repeat match goal with
    | |- context [jsstring_eqb ?a ?b] =>
      first [ replace (jsstring_eqb a b) with true
                by (vm_compute; reflexivity)
            | replace (jsstring_eqb a b) with false
                by (vm_compute; reflexivity) ];
      cbv iota
    end;
    reflexivity.
Qed.

Lemma templateFor_subject `{JsRuntime} (now : Date)
    (t : NotificationType) (data : ReservationEmailData) :
  (templateFor t now data).(EmailTemplate.subject) = fixedSubject t.
Proof.
  destruct t;
    cbn [templateFor EmailTemplate.subject getReservationCreatedEmail
         getReservationCollectedEmail getReservationReturnedEmail
         getReservationCancelledEmail getReservationExpiredEmail
         getReservationOverdueEmail];
    vm_compute; reflexivity.
Qed.

(** *** C8.  For each of the six notification types and whatever the data,
    [getEmailTemplate] returns the subject made of the application name and
    the fixed line of that type. *)
Theorem template_subjects `{JsRuntime} (now : Date)
    (t : NotificationType) (data : ReservationEmailData) :
  exists template,
    getEmailTemplate now (NotificationType_value t) data = inr template
    /\ template.(EmailTemplate.subject) = fixedSubject t.
Proof.
  exists (templateFor t now data).
  split; [apply getEmailTemplate_member | apply templateFor_subject].
Qed.

Lemma isBlank_app_l (a b : jsstring) :
  forallb isWhiteSpace a = false -> isBlank (a ++ b) = false.
Proof.
  intros Ha. rewrite isBlank_forallb, forallb_app, Ha. reflexivity.
Qed.

(** Every template has a subject and an HTML body that are not blank,
    whatever the data and the year. *)
Lemma templateFor_not_blank `{JsRuntime} (now : Date)
    (t : NotificationType) (data : ReservationEmailData) :
  notNonEmptyString (Some (templateFor t now data).(EmailTemplate.subject))
  = false
  /\ notNonEmptyString (Some (templateFor t now data).(EmailTemplate.htmlBody))
     = false.
Proof.
  rewrite !notNonEmptyString_Some, templateFor_subject. split.
  - destruct t; vm_compute; reflexivity.
  - destruct t;
      cbn [templateFor EmailTemplate.htmlBody getReservationCreatedEmail
           getReservationCollectedEmail getReservationReturnedEmail
           getReservationCancelledEmail getReservationExpiredEmail
           getReservationOverdueEmail];
      apply isBlank_app_l; vm_compute; reflexivity.
Qed.

(* ===================================================================== *)
(** * Properties of the use case *)
(* ===================================================================== *)

Lemma hexDigit_not_space (n : N) : isWhiteSpace (hexDigit n) = false.
Proof.
  unfold hexDigit. generalize (N.to_nat (n mod 16)). intros k.
  do 17 (destruct k as [|k]; [vm_compute; reflexivity|]).
  vm_compute. reflexivity.
Qed.

(** A generated id passes the first check of [create]. *)
Lemma formatUUID_not_blank (bits : N) :
  notNonEmptyString (Some (formatUUID bits)) = false.
Proof.
  rewrite notNonEmptyString_Some. unfold isBlank.
  assert (Hshape : exists m,
             formatUUID bits
             = hexDigit (nibble bits 0) :: m ++ [hexDigit (nibble bits 31)]).
  { exists (hexDigits bits [1; 2; 3; 4; 5; 6; 7] ++ js "-"
            ++ hexDigits bits [8; 9; 10; 11] ++ js "-"
            ++ js "4" ++ hexDigits bits [13; 14; 15] ++ js "-"
            ++ [hexDigit (8 + nibble bits 16 mod 4)]
            ++ hexDigits bits [17; 18; 19] ++ js "-"
            ++ hexDigits bits [20; 21; 22; 23; 24; 25; 26; 27; 28; 29; 30]).
    reflexivity. }
  destruct Hshape as [m ->].
  rewrite trim_framed by apply hexDigit_not_space. reflexivity.
Qed.

Arguments getEmailTemplate : simpl never.
Arguments createEmailNotification : simpl never.
Arguments validateCreateEmailNotification : simpl never.
Arguments formatUUID : simpl never.
Arguments markNotificationSent : simpl never.
Arguments markNotificationFailed : simpl never.
Arguments templateFor : simpl never.
Arguments String_of : simpl never.
Arguments or_else : simpl never.

(** What [callWithClock] relies on: when one of the two guarded callees
    throws, it throws the same value whatever the clock shows. *)
Lemma getEmailTemplate_throws_before_clock `{JsRuntime} (now now' : Date)
    (type : jsstring) (data : ReservationEmailData) (e : Thrown) :
  getEmailTemplate now type data = inl e ->
  getEmailTemplate now' type data = inl e.
Proof.
  unfold getEmailTemplate.
  repeat match goal with
  | |- context [if jsstring_eqb ?a ?b then _ else _] =>
    destruct (jsstring_eqb a b); [discriminate|]
  end.
  exact (fun Heq => Heq).
Qed.

Lemma createEmailNotification_throws_before_clock `{JsRuntime}
    (now now' : Date) (params : CreateEmailNotificationParams)
    (e : NotificationError) :
  createEmailNotification now params = inl e ->
  createEmailNotification now' params = inl e.
Proof.
  unfold createEmailNotification.
  destruct (validateCreateEmailNotification params); [|discriminate].
  exact (fun Heq => Heq).
Qed.

(** Running the use case: unfold the monad once, then reduce up to the
    next call on the world. *)
Ltac run_unfold :=
  unfold sendReservationEmail, sendReservationEmail_try,
    sendReservationEmail_catch, tryCatch, bind, callWithClock, randomUUID,
    awaitSave, awaitSendEmail, lift, liftCreate, console, ret, throw.

Ltac run_step := cbv beta iota zeta delta [EmailSendResult.success].

(** [create] rejects an address without the [local@domain.tld] shape once
    the id and the user id have passed. *)
Lemma create_bad_email `{JsRuntime} (now : Date)
    (params : CreateEmailNotificationParams) :
  notNonEmptyString params.(CreateEmailNotificationParams.id) = false ->
  notNonEmptyString params.(CreateEmailNotificationParams.userId) = false ->
  params.(CreateEmailNotificationParams.userEmail) = Some (js "not-an-email") ->
  createEmailNotification now params
  = inl (NotificationError.mk (js "userEmail")
           (js "Notification userEmail must be a valid email address.")).
Proof.
  intros Hid Huser Hemail.
  unfold createEmailNotification, validateCreateEmailNotification.
  rewrite Hid, Huser, Hemail.
  replace (notNonEmptyString (Some (js "not-an-email"))) with false
    by (vm_compute; reflexivity).
  replace (Regex.test emailRegex (trim (str (Some (js "not-an-email")))))
    with false by (vm_compute; reflexivity).
  reflexivity.
Qed.

(** Case analysis on everything the world can answer during one run. *)
Ltac run_cases host deps w :=
  run_unfold;
  destruct (clock host w) as [?t0 ?w1]; run_step;
  destruct (getEmailTemplate _ _ _) as [?e0|?template]; run_step;
  [| destruct (random host _) as [?bits ?w2]; run_step;
     destruct (clock host _) as [?t1 ?w3]; run_step;
     destruct (createEmailNotification _ _) as [?e1|?pending] eqn:?Hcreate;
     run_step;
     [| destruct (save (notificationRepo deps) _ _) as [[?e2|?saved] ?w4];
        run_step;
        [| destruct (sendEmail (emailSender deps) _ _)
             as [[?e3|[[|] ?mid ?err]] ?w5];
           run_step;
           [| destruct (clock host _) as [?t2 ?w6]; run_step;
              destruct (save (notificationRepo deps) _ _)
                as [[?e4|?final] ?w7];
              run_step
            | destruct (clock host _) as [?t2 ?w6]; run_step;
              destruct (save (notificationRepo deps) _ _)
                as [[?e4|?final] ?w7];
              run_step ]]]].

Ltac trace_simpl :=
  cbn [trace outcome world calls List.filter isSave isSend orb app length
       EmailSendResult.success EmailSendResult.error].

Lemma created_is_pending `{JsRuntime} (now : Date)
    (params : CreateEmailNotificationParams) (n : EmailNotification) :
  createEmailNotification now params = inr n ->
  n.(EmailNotification.status) = Pending
  /\ n.(EmailNotification.retryCount) = 0.
Proof.
  unfold createEmailNotification.
  destruct (validateCreateEmailNotification params); [discriminate|].
  intros [= <-]. split; reflexivity.
Qed.

(** What follows a Pending write and an answer of the sender: one terminal
    write, and the result that is returned when that write resolves. *)
Lemma after_send `{JsRuntime} {W} (host : Host W)
    (deps : SendReservationEmailDeps W) (eventType : jsstring)
    (eventData : ReservationEventData) (w : W)
    (p sp : EmailNotification) (c : EmailContent) (sr : EmailSendResult)
    (rest : list Event) :
  let r := sendReservationEmail host deps eventType eventData w in
  calls (trace r) = EvSave p (inr sp) :: EvSend c (inr sr) :: rest ->
  p.(EmailNotification.status) = Pending
  /\ p.(EmailNotification.retryCount) = 0
  /\ exists now st,
       rest = [EvSave (settle now sp sr) st]
       /\ forall final, st = inr final ->
            outcome r = inr {|
              SendReservationEmailResult.success := sr.(EmailSendResult.success);
              SendReservationEmailResult.notification := Some final;
              SendReservationEmailResult.error :=
                if sr.(EmailSendResult.success) then None
                else sr.(EmailSendResult.error);
            |}.
Proof.
  cbv zeta. run_cases host deps w; trace_simpl;
    try discriminate; intros [= <- <- <- <- <-];
    (split; [exact (proj1 (created_is_pending _ _ _ Hcreate))|]);
    (split; [exact (proj2 (created_is_pending _ _ _ Hcreate))|]);
    exists t2; eexists; (split; [reflexivity|]);
    intros ? [= <-]; reflexivity.
Qed.

(** Whatever the collaborators answer, one invocation makes at most one
    delivery attempt and at most two writes. *)
Lemma at_most_one_send `{JsRuntime} {W} (host : Host W)
    (deps : SendReservationEmailDeps W) (eventType : jsstring)
    (eventData : ReservationEventData) (w : W) :
  let r := sendReservationEmail host deps eventType eventData w in
  (length (List.filter isSend (trace r)) <= 1)%nat
  /\ (length (List.filter isSave (trace r)) <= 2)%nat.
Proof.
  cbv zeta. run_cases host deps w; trace_simpl; split; lia.
Qed.

(** A run of the [try] block that throws nothing has made the three calls
    in the order write, send, write, and all three resolved. *)
Lemma completed_trace `{JsRuntime} {W} (host : Host W)
    (deps : SendReservationEmailDeps W) (eventType : jsstring)
    (eventData : ReservationEventData) (w : W)
    (result : SendReservationEmailResult) :
  outcome (sendReservationEmail_try host deps eventType eventData w)
  = inr result ->
  let r := sendReservationEmail host deps eventType eventData w in
  exists p sp c sr now st,
    calls (trace r)
    = [EvSave p (inr sp); EvSend c (inr sr); EvSave (settle now sp sr) (inr st)]
    /\ outcome r = inr result
    /\ p.(EmailNotification.status) = Pending
    /\ terminal (settle now sp sr).(EmailNotification.status) = true.
Proof.
  cbv zeta. run_cases host deps w; trace_simpl; try discriminate;
    intros Hres;
    pose proof (proj1 (created_is_pending _ _ _ Hcreate)) as Hp;
    match goal with
    | |- context [EvSend ?c (inr ?sr)] => exists pending, saved, c, sr, t2, final
    end;
    (split; [reflexivity|]); (split; [exact Hres|]);
    (split; [exact Hp | reflexivity]).
Qed.

(** ** Failed delivery *)

(** *** C1 (amended).  When the Pending write resolves with the record it
    was given and the sender resolves with [{success: false, error: e}] for
    a non-empty [e], the use case writes [markNotificationFailed] of the
    Pending record with reason [e] -- status [Failed], [failureReason = e],
    [retryCount = 1] -- and, that write resolving, returns
    [{success: false, notification, error: e}]. *)
Theorem failed_delivery_recorded `{JsRuntime} {W} (host : Host W)
    (deps : SendReservationEmailDeps W) (eventType : jsstring)
    (eventData : ReservationEventData) (w : W)
    (p : EmailNotification) (c : EmailContent)
    (messageId : option jsstring) (e : jsstring) (rest : list Event) :
  let r := sendReservationEmail host deps eventType eventData w in
  calls (trace r)
  = EvSave p (inr p)
      :: EvSend c (inr (EmailSendResult.mk false messageId (Some e))) :: rest ->
  e <> [] ->
  exists now st,
    let failed := markNotificationFailed now p e in
    rest = [EvSave failed st]
    /\ failed.(EmailNotification.status) = Failed
    /\ failed.(EmailNotification.failureReason) = Some e
    /\ failed.(EmailNotification.retryCount) = 1
    /\ forall final, st = inr final ->
         outcome r = inr {|
           SendReservationEmailResult.success := false;
           SendReservationEmailResult.notification := Some final;
           SendReservationEmailResult.error := Some e;
         |}.
Proof.
  intros r Hcalls He.
  destruct (after_send host deps eventType eventData w p p c _ rest Hcalls)
    as (_ & Hcount & now & st & Hrest & Hret).
  exists now, st. cbv zeta.
  assert (Hsettle : settle now p (EmailSendResult.mk false messageId (Some e))
                    = markNotificationFailed now p e).
  { unfold settle, or_else. cbn [EmailSendResult.success EmailSendResult.error].
    destruct e as [|x e]; [contradiction | reflexivity]. }
  rewrite Hsettle in Hrest.
  split; [exact Hrest|].
  split; [reflexivity|]. split; [reflexivity|].
  split.
  - unfold markNotificationFailed. cbn [EmailNotification.retryCount].
    rewrite Hcount. reflexivity.
  - intros final Hst. exact (Hret final Hst).
Qed.

Lemma failed_delivery_recorded_witness :
  let r := scenarioRun (InMemory.refused (Some (js "SMTP down"))) scenarioData in
  let failed :=
    markNotificationFailed 1767225600002%Z scenarioPending (js "SMTP down") in
  (calls (trace r)
   = EvSave scenarioPending (inr scenarioPending)
       :: EvSend scenarioContent
            (inr (EmailSendResult.mk false None (Some (js "SMTP down"))))
       :: [EvSave failed (inr failed)]
   /\ js "SMTP down" <> [])
  /\ exists now st,
       let failed' := markNotificationFailed now scenarioPending (js "SMTP down") in
       [EvSave failed (inr failed)] = [EvSave failed' st]
       /\ failed'.(EmailNotification.status) = Failed
       /\ failed'.(EmailNotification.failureReason) = Some (js "SMTP down")
       /\ failed'.(EmailNotification.retryCount) = 1
       /\ forall final, st = inr final ->
            outcome r = inr {|
              SendReservationEmailResult.success := false;
              SendReservationEmailResult.notification := Some final;
              SendReservationEmailResult.error := Some (js "SMTP down");
            |}.
Proof.
  intros r failed.
  assert (Hcalls :
            calls (trace r)
            = EvSave scenarioPending (inr scenarioPending)
                :: EvSend scenarioContent
                     (inr (EmailSendResult.mk false None (Some (js "SMTP down"))))
                :: [EvSave failed (inr failed)])
    by (vm_compute; reflexivity).
  assert (He : js "SMTP down" <> []) by (vm_compute; discriminate).
  split; [split; assumption|].
  exact (@failed_delivery_recorded InMemory.runtime _ InMemory.host
           (InMemory.deps (InMemory.refused (Some (js "SMTP down"))))
           (NotificationType_value ReservationCreated) scenarioData
           InMemory.initial scenarioPending scenarioContent None
           (js "SMTP down") [EvSave failed (inr failed)] Hcalls He).
Defined.

(** The claim fails for an empty error text: the record is written with
    the fallback reason, not with the sender's message. *)
Lemma empty_error_counterexample :
  let r := scenarioRun (InMemory.refused (Some [])) scenarioData in
  let written :=
    markNotificationFailed 1767225600002%Z scenarioPending (js "Unknown error") in
  calls (trace r)
  = EvSave scenarioPending (inr scenarioPending)
      :: EvSend scenarioContent (inr (EmailSendResult.mk false None (Some [])))
      :: [EvSave written (inr written)]
  /\ InMemory.store (world r) !! scenarioPending.(EmailNotification.id)
     = Some written
  /\ written.(EmailNotification.failureReason) = Some (js "Unknown error")
  /\ ~ (exists now st,
          [EvSave written (inr written)]
          = [EvSave (markNotificationFailed now scenarioPending []) st]).
Proof.
  cbv zeta. split; [vm_compute; reflexivity|].
  split; [vm_compute; reflexivity|].
  split; [reflexivity|].
  intros (now & st & Heq).
  assert (Hreason : Some (js "Unknown error") = Some (@nil codeunit)).
  { change (Some (js "Unknown error"))
      with (markNotificationFailed 1767225600002%Z scenarioPending
              (js "Unknown error")).(EmailNotification.failureReason).
    change (Some (@nil codeunit))
      with (markNotificationFailed now scenarioPending [])
             .(EmailNotification.failureReason).
    congruence. }
  vm_compute in Hreason. discriminate.
Qed.



(** ** Order of effects *)

Lemma filter_isSend_calls (tr : list Event) :
  List.filter isSend (calls tr) = List.filter isSend tr.
Proof.
  unfold calls. induction tr as [|e tr IH]; [reflexivity|].
  destruct e; cbn [List.filter isSave isSend orb]; rewrite ?IH; reflexivity.
Qed.

Lemma filter_isSave_calls (tr : list Event) :
  List.filter isSave (calls tr) = List.filter isSave tr.
Proof.
  unfold calls. induction tr as [|e tr IH]; [reflexivity|].
  destruct e; cbn [List.filter isSave isSend orb]; rewrite ?IH; reflexivity.
Qed.

(** *** C3 (amended).  In every invocation whose [try] block throws
    nothing, the calls to the collaborators are exactly: one write of the
    Pending record, then one send attempt, then one write of the terminal
    (Sent or Failed) record; so there is exactly one delivery attempt. *)
Theorem effects_in_order `{JsRuntime} {W} (host : Host W)
    (deps : SendReservationEmailDeps W) (eventType : jsstring)
    (eventData : ReservationEventData) (w : W)
    (result : SendReservationEmailResult) :
  outcome (sendReservationEmail_try host deps eventType eventData w)
  = inr result ->
  let r := sendReservationEmail host deps eventType eventData w in
  exists p sp c sr now st,
    calls (trace r)
    = [EvSave p (inr sp); EvSend c (inr sr); EvSave (settle now sp sr) (inr st)]
    /\ p.(EmailNotification.status) = Pending
    /\ terminal (settle now sp sr).(EmailNotification.status) = true
    /\ length (List.filter isSend (trace r)) = 1%nat
    /\ length (List.filter isSave (trace r)) = 2%nat.
Proof.
  intros Hok r.
  destruct (completed_trace host deps eventType eventData w result Hok)
    as (p & sp & c & sr & now & st & Hcalls & _ & Hp & Ht).
  exists p, sp, c, sr, now, st.
  split; [exact Hcalls|]. split; [exact Hp|]. split; [exact Ht|].
  fold r in Hcalls.
  rewrite <- filter_isSend_calls, <- filter_isSave_calls, Hcalls.
  split; reflexivity.
Qed.

Lemma scenario_delivered_completes :
  outcome (@sendReservationEmail_try InMemory.runtime _ InMemory.host
             (InMemory.deps InMemory.delivered)
             (NotificationType_value ReservationCreated) scenarioData
             InMemory.initial)
  = inr {|
      SendReservationEmailResult.success := true;
      SendReservationEmailResult.notification :=
        Some (markNotificationSent 1767225600002%Z scenarioPending);
      SendReservationEmailResult.error := None;
    |}.
Proof. vm_compute. reflexivity. Defined.

Lemma scenario_delivered_calls :
  calls (trace (scenarioRun InMemory.delivered scenarioData))
  = [EvSave scenarioPending (inr scenarioPending);
     EvSend scenarioContent
       (inr (EmailSendResult.mk true (Some (js "msg-1")) None));
     EvSave (markNotificationSent 1767225600002%Z scenarioPending)
       (inr (markNotificationSent 1767225600002%Z scenarioPending))].
Proof. vm_compute. reflexivity. Defined.

Lemma effects_in_order_witness :
  let r := scenarioRun InMemory.delivered scenarioData in
  outcome (@sendReservationEmail_try InMemory.runtime _ InMemory.host
             (InMemory.deps InMemory.delivered)
             (NotificationType_value ReservationCreated) scenarioData
             InMemory.initial)
  = inr {|
      SendReservationEmailResult.success := true;
      SendReservationEmailResult.notification :=
        Some (markNotificationSent 1767225600002%Z scenarioPending);
      SendReservationEmailResult.error := None;
    |}
  /\ exists p sp c sr now st,
       calls (trace r)
       = [EvSave p (inr sp); EvSend c (inr sr);
          EvSave (settle now sp sr) (inr st)]
       /\ p.(EmailNotification.status) = Pending
       /\ terminal (settle now sp sr).(EmailNotification.status) = true
       /\ length (List.filter isSend (trace r)) = 1%nat
       /\ length (List.filter isSave (trace r)) = 2%nat.
Proof.
  split.
  - exact scenario_delivered_completes.
  - exact (@effects_in_order InMemory.runtime _ InMemory.host
             (InMemory.deps InMemory.delivered)
             (NotificationType_value ReservationCreated) scenarioData
             InMemory.initial _ scenario_delivered_completes).
Defined.

(** The order the claim gives -- both writes before the send -- is not the
    order of the code: in a run without any exception the send comes
    between the two writes. *)
Lemma send_between_writes_counterexample :
  let r := scenarioRun InMemory.delivered scenarioData in
  (exists result,
      outcome (@sendReservationEmail_try InMemory.runtime _ InMemory.host
                 (InMemory.deps InMemory.delivered)
                 (NotificationType_value ReservationCreated) scenarioData
                 InMemory.initial) = inr result)
  /\ ~ WritesThenSend (trace r).
Proof.
  cbv zeta. split.
  - eexists. exact scenario_delivered_completes.
  - intros (p & sp & t & st & sends & Hcalls & _).
    rewrite scenario_delivered_calls in Hcalls. discriminate Hcalls.
Qed.

(** ** Creation inside the use case *)

(** For an event of a recognised type whose user id, e-mail address and
    reservation id are well formed, the params built by the use case are
    valid: the generated id and the rendered template always pass. *)
Lemma event_params_valid `{JsRuntime} (bits : N) (t : NotificationType)
    (eventData : ReservationEventData) (now : Date) :
  NonEmptyTrimmed eventData.(ReservationEventData.userId) ->
  NonEmptyTrimmed eventData.(ReservationEventData.userEmail) ->
  (exists s, eventData.(ReservationEventData.userEmail) = Some s
             /\ EmailShape (trim s)) ->
  NonEmptyTrimmed eventData.(ReservationEventData.reservationId) ->
  ValidParams
    (eventParams (formatUUID bits) (NotificationType_value t) eventData
       (templateFor t now (eventTemplateData eventData))).
Proof.
  intros Huser Hemail Hshape Hres.
  destruct (templateFor_not_blank now t (eventTemplateData eventData))
    as [Hsubject Hhtml].
  unfold ValidParams, checkOrder.
  repeat rewrite Forall_cons_iff.
  cbn [Passes eventParams CreateEmailNotificationParams.id
       CreateEmailNotificationParams.userId
       CreateEmailNotificationParams.userEmail
       CreateEmailNotificationParams.type
       CreateEmailNotificationParams.subject
       CreateEmailNotificationParams.htmlBody
       CreateEmailNotificationParams.reservationId].
  split; [apply notNonEmptyString_false, formatUUID_not_blank|].
  split; [exact Huser|]. split; [exact Hemail|]. split; [exact Hshape|].
  split; [apply notNonEmptyString_false, Hsubject|].
  split; [apply notNonEmptyString_false, Hhtml|].
  split; [exact Hres|].
  split; [exists t; reflexivity | constructor].
Qed.

Lemma scenarioData_well_formed :
  NonEmptyTrimmed scenarioData.(ReservationEventData.userId)
  /\ NonEmptyTrimmed scenarioData.(ReservationEventData.userEmail)
  /\ (exists s, scenarioData.(ReservationEventData.userEmail) = Some s
                /\ EmailShape (trim s))
  /\ NonEmptyTrimmed scenarioData.(ReservationEventData.reservationId).
Proof.
  repeat split.
  - exists (js "U1"). split; [reflexivity | vm_compute; discriminate].
  - exists (js "a@b.com"). split; [reflexivity | vm_compute; discriminate].
  - exists (js "a@b.com"). split; [reflexivity|].
    apply emailRegex_shape. vm_compute. reflexivity.
  - exists (js "R1"). split; [reflexivity | vm_compute; discriminate].
Qed.

(** ** Successful delivery *)

(** *** C2.  For type ReservationCreated and the event
    [{reservationId: "R1", userId: "U1", userEmail: "a@b.com"}], with a
    sender that always resolves with success and a store whose [save]
    resolves with the record it is given, [sendReservationEmail] returns
    [{success: true}] with the notification, and the last record written
    has status [Sent], [sentAt] set and [retryCount = 0]. *)
Theorem reservation_created_delivered `{JsRuntime} {W} (host : Host W)
    (deps : SendReservationEmailDeps W) (w : W) :
  (forall c w0, exists sr w1,
      sendEmail (emailSender deps) c w0 = (inr sr, w1)
      /\ sr.(EmailSendResult.success) = true) ->
  (forall n w0, exists w1,
      save (notificationRepo deps) n w0 = (inr n, w1)) ->
  let r :=
    sendReservationEmail host deps (NotificationType_value ReservationCreated)
      scenarioData w in
  exists pending sent c sr now,
    outcome r = inr {|
      SendReservationEmailResult.success := true;
      SendReservationEmailResult.notification := Some sent;
      SendReservationEmailResult.error := None;
    |}
    /\ calls (trace r)
       = [EvSave pending (inr pending); EvSend c (inr sr);
          EvSave sent (inr sent)]
    /\ sent = markNotificationSent now pending
    /\ sent.(EmailNotification.status) = Sent
    /\ sent.(EmailNotification.sentAt) = Some now
    /\ sent.(EmailNotification.retryCount) = 0.
Proof.
  intros Hsend Hsave. cbv zeta.
  destruct scenarioData_well_formed as (Huser & Hemail & Hshape & Hres).
  run_unfold.
  destruct (clock host w) as [t0 w1]. run_step.
  rewrite getEmailTemplate_member. run_step.
  destruct (random host w1) as [bits w2]. run_step.
  destruct (clock host w2) as [t1 w3]. run_step.
  pose proof (event_params_valid bits ReservationCreated scenarioData t0
                Huser Hemail Hshape Hres) as Hvalid.
  destruct (create_on_valid t1 _ Hvalid)
    as (pending & Hcreate & Hstatus & Hcount).
  unfold eventParams, eventTemplateData in Hcreate.
  rewrite Hcreate. run_step.
  destruct (Hsave pending w3) as [w4 ->]. run_step.
  match goal with
  | |- context [sendEmail (emailSender deps) ?c w4] =>
    destruct (Hsend c w4) as (sr & w5 & -> & Hok);
    destruct sr as [ok mid err]; cbn in Hok; subst ok; run_step;
    destruct (clock host w5) as [t2 w6]; run_step;
    destruct (Hsave (markNotificationSent t2 pending) w6) as [w7 ->];
    run_step; trace_simpl;
    exists pending, (markNotificationSent t2 pending), c,
      (EmailSendResult.mk true mid err), t2
  end.
  repeat split; try reflexivity.
  unfold markNotificationSent. cbn [EmailNotification.retryCount].
  exact Hcount.
Qed.

Lemma delivered_always_succeeds :
  forall c w0, exists sr w1,
    sendEmail (emailSender (InMemory.deps InMemory.delivered)) c w0 = (inr sr, w1)
    /\ sr.(EmailSendResult.success) = true.
Proof. intros c w0. eexists. eexists. split; reflexivity. Defined.

Lemma memory_save_returns_argument (reply : EmailContent -> EmailSendResult) :
  forall n w0, exists w1,
    save (notificationRepo (InMemory.deps reply)) n w0 = (inr n, w1).
Proof. intros n w0. eexists. reflexivity. Defined.

Lemma reservation_created_delivered_witness :
  let r := scenarioRun InMemory.delivered scenarioData in
  ((forall c w0, exists sr w1,
       sendEmail (emailSender (InMemory.deps InMemory.delivered)) c w0
       = (inr sr, w1)
       /\ sr.(EmailSendResult.success) = true)
   /\ (forall n w0, exists w1,
          save (notificationRepo (InMemory.deps InMemory.delivered)) n w0
          = (inr n, w1)))
  /\ exists pending sent c sr now,
       outcome r = inr {|
         SendReservationEmailResult.success := true;
         SendReservationEmailResult.notification := Some sent;
         SendReservationEmailResult.error := None;
       |}
       /\ calls (trace r)
          = [EvSave pending (inr pending); EvSend c (inr sr);
             EvSave sent (inr sent)]
       /\ sent = markNotificationSent now pending
       /\ sent.(EmailNotification.status) = Sent
       /\ sent.(EmailNotification.sentAt) = Some now
       /\ sent.(EmailNotification.retryCount) = 0.
Proof.
  split.
  - split.
    + exact delivered_always_succeeds.
    + exact (memory_save_returns_argument InMemory.delivered).
  - exact (@reservation_created_delivered InMemory.runtime _ InMemory.host
             (InMemory.deps InMemory.delivered) InMemory.initial
             delivered_always_succeeds
             (memory_save_returns_argument InMemory.delivered)).
Defined.

(** The claim fails for a store whose [save] resolves with another record
    than the one it was given: the use case marks as sent what the store
    returned, so the last record written carries the count of the store's
    copy. *)
Lemma counting_store_counterexample :
  let r :=
    @sendReservationEmail InMemory.runtime _ InMemory.host depsCountingStore
      (NotificationType_value ReservationCreated) scenarioData
      InMemory.initial in
  let stored := withRetryCount 1 scenarioPending in
  let sent := markNotificationSent 1767225600002%Z stored in
  let returned := withRetryCount 2 sent in
  (forall n w, exists n' w', save countingRepo n w = (inr n', w'))
  /\ calls (trace r)
     = [EvSave scenarioPending (inr stored);
        EvSend scenarioContent (inr (InMemory.delivered scenarioContent));
        EvSave sent (inr returned)]
  /\ outcome r = inr {|
       SendReservationEmailResult.success := true;
       SendReservationEmailResult.notification := Some returned;
       SendReservationEmailResult.error := None;
     |}
  /\ InMemory.store (world r) !! scenarioPending.(EmailNotification.id)
     = Some sent
  /\ sent.(EmailNotification.status) = Sent
  /\ sent.(EmailNotification.retryCount) = 1
  /\ sent.(EmailNotification.retryCount) <> 0.
Proof.
  cbv zeta. split; [intros n w; eexists; eexists; reflexivity|].
  split; [vm_compute; reflexivity|].
  split; [vm_compute; reflexivity|].
  split; [vm_compute; reflexivity|].
  split; [reflexivity|].
  split; [reflexivity | discriminate].
Qed.

(** On the reference world the record found in the store after the run is
    the Sent one. *)
Example scenario_delivered_store :
  let r := scenarioRun InMemory.delivered scenarioData in
  InMemory.store (world r) !! scenarioPending.(EmailNotification.id)
  = Some (markNotificationSent 1767225600002%Z scenarioPending)
  /\ InMemory.outbox (world r) = [scenarioContent].
Proof. cbv zeta. split; vm_compute; reflexivity. Qed.

(** ** Rejected e-mail address *)

(** *** C6 (amended).  For an event of a recognised type whose user id is
    non-empty after trimming and whose userEmail is ["not-an-email"],
    [createEmailNotification] fails with an error on field ["userEmail"],
    the use case returns [{success: false, error: <message>}], and neither
    the store nor the sender is called: the world is only touched by one
    reading of the clock (for the template) and by the random source. *)
Theorem invalid_email_not_persisted `{JsRuntime} {W} (host : Host W)
    (deps : SendReservationEmailDeps W) (t : NotificationType)
    (eventData : ReservationEventData) (w : W) :
  eventData.(ReservationEventData.userEmail) = Some (js "not-an-email") ->
  NonEmptyTrimmed eventData.(ReservationEventData.userId) ->
  let r :=
    sendReservationEmail host deps (NotificationType_value t) eventData w in
  let message := js "Notification userEmail must be a valid email address." in
  (forall now bits template,
      createEmailNotification now
        (eventParams (formatUUID bits) (NotificationType_value t) eventData
           template)
      = inl (NotificationError.mk (js "userEmail") message))
  /\ outcome r = inr {|
       SendReservationEmailResult.success := false;
       SendReservationEmailResult.notification := None;
       SendReservationEmailResult.error := Some message;
     |}
  /\ calls (trace r) = []
  /\ trace r
     = [EvConsole LevelError (js "Error in sendReservationEmail: " ++ message)]
  /\ world r = snd (random host (snd (clock host w))).
Proof.
  intros Hemail Huser. cbv zeta.
  assert (Hcreate : forall now bits template,
             createEmailNotification now
               (eventParams (formatUUID bits) (NotificationType_value t)
                  eventData template)
             = inl (NotificationError.mk (js "userEmail")
                      (js "Notification userEmail must be a valid email address."))).
  { intros now bits template. apply create_bad_email.
    - apply formatUUID_not_blank.
    - apply notNonEmptyString_false. exact Huser.
    - exact Hemail. }
  split; [exact Hcreate|].
  run_unfold.
  destruct (clock host w) as [t0 w1]. cbn [snd]. run_step.
  rewrite getEmailTemplate_member. run_step.
  destruct (random host w1) as [bits w2]. cbn [snd]. run_step.
  destruct (clock host w2) as [t1 w3]. cbn [snd]. run_step.
  pose proof (Hcreate t1 bits
                (templateFor t t0 (eventTemplateData eventData))) as Hc.
  unfold eventParams, eventTemplateData in Hc. rewrite Hc.
  run_step. trace_simpl.
  repeat split; reflexivity.
Qed.

Lemma invalid_email_not_persisted_witness :
  let r := scenarioRun (InMemory.delivered) invalidEmailData in
  let message := js "Notification userEmail must be a valid email address." in
  (invalidEmailData.(ReservationEventData.userEmail)
   = Some (js "not-an-email")
   /\ NonEmptyTrimmed invalidEmailData.(ReservationEventData.userId))
  /\ (forall now bits template,
         @createEmailNotification InMemory.runtime now
           (eventParams (formatUUID bits)
              (NotificationType_value ReservationCreated) invalidEmailData
              template)
         = inl (NotificationError.mk (js "userEmail") message))
  /\ outcome r = inr {|
       SendReservationEmailResult.success := false;
       SendReservationEmailResult.notification := None;
       SendReservationEmailResult.error := Some message;
     |}
  /\ calls (trace r) = []
  /\ trace r
     = [EvConsole LevelError (js "Error in sendReservationEmail: " ++ message)]
  /\ world r
     = snd (random InMemory.host (snd (clock InMemory.host InMemory.initial))).
Proof.
  assert (Huser : NonEmptyTrimmed invalidEmailData.(ReservationEventData.userId)).
  { exists (js "U1"). split; [reflexivity | vm_compute; discriminate]. }
  split.
  - split; [reflexivity | exact Huser].
  - exact (@invalid_email_not_persisted InMemory.runtime _ InMemory.host
             (InMemory.deps InMemory.delivered) ReservationCreated
             invalidEmailData InMemory.initial eq_refl Huser).
Defined.

(** On the reference world the store and the outbox are as before. *)
Example invalid_email_store_unchanged :
  let r := scenarioRun InMemory.delivered invalidEmailData in
  InMemory.store (world r) = InMemory.store InMemory.initial
  /\ InMemory.outbox (world r) = InMemory.outbox InMemory.initial.
Proof. cbv zeta. split; vm_compute; reflexivity. Qed.

(** The claim fails for an event whose user id is blank: the user id is
    checked before the e-mail address, so the error names ["userId"]. *)
Lemma blank_userId_counterexample :
  let eventData := scenarioEvent (Some []) (Some (js "not-an-email")) in
  let r := scenarioRun InMemory.delivered eventData in
  eventData.(ReservationEventData.userEmail) = Some (js "not-an-email")
  /\ @createEmailNotification InMemory.runtime 1767225600001%Z
       (eventParams (js "3b241101-e2bb-4255-8caf-4136c566a962")
          (NotificationType_value ReservationCreated) eventData
          scenarioTemplate)
     = inl (NotificationError.mk (js "userId")
              (js "Notification userId must be a non-empty string."))
  /\ outcome r = inr {|
       SendReservationEmailResult.success := false;
       SendReservationEmailResult.notification := None;
       SendReservationEmailResult.error :=
         Some (js "Notification userId must be a non-empty string.");
     |}
  /\ js "userId" <> js "userEmail".
Proof.
  cbv zeta. split; [reflexivity|].
  split; [vm_compute; reflexivity|].
  split; [vm_compute; reflexivity|].
  vm_compute. discriminate.
Qed.

(* ===================================================================== *)
(** * Further properties of the entity *)
(* ===================================================================== *)

Lemma forallb_notSpaceAt_facts (s : jsstring) :
  forallb notSpaceAt s = true ->
  occurrences 64 s = 0%nat /\ existsb isWhiteSpace s = false.
Proof.
  unfold occurrences. induction s as [|c s IH]; [split; reflexivity|].
  cbn [forallb List.filter existsb]. intros Hs.
  apply andb_true_iff in Hs as [Hc Hs]. destruct (IH Hs) as [IHa IHw].
  unfold notSpaceAt in Hc. apply negb_true_iff, orb_false_iff in Hc as [Hw Hat].
  rewrite Hw, IHw. rewrite N.eqb_sym in Hat. rewrite Hat.
  split; [exact IHa | reflexivity].
Qed.

Lemma occurrences_app (c : codeunit) (a b : jsstring) :
  occurrences c (a ++ b) = (occurrences c a + occurrences c b)%nat.
Proof. unfold occurrences. rewrite List.filter_app, length_app. reflexivity. Qed.

(** *** X1.  The e-mail test of the validator accepts exactly the strings
    of the shape [local@domain.tld]; an accepted address has exactly one
    [@] and no white space. *)
Theorem email_test_accepts_shape (s : jsstring) :
  (Regex.test emailRegex s = true <-> EmailShape s)
  /\ (Regex.test emailRegex s = true ->
      occurrences 64 s = 1%nat /\ existsb isWhiteSpace s = false).
Proof.
  split; [apply emailRegex_shape|].
  intros Ht. apply emailRegex_shape in Ht.
  destruct Ht as (l & d & t & -> & [_ Hl] & [_ Hd] & [_ Ht]).
  apply forallb_notSpaceAt_facts in Hl as [Hl1 Hl2].
  apply forallb_notSpaceAt_facts in Hd as [Hd1 Hd2].
  apply forallb_notSpaceAt_facts in Ht as [Ht1 Ht2].
  split.
  - rewrite !occurrences_app, Hl1, Hd1, Ht1. reflexivity.
  - rewrite existsb_app. cbn [app existsb]. rewrite existsb_app.
    cbn [existsb]. rewrite Hl2, Hd2, Ht2. reflexivity.
Qed.

Example email_two_ats_rejected :
  Regex.test emailRegex (js "a@b@c.com") = false
  /\ Regex.test emailRegex (js "a b@c.com") = false
  /\ Regex.test emailRegex (js "a@b") = false
  /\ Regex.test emailRegex (js "a@b.c.d") = true.
Proof. repeat split; vm_compute; reflexivity. Qed.

(** *** X2.  The message of a validation error is fixed by the failing
    check: "Notification <field> must be a non-empty string." for the six
    required fields, the valid-address message for the format of the
    e-mail address, and the list of the six type names for the type. *)
Theorem validation_error_messages `{JsRuntime} (now : Date)
    (params : CreateEmailNotificationParams) (e : NotificationError) :
  createEmailNotification now params = inl e ->
  (In e.(NotificationError.field)
      [js "id"; js "userId"; js "userEmail"; js "subject"; js "htmlBody";
       js "reservationId"]
   /\ e.(NotificationError.message)
      = js "Notification " ++ e.(NotificationError.field)
        ++ js " must be a non-empty string.")
  \/ (e.(NotificationError.field) = js "userEmail"
      /\ e.(NotificationError.message)
         = js "Notification userEmail must be a valid email address.")
  \/ (e.(NotificationError.field) = js "type"
      /\ e.(NotificationError.message) = typeMessage).
Proof.
  unfold createEmailNotification, validateCreateEmailNotification.
  repeat match goal with
  | |- context [if ?b then Some _ else _] =>
    destruct b;
    [ intros [= <-]; cbn [NotificationError.field NotificationError.message];
      first [ left; split; [cbn [In]; tauto | vm_compute; reflexivity]
            | right; left; split; reflexivity
            | right; right; split; [reflexivity | vm_compute; reflexivity] ]
    | ]
  end.
  discriminate.
Qed.

Lemma validation_error_messages_witness :
  let e := NotificationError.mk (js "id")
             (js "Notification id must be a non-empty string.") in
  @createEmailNotification InMemory.runtime 0%Z blankIdParams = inl e
  /\ ((In e.(NotificationError.field)
         [js "id"; js "userId"; js "userEmail"; js "subject"; js "htmlBody";
          js "reservationId"]
       /\ e.(NotificationError.message)
          = js "Notification " ++ e.(NotificationError.field)
            ++ js " must be a non-empty string.")
      \/ (e.(NotificationError.field) = js "userEmail"
          /\ e.(NotificationError.message)
             = js "Notification userEmail must be a valid email address.")
      \/ (e.(NotificationError.field) = js "type"
          /\ e.(NotificationError.message) = typeMessage)).
Proof.
  intros e.
  assert (Hc : @createEmailNotification InMemory.runtime 0%Z blankIdParams
               = inl e) by (vm_compute; reflexivity).
  split; [exact Hc|].
  exact (@validation_error_messages InMemory.runtime 0%Z blankIdParams e Hc).
Defined.

(** ** Trimming *)

Lemma trimStart_headKept (s : jsstring) : headKept (trimStart s).
Proof.
  induction s as [|c s IH]; simpl; [exact I|].
  destruct (isWhiteSpace c) eqn:Hc; [exact IH | exact Hc].
Qed.

Lemma trimStart_fixed (s : jsstring) : headKept s -> trimStart s = s.
Proof.
  destruct s as [|c s]; simpl; [reflexivity|]. intros ->. reflexivity.
Qed.

Lemma trimEnd_headKept (s : jsstring) : headKept s -> headKept (trimEnd s).
Proof.
  intros Hs. unfold trimEnd.
  destruct (trimStart_suffix (rev s)) as (a & Ha & _).
  apply (f_equal (@rev codeunit)) in Ha.
  rewrite rev_involutive, rev_app_distr in Ha.
  destruct (rev (trimStart (rev s))) as [|c r]; [exact I|].
  rewrite Ha in Hs. exact Hs.
Qed.

(** [trim] is idempotent. *)
Lemma trim_idempotent (s : jsstring) : trim (trim s) = trim s.
Proof.
  assert (Hhead : headKept (trim s))
    by (apply trimEnd_headKept, trimStart_headKept).
  unfold trim at 1. rewrite (trimStart_fixed _ Hhead).
  unfold trim, trimEnd. rewrite rev_involutive.
  rewrite (trimStart_fixed (trimStart (rev (trimStart s))))
    by apply trimStart_headKept.
  reflexivity.
Qed.

Lemma NonEmptyTrimmed_str (v : jsval) :
  NonEmptyTrimmed v -> trim (str v) <> [] /\ trim (trim (str v)) = trim (str v).
Proof.
  intros (s & -> & Hne). split; [exact Hne | apply trim_idempotent].
Qed.

(** *** X3.  A notification returned by [createEmailNotification] keeps the
    invariants of the entity: its id, user id, subject and reservation id
    are non-empty and carry no white space at either end, its HTML body is
    not blank, its type is one of the six, and it has neither a sent time
    nor a failure reason. *)
Theorem created_notification_invariants `{JsRuntime} (now : Date)
    (params : CreateEmailNotificationParams) (n : EmailNotification) :
  createEmailNotification now params = inr n ->
  (n.(EmailNotification.id) <> []
   /\ trim n.(EmailNotification.id) = n.(EmailNotification.id))
  /\ (n.(EmailNotification.userId) <> []
      /\ trim n.(EmailNotification.userId) = n.(EmailNotification.userId))
  /\ (n.(EmailNotification.subject) <> []
      /\ trim n.(EmailNotification.subject) = n.(EmailNotification.subject))
  /\ (n.(EmailNotification.reservationId) <> []
      /\ trim n.(EmailNotification.reservationId)
         = n.(EmailNotification.reservationId))
  /\ isBlank n.(EmailNotification.htmlBody) = false
  /\ (exists t, n.(EmailNotification.type) = NotificationType_value t)
  /\ n.(EmailNotification.sentAt) = None
  /\ n.(EmailNotification.failureReason) = None.
Proof.
  unfold createEmailNotification.
  destruct (validateCreateEmailNotification params) eqn:Hv; [discriminate|].
  intros [= <-]. cbn.
  apply validate_None_iff in Hv. unfold ValidParams, checkOrder in Hv.
  repeat rewrite Forall_cons_iff in Hv. cbn [Passes] in Hv.
  destruct Hv as (Hid & Huser & _ & _ & Hsub & Hhtml & Hres & Htype & _).
  repeat split;
    try (apply NonEmptyTrimmed_str; assumption);
    try exact Htype.
  destruct Hhtml as (s & -> & Hne). cbn. unfold isBlank.
  destruct (trim s); [contradiction | reflexivity].
Qed.

Lemma created_notification_invariants_witness :
  @createEmailNotification InMemory.runtime 1767225600000%Z sampleParams
  = inr sampleNotification
  /\ (sampleNotification.(EmailNotification.id) <> []
      /\ trim sampleNotification.(EmailNotification.id)
         = sampleNotification.(EmailNotification.id))
  /\ (sampleNotification.(EmailNotification.userId) <> []
      /\ trim sampleNotification.(EmailNotification.userId)
         = sampleNotification.(EmailNotification.userId))
  /\ (sampleNotification.(EmailNotification.subject) <> []
      /\ trim sampleNotification.(EmailNotification.subject)
         = sampleNotification.(EmailNotification.subject))
  /\ (sampleNotification.(EmailNotification.reservationId) <> []
      /\ trim sampleNotification.(EmailNotification.reservationId)
         = sampleNotification.(EmailNotification.reservationId))
  /\ isBlank sampleNotification.(EmailNotification.htmlBody) = false
  /\ (exists t, sampleNotification.(EmailNotification.type)
                = NotificationType_value t)
  /\ sampleNotification.(EmailNotification.sentAt) = None
  /\ sampleNotification.(EmailNotification.failureReason) = None.
Proof.
  split.
  - exact create_sampleNotification.
  - exact (@created_notification_invariants InMemory.runtime 1767225600000%Z
             sampleParams sampleNotification create_sampleNotification).
Defined.

(** ** Chains of transitions *)

Lemma last_cons_default {A} (x d : A) (l : list A) :
  List.last (x :: l) d = List.last l x.
Proof.
  revert x d. induction l as [|y l IH]; intros x d; [reflexivity|].
  change (List.last (x :: y :: l) d) with (List.last (y :: l) d).
  rewrite (IH y d), (IH y x). reflexivity.
Qed.

Lemma applyTransitions_retryCount (ts : list Transition)
    (n : EmailNotification) :
  n.(EmailNotification.retryCount)
  + N.of_nat (length (List.filter isFailure ts)) <= 2 ^ 53 ->
  (applyTransitions ts n).(EmailNotification.retryCount)
  = n.(EmailNotification.retryCount)
    + N.of_nat (length (List.filter isFailure ts)).
Proof.
  unfold applyTransitions. rewrite two_53. revert n.
  induction ts as [|t ts IH]; intros n Hle.
  - cbn [fold_left List.filter length]. lia.
  - cbn [fold_left List.filter] in *.
    destruct t as [now|now reason]; cbn [isFailure applyTransition] in *.
    + rewrite IH; unfold markNotificationSent;
        cbn [EmailNotification.retryCount]; [reflexivity | exact Hle].
    + cbn [length] in Hle.
      assert (Hstep : (markNotificationFailed now n reason)
                        .(EmailNotification.retryCount)
                      = n.(EmailNotification.retryCount) + 1).
      { unfold markNotificationFailed. cbn [EmailNotification.retryCount].
        apply Number_add_exact. rewrite two_53. lia. }
      rewrite IH; rewrite Hstep; cbn [length]; lia.
Qed.

(** *** X4.  Through any sequence of transitions, in any order and from
    any status, the identity and content of a notification and its
    [createdAt] never change; the status and [updatedAt] are those of the
    last transition; and [retryCount] grows by the number of failed
    transitions, as long as the count does not exceed 2^53. *)
Theorem lifecycle_chain (ts : list Transition) (n : EmailNotification) :
  let n' := applyTransitions ts n in
  let failures := N.of_nat (length (List.filter isFailure ts)) in
  (n'.(EmailNotification.id) = n.(EmailNotification.id)
   /\ n'.(EmailNotification.userId) = n.(EmailNotification.userId)
   /\ n'.(EmailNotification.userEmail) = n.(EmailNotification.userEmail)
   /\ n'.(EmailNotification.type) = n.(EmailNotification.type)
   /\ n'.(EmailNotification.subject) = n.(EmailNotification.subject)
   /\ n'.(EmailNotification.htmlBody) = n.(EmailNotification.htmlBody)
   /\ n'.(EmailNotification.textBody) = n.(EmailNotification.textBody)
   /\ n'.(EmailNotification.reservationId)
      = n.(EmailNotification.reservationId)
   /\ n'.(EmailNotification.createdAt) = n.(EmailNotification.createdAt))
  /\ (n.(EmailNotification.retryCount) + failures <= 2 ^ 53 ->
      n'.(EmailNotification.retryCount)
      = n.(EmailNotification.retryCount) + failures)
  /\ n'.(EmailNotification.status)
     = List.last (map transitionStatus ts) n.(EmailNotification.status)
  /\ n'.(EmailNotification.updatedAt)
     = List.last (map transitionTime ts) n.(EmailNotification.updatedAt).
Proof.
  cbv zeta.
  split; [|split; [apply applyTransitions_retryCount|]];
    unfold applyTransitions; revert n;
    (induction ts as [|t ts IH]; intros n;
     [cbn; repeat split; reflexivity|]).
  - cbn [fold_left].
    destruct (IH (applyTransition n t))
      as (H1 & H2 & H3 & H4 & H5 & H6 & H7 & H8 & H9).
    rewrite H1, H2, H3, H4, H5, H6, H7, H8, H9.
    destruct t as [now|now reason]; cbn [applyTransition];
      unfold markNotificationSent, markNotificationFailed;
      cbn [EmailNotification.id EmailNotification.userId
           EmailNotification.userEmail EmailNotification.type
           EmailNotification.subject EmailNotification.htmlBody
           EmailNotification.textBody EmailNotification.reservationId
           EmailNotification.createdAt];
      repeat split; reflexivity.
  - cbn [fold_left map].
    destruct (IH (applyTransition n t)) as (Hs & Hu).
    rewrite Hs, Hu, !last_cons_default.
    destruct t as [now|now reason];
      cbn [applyTransition transitionStatus transitionTime];
      unfold markNotificationSent, markNotificationFailed;
      cbn [EmailNotification.status EmailNotification.updatedAt];
      split; reflexivity.
Qed.

Lemma lifecycle_chain_witness :
  let ts := [ToFailed 5%Z (js "SMTP down"); ToSent 9%Z;
             ToFailed 12%Z (js "SMTP down")] in
  let n' := applyTransitions ts sampleNotification in
  sampleNotification.(EmailNotification.retryCount)
  + N.of_nat (length (List.filter isFailure ts)) <= 2 ^ 53
  /\ n'.(EmailNotification.retryCount)
     = sampleNotification.(EmailNotification.retryCount)
       + N.of_nat (length (List.filter isFailure ts))
  /\ n'.(EmailNotification.retryCount) = 2.
Proof.
  intros ts n'.
  assert (Hle : sampleNotification.(EmailNotification.retryCount)
                + N.of_nat (length (List.filter isFailure ts)) <= 2 ^ 53)
    by (vm_compute; discriminate).
  split; [exact Hle|].
  split; [|vm_compute; reflexivity].
  exact (proj1 (proj2 (lifecycle_chain ts sampleNotification)) Hle).
Defined.

(** From 2^53 on the count no longer follows the failures. *)
Example lifecycle_count_stops :
  (applyTransitions [ToFailed 5%Z (js "SMTP down")] saturatedNotification)
    .(EmailNotification.retryCount)
  = saturatedNotification.(EmailNotification.retryCount).
Proof. vm_compute. reflexivity. Qed.

Example stale_failure_after_sent :
  let n := applyTransitions [ToFailed 5%Z (js "SMTP down"); ToSent 9%Z]
             sampleNotification in
  n.(EmailNotification.status) = Sent
  /\ n.(EmailNotification.failureReason) = Some (js "SMTP down")
  /\ n.(EmailNotification.retryCount) = 1
  /\ n.(EmailNotification.sentAt) = Some 9%Z.
Proof. cbv zeta. repeat split; reflexivity. Qed.

(* ===================================================================== *)
(** * Further properties of the templates *)
(* ===================================================================== *)

(** The [default] branch of the [switch]. *)
Lemma getEmailTemplate_unknown `{JsRuntime} (now : Date)
    (type : jsstring) (data : ReservationEmailData) :
  (forall t, type <> NotificationType_value t) ->
  getEmailTemplate now type data
  = inl (new_Error (js "Unknown notification type: " ++ type)).
Proof.
  intros Hno. unfold getEmailTemplate.
  repeat match goal with
  | |- context [jsstring_eqb type (NotificationType_value ?t)] =>
    let E := fresh "E" in
    destruct (jsstring_eqb type (NotificationType_value t)) eqn:E;
    [apply jsstring_eqb_eq in E; destruct (Hno t E)|]
  end.
  reflexivity.
Qed.

Lemma getEmailTemplate_dispatch_cases `{JsRuntime} (now : Date)
    (type : jsstring) (data : ReservationEmailData) :
  (exists t, type = NotificationType_value t
             /\ getEmailTemplate now type data = inr (templateFor t now data))
  \/ ((forall t, type <> NotificationType_value t)
      /\ getEmailTemplate now type data
         = inl (new_Error (js "Unknown notification type: " ++ type))).
Proof.
  destruct (existsb (jsstring_eqb type) NotificationType_values) eqn:Hm.
  - left. apply includes_NotificationType in Hm as (t & ->).
    exists t. split; [reflexivity | apply getEmailTemplate_member].
  - right.
    assert (Hno : forall t, type <> NotificationType_value t).
    { intros t Heq.
      assert (Hyes : existsb (jsstring_eqb type) NotificationType_values = true)
        by (apply includes_NotificationType; exists t; exact Heq).
      congruence. }
    split; [exact Hno | apply getEmailTemplate_unknown, Hno].
Qed.

(** *** X5.  [getEmailTemplate] returns the template of the type exactly
    for the six members of the enum; for any other value it throws
    [Error("Unknown notification type: <value>")]. *)
Theorem getEmailTemplate_dispatch `{JsRuntime} (now : Date)
    (type : jsstring) (data : ReservationEmailData) :
  (exists t, type = NotificationType_value t
             /\ getEmailTemplate now type data = inr (templateFor t now data))
  \/ ((forall t, type <> NotificationType_value t)
      /\ getEmailTemplate now type data
         = inl (new_Error (js "Unknown notification type: " ++ type))).
Proof. exact (getEmailTemplate_dispatch_cases now type data). Qed.

Lemma isBlank_app_second (a b c : jsstring) :
  forallb isWhiteSpace b = false -> isBlank (a ++ b ++ c) = false.
Proof.
  intros Hb. rewrite isBlank_forallb, !forallb_app, Hb.
  rewrite andb_false_r. reflexivity.
Qed.

(** *** X6.  For each of the six types and whatever the data and the year,
    the subject, the HTML body and the text body of the template are not
    blank. *)
Theorem templates_never_blank `{JsRuntime} (now : Date)
    (t : NotificationType) (data : ReservationEmailData) :
  isBlank (templateFor t now data).(EmailTemplate.subject) = false
  /\ isBlank (templateFor t now data).(EmailTemplate.htmlBody) = false
  /\ isBlank (templateFor t now data).(EmailTemplate.textBody) = false.
Proof.
  destruct (templateFor_not_blank now t data) as [Hs Hh].
  rewrite notNonEmptyString_Some in Hs, Hh.
  split; [exact Hs|]. split; [exact Hh|].
  destruct t;
    cbn [templateFor EmailTemplate.textBody getReservationCreatedEmail
         getReservationCollectedEmail getReservationReturnedEmail
         getReservationCancelledEmail getReservationExpiredEmail
         getReservationOverdueEmail];
    apply isBlank_app_second; vm_compute; reflexivity.
Qed.

Lemma presentOrAbsent_cases (v : jsval) :
  (truthy v = true /\ presentOrAbsent v = v)
  \/ (truthy v = false /\ presentOrAbsent v = None).
Proof.
  unfold presentOrAbsent. destruct (truthy v); [left | right]; split; reflexivity.
Qed.

(** *** X7.  A template reads only the reservation id and the optional
    fields it mentions, and it treats an optional field that is the empty
    string like an absent one: replacing every falsy optional field by
    [undefined] and dropping the e-mail address changes nothing. *)
Theorem template_reads_essential_data `{JsRuntime} (now : Date)
    (t : NotificationType) (data : ReservationEmailData) :
  templateFor t now (essentialData data) = templateFor t now data.
Proof.
  destruct data as [email rid deviceName reservedAt expiresAt collectedAt
                      returnDueAt returnedAt].
  unfold essentialData.
  destruct t;
    unfold templateFor, getReservationCreatedEmail,
      getReservationCollectedEmail, getReservationReturnedEmail,
      getReservationCancelledEmail, getReservationExpiredEmail,
      getReservationOverdueEmail;
    cbn [ReservationEmailData.userEmail ReservationEmailData.reservationId
         ReservationEmailData.deviceName ReservationEmailData.reservedAt
         ReservationEmailData.expiresAt ReservationEmailData.collectedAt
         ReservationEmailData.returnDueAt ReservationEmailData.returnedAt];
    repeat match goal with
    | |- context [presentOrAbsent ?v] =>
      let Hf := fresh "Hf" in
      destruct (presentOrAbsent_cases v) as [[_ ->] | [Hf ->]];
      [| rewrite ?Hf; change (truthy None) with false; cbv iota ]
    end;
    reflexivity.
Qed.

Example template_empty_device_name :
  let data d := ReservationEmailData.mk (Some (js "a@b.com")) (Some (js "R1"))
                  d None None None None None in
  @templateFor InMemory.runtime ReservationCancelled 0%Z (data (Some []))
  = @templateFor InMemory.runtime ReservationCancelled 0%Z (data None).
Proof. vm_compute. reflexivity. Qed.

(* ===================================================================== *)
(** * Further properties of the use case *)
(* ===================================================================== *)

(** *** X8.  [sendReservationEmail] never rejects: whatever the
    collaborators do, it resolves with a result.  When a step of the [try]
    block throws [e], the result is
    [{success: false, error: <message of e>}] without a notification. *)
Theorem sendReservationEmail_never_rejects `{JsRuntime} {W} (host : Host W)
    (deps : SendReservationEmailDeps W) (eventType : jsstring)
    (eventData : ReservationEventData) (w : W) :
  let r := sendReservationEmail host deps eventType eventData w in
  exists result,
    outcome r = inr result
    /\ match outcome (sendReservationEmail_try host deps eventType eventData w)
       with
       | inl e => result = failureResult e
       | inr done => result = done
       end.
Proof.
  cbv zeta. run_cases host deps w; trace_simpl;
    eexists; split; reflexivity.
Qed.

(** *** X9.  The calls of one invocation always form a prefix of
    write, send, write that stops at the first call that rejects: a send is
    attempted only after the Pending write has resolved, a second write
    only after the sender has answered, and nothing is called a second
    time. *)
Theorem calls_stop_at_first_rejection `{JsRuntime} {W} (host : Host W)
    (deps : SendReservationEmailDeps W) (eventType : jsstring)
    (eventData : ReservationEventData) (w : W) :
  let cs := calls (trace (sendReservationEmail host deps eventType eventData w)) in
  cs = []
  \/ (exists p e,
        cs = [EvSave p (inl e)] /\ p.(EmailNotification.status) = Pending)
  \/ (exists p sp c e,
        cs = [EvSave p (inr sp); EvSend c (inl e)]
        /\ p.(EmailNotification.status) = Pending)
  \/ (exists p sp c sr now st,
        cs = [EvSave p (inr sp); EvSend c (inr sr);
              EvSave (settle now sp sr) st]
        /\ p.(EmailNotification.status) = Pending).
Proof.
  cbv zeta. run_cases host deps w; trace_simpl;
    try (left; reflexivity);
    pose proof (proj1 (created_is_pending _ _ _ Hcreate)) as Hp.
  - right. left. eauto.
  - right. right. left. eexists _, _, _, _. eauto.
  - right. right. right.
    match goal with
    | |- context [EvSend ?c (inr ?sr)] =>
      exists pending, saved, c, sr, t2, (@inl Thrown EmailNotification e4)
    end.
    split; [reflexivity | exact Hp].
  - right. right. right.
    match goal with
    | |- context [EvSend ?c (inr ?sr)] =>
      exists pending, saved, c, sr, t2, (@inr Thrown EmailNotification final)
    end.
    split; [reflexivity | exact Hp].
  - right. right. right.
    match goal with
    | |- context [EvSend ?c (inr ?sr)] =>
      exists pending, saved, c, sr, t2, (@inl Thrown EmailNotification e4)
    end.
    split; [reflexivity | exact Hp].
  - right. right. right.
    match goal with
    | |- context [EvSend ?c (inr ?sr)] =>
      exists pending, saved, c, sr, t2, (@inr Thrown EmailNotification final)
    end.
    split; [reflexivity | exact Hp].
Qed.

(** *** X10.  When the store rejects the Pending write with [e], no e-mail
    is sent and nothing else is written; the result is
    [{success: false, error: <message of e>}]. *)
Theorem pending_write_rejected `{JsRuntime} {W} (host : Host W)
    (deps : SendReservationEmailDeps W) (eventType : jsstring)
    (eventData : ReservationEventData) (w : W)
    (p : EmailNotification) (e : Thrown) (rest : list Event) :
  let r := sendReservationEmail host deps eventType eventData w in
  calls (trace r) = EvSave p (inl e) :: rest ->
  rest = [] /\ outcome r = inr (failureResult e).
Proof.
  cbv zeta. run_cases host deps w; trace_simpl; try discriminate;
    intros Heq; inversion Heq; subst; split; reflexivity.
Qed.

(** *** X11.  When [sendEmail] itself rejects with [e], no terminal record
    is written -- the only record written is the Pending one -- and the
    result is [{success: false, error: <message of e>}]. *)
Theorem sender_rejected `{JsRuntime} {W} (host : Host W)
    (deps : SendReservationEmailDeps W) (eventType : jsstring)
    (eventData : ReservationEventData) (w : W)
    (p : EmailNotification) (sp : Settled EmailNotification)
    (c : EmailContent) (e : Thrown) (rest : list Event) :
  let r := sendReservationEmail host deps eventType eventData w in
  calls (trace r) = EvSave p sp :: EvSend c (inl e) :: rest ->
  rest = []
  /\ p.(EmailNotification.status) = Pending
  /\ outcome r = inr (failureResult e).
Proof.
  cbv zeta. run_cases host deps w; trace_simpl; try discriminate;
    intros Heq; inversion Heq; subst;
    pose proof (proj1 (created_is_pending _ _ _ Hcreate)) as Hp;
    repeat split; try reflexivity; exact Hp.
Qed.

(** *** X12.  When the write of the terminal record rejects with [e], the
    result is [{success: false, error: <message of e>}] without a
    notification, also when the sender had reported success: the e-mail has
    been sent, and the last record the store accepted is the Pending one. *)
Theorem terminal_write_rejected `{JsRuntime} {W} (host : Host W)
    (deps : SendReservationEmailDeps W) (eventType : jsstring)
    (eventData : ReservationEventData) (w : W)
    (p sp t : EmailNotification) (c : EmailContent) (sr : EmailSendResult)
    (e : Thrown) (rest : list Event) :
  let r := sendReservationEmail host deps eventType eventData w in
  calls (trace r)
  = EvSave p (inr sp) :: EvSend c (inr sr) :: EvSave t (inl e) :: rest ->
  rest = []
  /\ p.(EmailNotification.status) = Pending
  /\ t.(EmailNotification.status)
     = (if sr.(EmailSendResult.success) then Sent else Failed)
  /\ outcome r = inr (failureResult e).
Proof.
  cbv zeta. run_cases host deps w; trace_simpl; try discriminate;
    intros Heq; inversion Heq; subst;
    pose proof (proj1 (created_is_pending _ _ _ Hcreate)) as Hp;
    repeat split; try reflexivity; exact Hp.
Qed.

Lemma pending_write_rejected_witness :
  let r := scenarioRunWith depsStoreDown
             (NotificationType_value ReservationCreated) scenarioData in
  calls (trace r) = EvSave scenarioPending (inl storeDown) :: []
  /\ (@nil Event = [] /\ outcome r = inr (failureResult storeDown)).
Proof.
  intros r.
  assert (Hcalls : calls (trace r) = EvSave scenarioPending (inl storeDown) :: [])
    by (vm_compute; reflexivity).
  split; [exact Hcalls|].
  exact (@pending_write_rejected InMemory.runtime _ InMemory.host depsStoreDown
           (NotificationType_value ReservationCreated) scenarioData
           InMemory.initial scenarioPending storeDown [] Hcalls).
Defined.

Lemma sender_rejected_witness :
  let r := scenarioRunWith depsSenderThrows
             (NotificationType_value ReservationCreated) scenarioData in
  let e := new_Error (js "socket hang up") in
  calls (trace r)
  = EvSave scenarioPending (inr scenarioPending)
      :: EvSend scenarioContent (inl e) :: []
  /\ (@nil Event = []
      /\ scenarioPending.(EmailNotification.status) = Pending
      /\ outcome r = inr (failureResult e)).
Proof.
  intros r e.
  assert (Hcalls : calls (trace r)
                   = EvSave scenarioPending (inr scenarioPending)
                       :: EvSend scenarioContent (inl e) :: [])
    by (vm_compute; reflexivity).
  split; [exact Hcalls|].
  exact (@sender_rejected InMemory.runtime _ InMemory.host depsSenderThrows
           (NotificationType_value ReservationCreated) scenarioData
           InMemory.initial scenarioPending (inr scenarioPending)
           scenarioContent e [] Hcalls).
Defined.

Lemma terminal_write_rejected_witness :
  let r := scenarioRunWith depsSecondWriteFails
             (NotificationType_value ReservationCreated) scenarioData in
  let sr := EmailSendResult.mk true (Some (js "msg-1")) None in
  let t := markNotificationSent 1767225600002%Z scenarioPending in
  calls (trace r)
  = EvSave scenarioPending (inr scenarioPending)
      :: EvSend scenarioContent (inr sr) :: EvSave t (inl storeDown) :: []
  /\ (@nil Event = []
      /\ scenarioPending.(EmailNotification.status) = Pending
      /\ t.(EmailNotification.status)
         = (if sr.(EmailSendResult.success) then Sent else Failed)
      /\ outcome r = inr (failureResult storeDown)).
Proof.
  intros r sr t.
  assert (Hcalls : calls (trace r)
                   = EvSave scenarioPending (inr scenarioPending)
                       :: EvSend scenarioContent (inr sr)
                       :: EvSave t (inl storeDown) :: [])
    by (vm_compute; reflexivity).
  split; [exact Hcalls|].
  exact (@terminal_write_rejected InMemory.runtime _ InMemory.host
           depsSecondWriteFails (NotificationType_value ReservationCreated)
           scenarioData InMemory.initial scenarioPending scenarioPending t
           scenarioContent sr storeDown [] Hcalls).
Defined.

(** On the reference world: the e-mail is in the outbox, the store still
    holds the Pending record, and the caller is told the send failed. *)
Example delivered_but_reported_failed :
  let r := scenarioRunWith depsSecondWriteFails
             (NotificationType_value ReservationCreated) scenarioData in
  InMemory.outbox (world r) = [scenarioContent]
  /\ InMemory.store (world r) !! scenarioPending.(EmailNotification.id)
     = Some scenarioPending
  /\ outcome r = inr (failureResult storeDown).
Proof. cbv zeta. repeat split; vm_compute; reflexivity. Qed.

(** *** X13.  The result says [success: true] exactly when all three calls
    resolved and the sender reported success; the notification returned is
    then the one the store returned for the Sent record. *)
Theorem success_means_sent_and_recorded `{JsRuntime} {W} (host : Host W)
    (deps : SendReservationEmailDeps W) (eventType : jsstring)
    (eventData : ReservationEventData) (w : W) :
  let r := sendReservationEmail host deps eventType eventData w in
  exists result,
    outcome r = inr result
    /\ (result.(SendReservationEmailResult.success) = true
        <-> exists p sp c sr now st,
              calls (trace r)
              = [EvSave p (inr sp); EvSend c (inr sr);
                 EvSave (markNotificationSent now sp) (inr st)]
              /\ sr.(EmailSendResult.success) = true
              /\ result.(SendReservationEmailResult.notification) = Some st
              /\ result.(SendReservationEmailResult.error) = None).
Proof.
  cbv zeta. run_cases host deps w; trace_simpl;
    (eexists; split; [reflexivity|]);
    cbn [SendReservationEmailResult.success
         SendReservationEmailResult.notification
         SendReservationEmailResult.error];
    (split;
     [ try discriminate
     | intros (p & sp & c & sr & now & st & Hc & Hs & _);
       try discriminate Hc;
       inversion Hc; subst; try discriminate Hs; try reflexivity ]).
  intros _.
  match goal with
  | |- context [EvSend ?c (inr ?sr)] =>
    exists pending, saved, c, sr, t2, final
  end.
  repeat split; reflexivity.
Qed.

(** *** X14.  For a type that is not one of the six, the use case does
    nothing at all: no clock reading, no id, no call to the store or the
    sender.  It logs the error and returns
    [{success: false, error: "Unknown notification type: <type>"}]. *)
Theorem unknown_type_has_no_effect `{JsRuntime} {W} (host : Host W)
    (deps : SendReservationEmailDeps W) (eventType : jsstring)
    (eventData : ReservationEventData) (w : W) :
  (forall t, eventType <> NotificationType_value t) ->
  let message := js "Unknown notification type: " ++ eventType in
  sendReservationEmail host deps eventType eventData w
  = mkRun
      (inr {|
         SendReservationEmailResult.success := false;
         SendReservationEmailResult.notification := None;
         SendReservationEmailResult.error := Some message;
       |})
      w
      [EvConsole LevelError (js "Error in sendReservationEmail: " ++ message)].
Proof.
  intros Hno. cbv zeta. run_unfold.
  destruct (clock host w) as [t0 w1]. run_step.
  rewrite (getEmailTemplate_unknown _ _ _ Hno). run_step. reflexivity.
Qed.

Lemma unknown_type_has_no_effect_witness :
  let message := js "Unknown notification type: reservation.created" in
  (forall t, js "reservation.created" <> NotificationType_value t)
  /\ scenarioRunWith (InMemory.deps InMemory.delivered)
       (js "reservation.created") scenarioData
     = mkRun
         (inr {|
            SendReservationEmailResult.success := false;
            SendReservationEmailResult.notification := None;
            SendReservationEmailResult.error := Some message;
          |})
         InMemory.initial
         [EvConsole LevelError
            (js "Error in sendReservationEmail: " ++ message)].
Proof.
  assert (Hno : forall t, js "reservation.created" <> NotificationType_value t)
    by (intros t; destruct t; vm_compute; discriminate).
  split; [exact Hno|].
  exact (@unknown_type_has_no_effect InMemory.runtime _ InMemory.host
           (InMemory.deps InMemory.delivered) (js "reservation.created")
           scenarioData InMemory.initial Hno).
Defined.

(** ** What is sent and what is recorded *)

Lemma fixedSubject_trimmed (t : NotificationType) :
  trim (fixedSubject t) = fixedSubject t.
Proof. destruct t; vm_compute; reflexivity. Qed.

(** *** X15.  The e-mail is addressed to [eventData.userEmail] exactly as
    the event gives it, while the record keeps the address trimmed and
    lower-cased; subject and HTML body are the same in both; the record
    keeps the text body trimmed, the e-mail carries it untrimmed. *)
Theorem sent_versus_recorded `{JsRuntime} {W} (host : Host W)
    (deps : SendReservationEmailDeps W) (eventType : jsstring)
    (eventData : ReservationEventData) (w : W)
    (p : EmailNotification) (sp : Settled EmailNotification)
    (c : EmailContent) (sc : Settled EmailSendResult) (rest : list Event) :
  calls (trace (sendReservationEmail host deps eventType eventData w))
  = EvSave p sp :: EvSend c sc :: rest ->
  exists t now address,
    let template := templateFor t now (eventTemplateData eventData) in
    eventType = NotificationType_value t
    /\ eventData.(ReservationEventData.userEmail) = Some address
    /\ c.(EmailContent.to) = Some address
    /\ p.(EmailNotification.userEmail) = toLowerCase (trim address)
    /\ c.(EmailContent.subject) = fixedSubject t
    /\ p.(EmailNotification.subject) = fixedSubject t
    /\ c.(EmailContent.htmlBody) = template.(EmailTemplate.htmlBody)
    /\ p.(EmailNotification.htmlBody) = template.(EmailTemplate.htmlBody)
    /\ c.(EmailContent.textBody) = Some template.(EmailTemplate.textBody)
    /\ p.(EmailNotification.textBody)
       = Some (trim template.(EmailTemplate.textBody)).
Proof.
  run_unfold.
  destruct (clock host w) as [t0 w1]. run_step.
  destruct (getEmailTemplate_dispatch_cases t0 eventType
              (eventTemplateData eventData))
    as [(t & -> & Htpl) | (_ & Htpl)];
    unfold eventTemplateData in Htpl; rewrite Htpl; run_step;
    [|trace_simpl; discriminate].
  destruct (random host w1) as [bits w2]. run_step.
  destruct (clock host w2) as [t1 w3]. run_step.
  destruct (createEmailNotification _ _) as [e1|pending] eqn:Hcreate; run_step;
    [trace_simpl; discriminate|].
  assert (Hfields :
            exists address,
              eventData.(ReservationEventData.userEmail) = Some address
              /\ pending.(EmailNotification.userEmail)
                 = toLowerCase (trim address)
              /\ pending.(EmailNotification.subject) = fixedSubject t
              /\ pending.(EmailNotification.htmlBody)
                 = (templateFor t t0 (eventTemplateData eventData))
                     .(EmailTemplate.htmlBody)
              /\ pending.(EmailNotification.textBody)
                 = Some (trim (templateFor t t0 (eventTemplateData eventData))
                                .(EmailTemplate.textBody))).
  { unfold createEmailNotification in Hcreate.
    destruct (validateCreateEmailNotification _) eqn:Hv; [discriminate|].
    injection Hcreate as <-.
    apply validate_None_iff in Hv. unfold ValidParams, checkOrder in Hv.
    repeat rewrite Forall_cons_iff in Hv. cbn [Passes] in Hv.
    destruct Hv as (_ & _ & (address & Haddr & _) & _).
    cbn in Haddr. exists address. split; [exact Haddr|].
    cbn. rewrite Haddr. cbn.
    rewrite (templateFor_subject t0 t), fixedSubject_trimmed.
    repeat split; reflexivity. }
  destruct Hfields as (address & Haddr & Hmail & Hsub & Hhtml & Htext).
  destruct (save (notificationRepo deps) _ _) as [[e2|saved] w4]; run_step;
    [trace_simpl; discriminate|].
  assert (Hgoal : forall (sc' : Settled EmailSendResult) (rest' : list Event),
             EvSave pending (inr saved)
               :: EvSend
                    {|
                      EmailContent.to :=
                        eventData.(ReservationEventData.userEmail);
                      EmailContent.subject :=
                        (templateFor t t0 (eventTemplateData eventData))
                          .(EmailTemplate.subject);
                      EmailContent.htmlBody :=
                        (templateFor t t0 (eventTemplateData eventData))
                          .(EmailTemplate.htmlBody);
                      EmailContent.textBody :=
                        Some (templateFor t t0 (eventTemplateData eventData))
                               .(EmailTemplate.textBody);
                    |} sc' :: rest'
             = EvSave p sp :: EvSend c sc :: rest ->
             exists t' now address',
               NotificationType_value t = NotificationType_value t'
               /\ eventData.(ReservationEventData.userEmail) = Some address'
               /\ c.(EmailContent.to) = Some address'
               /\ p.(EmailNotification.userEmail) = toLowerCase (trim address')
               /\ c.(EmailContent.subject) = fixedSubject t'
               /\ p.(EmailNotification.subject) = fixedSubject t'
               /\ c.(EmailContent.htmlBody)
                  = (templateFor t' now (eventTemplateData eventData))
                      .(EmailTemplate.htmlBody)
               /\ p.(EmailNotification.htmlBody)
                  = (templateFor t' now (eventTemplateData eventData))
                      .(EmailTemplate.htmlBody)
               /\ c.(EmailContent.textBody)
                  = Some (templateFor t' now (eventTemplateData eventData))
                           .(EmailTemplate.textBody)
               /\ p.(EmailNotification.textBody)
                  = Some (trim (templateFor t' now (eventTemplateData eventData))
                                 .(EmailTemplate.textBody))).
  { intros sc' rest' Heq. inversion Heq; subst.
    exists t, t0, address. cbn [EmailContent.to EmailContent.subject
                                EmailContent.htmlBody EmailContent.textBody].
    rewrite (templateFor_subject t0 t).
    repeat split; assumption || reflexivity. }
  unfold eventTemplateData in Hgoal.
  destruct (sendEmail (emailSender deps) _ _) as [[e3|[[|] mid err]] w5];
    run_step;
    [ trace_simpl; apply Hgoal | | ];
    destruct (clock host w5) as [t2 w6]; run_step;
    destruct (save (notificationRepo deps) _ _) as [[e4|final] w7]; run_step;
    trace_simpl; apply Hgoal.
Qed.

Lemma sent_versus_recorded_witness :
  let r := scenarioRunWith (InMemory.deps InMemory.delivered)
             (NotificationType_value ReservationCreated) untidyEmailData in
  let sent := markNotificationSent 1767225600002%Z untidyPending in
  calls (trace r)
  = EvSave untidyPending (inr untidyPending)
      :: EvSend untidyContent
           (inr (EmailSendResult.mk true (Some (js "msg-1")) None))
      :: [EvSave sent (inr sent)]
  /\ exists t now address,
       let template := @templateFor InMemory.runtime t now
                         (eventTemplateData untidyEmailData) in
       NotificationType_value ReservationCreated = NotificationType_value t
       /\ untidyEmailData.(ReservationEventData.userEmail) = Some address
       /\ untidyContent.(EmailContent.to) = Some address
       /\ untidyPending.(EmailNotification.userEmail)
          = @toLowerCase InMemory.runtime (trim address)
       /\ untidyContent.(EmailContent.subject) = fixedSubject t
       /\ untidyPending.(EmailNotification.subject) = fixedSubject t
       /\ untidyContent.(EmailContent.htmlBody)
          = template.(EmailTemplate.htmlBody)
       /\ untidyPending.(EmailNotification.htmlBody)
          = template.(EmailTemplate.htmlBody)
       /\ untidyContent.(EmailContent.textBody)
          = Some template.(EmailTemplate.textBody)
       /\ untidyPending.(EmailNotification.textBody)
          = Some (trim template.(EmailTemplate.textBody)).
Proof.
  intros r sent.
  assert (Hcalls :
            calls (trace r)
            = EvSave untidyPending (inr untidyPending)
                :: EvSend untidyContent
                     (inr (EmailSendResult.mk true (Some (js "msg-1")) None))
                :: [EvSave sent (inr sent)])
    by (vm_compute; reflexivity).
  split; [exact Hcalls|].
  exact (@sent_versus_recorded InMemory.runtime _ InMemory.host
           (InMemory.deps InMemory.delivered)
           (NotificationType_value ReservationCreated) untidyEmailData
           InMemory.initial untidyPending (inr untidyPending) untidyContent
           (inr (EmailSendResult.mk true (Some (js "msg-1")) None))
           [EvSave sent (inr sent)] Hcalls).
Defined.

(** *** X16.  For an event of a recognised type whose user id, e-mail
    address and reservation id are well formed, the use case always
    reaches the store: the first call is the write of a Pending record
    with a generated id and the trimmed user id and reservation id.  The
    generated id and the rendered template never make [create] fail. *)
Theorem well_formed_event_is_recorded `{JsRuntime} {W} (host : Host W)
    (deps : SendReservationEmailDeps W) (t : NotificationType)
    (eventData : ReservationEventData) (w : W) :
  NonEmptyTrimmed eventData.(ReservationEventData.userId) ->
  NonEmptyTrimmed eventData.(ReservationEventData.userEmail) ->
  (exists s, eventData.(ReservationEventData.userEmail) = Some s
             /\ EmailShape (trim s)) ->
  NonEmptyTrimmed eventData.(ReservationEventData.reservationId) ->
  exists p st rest bits,
    calls (trace (sendReservationEmail host deps (NotificationType_value t)
                    eventData w))
    = EvSave p st :: rest
    /\ p.(EmailNotification.status) = Pending
    /\ p.(EmailNotification.retryCount) = 0
    /\ p.(EmailNotification.id) = formatUUID bits
    /\ p.(EmailNotification.type) = NotificationType_value t
    /\ p.(EmailNotification.userId)
       = trim (str eventData.(ReservationEventData.userId))
    /\ p.(EmailNotification.reservationId)
       = trim (str eventData.(ReservationEventData.reservationId)).
Proof.
  intros Huser Hemail Hshape Hres.
  run_unfold.
  destruct (clock host w) as [t0 w1]. run_step.
  rewrite getEmailTemplate_member. run_step.
  destruct (random host w1) as [bits w2]. run_step.
  destruct (clock host w2) as [t1 w3]. run_step.
  pose proof (event_params_valid bits t eventData t0
                Huser Hemail Hshape Hres) as Hvalid.
  apply validate_None_iff in Hvalid.
  unfold eventParams, eventTemplateData in Hvalid.
  unfold createEmailNotification. rewrite Hvalid. run_step.
  assert (Hid : trim (str (Some (formatUUID bits))) = formatUUID bits).
  { pose proof (formatUUID_not_blank bits) as Hb.
    cbn [str]. unfold formatUUID, hexDigits. cbn [map app].
    change (js "-") with [45]. change (js "4") with [52]. cbn [app].
    match goal with
    | |- trim (?c :: ?m) = _ =>
      change (c :: m)
        with (c :: removelast m ++ [hexDigit (nibble bits 31)])
    end.
    apply trim_framed; apply hexDigit_not_space. }
  destruct (save (notificationRepo deps) _ _) as [[e2|saved] w4]; run_step;
    [| destruct (sendEmail (emailSender deps) _ _)
         as [[e3|[[|] mid err]] w5];
       run_step;
       [| destruct (clock host w5) as [t2 w6]; run_step;
          destruct (save (notificationRepo deps) _ _) as [[e4|final] w7];
          run_step
        | destruct (clock host w5) as [t2 w6]; run_step;
          destruct (save (notificationRepo deps) _ _) as [[e4|final] w7];
          run_step ]];
    trace_simpl;
    (eexists _, _, _, bits; split; [reflexivity|]);
    cbn [EmailNotification.status EmailNotification.retryCount
         EmailNotification.id EmailNotification.type
         EmailNotification.userId EmailNotification.reservationId];
    repeat split; try reflexivity; exact Hid.
Qed.

Lemma well_formed_event_is_recorded_witness :
  (NonEmptyTrimmed scenarioData.(ReservationEventData.userId)
   /\ NonEmptyTrimmed scenarioData.(ReservationEventData.userEmail)
   /\ (exists s, scenarioData.(ReservationEventData.userEmail) = Some s
                 /\ EmailShape (trim s))
   /\ NonEmptyTrimmed scenarioData.(ReservationEventData.reservationId))
  /\ exists p st rest bits,
       calls (trace (scenarioRunWith depsStoreDown
                       (NotificationType_value ReservationCreated)
                       scenarioData))
       = EvSave p st :: rest
       /\ p.(EmailNotification.status) = Pending
       /\ p.(EmailNotification.retryCount) = 0
       /\ p.(EmailNotification.id) = formatUUID bits
       /\ p.(EmailNotification.type) = NotificationType_value ReservationCreated
       /\ p.(EmailNotification.userId)
          = trim (str scenarioData.(ReservationEventData.userId))
       /\ p.(EmailNotification.reservationId)
          = trim (str scenarioData.(ReservationEventData.reservationId)).
Proof.
  split.
  - exact scenarioData_well_formed.
  - destruct scenarioData_well_formed as (H1 & H2 & H3 & H4).
    exact (@well_formed_event_is_recorded InMemory.runtime _ InMemory.host
             depsStoreDown ReservationCreated scenarioData InMemory.initial
             H1 H2 H3 H4).
Defined.

(* ===================================================================== *)
(** * Properties of the event adapter *)
(* ===================================================================== *)

Lemma sendReservationEmail_resolves `{JsRuntime} {W} (host : Host W)
    (deps : SendReservationEmailDeps W) (eventType : jsstring)
    (eventData : ReservationEventData) (w : W) :
  exists result,
    outcome (sendReservationEmail host deps eventType eventData w) = inr result.
Proof.
  run_cases host deps w; trace_simpl; eexists; reflexivity.
Qed.

Lemma lookupEventType_own `{ObjectPrototype} (t : NotificationType) :
  lookupEventType (eventTypeName t) = Some (OwnValue t).
Proof.
  unfold lookupEventType.
  replace (ownProperty RESERVATION_EVENT_TYPES (eventTypeName t))
    with (Some t) by (destruct t; vm_compute; reflexivity).
  reflexivity.
Qed.

Lemma ownProperty_None (key : jsstring) :
  (forall t, key <> eventTypeName t) ->
  ownProperty RESERVATION_EVENT_TYPES key = None.
Proof.
  intros Hno. unfold RESERVATION_EVENT_TYPES. cbn [ownProperty].
  repeat match goal with
  | |- context [jsstring_eqb key ?k] =>
    let E := fresh "E" in
    destruct (jsstring_eqb key k) eqn:E;
    [apply jsstring_eqb_eq in E|]
  end;
  try reflexivity.
  - destruct (Hno ReservationCreated E).
  - destruct (Hno ReservationCollected E0).
  - destruct (Hno ReservationReturned E1).
  - destruct (Hno ReservationCancelled E2).
  - destruct (Hno ReservationExpired E3).
  - destruct (Hno ReservationOverdue E4).
Qed.

(** *** X17.  An event whose type is none of the six of the table (and is
    no property name of [Object.prototype]) is ignored: the handler logs
    two lines, calls neither the services nor the use case, leaves the
    world as it is, and resolves. *)
Theorem unhandled_event_ignored `{JsRuntime} `{ObjectPrototype} {W}
    (host : Host W) (services : AppServices W) (event : EventGridEvent)
    (w : W) :
  (forall t, event.(EventGridEvent.eventType) <> eventTypeName t) ->
  inheritedProperty event.(EventGridEvent.eventType) = None ->
  handleReservationEvent host services event w
  = mkAdapterRun (inr tt) w
      [EvContext ContextLog
         (js "Received event: " ++ event.(EventGridEvent.eventType)
          ++ js " - " ++ event.(EventGridEvent.id));
       EvContext ContextLog
         (js "Ignoring unhandled event type: "
          ++ event.(EventGridEvent.eventType))].
Proof.
  intros Hno Hproto.
  unfold handleReservationEvent, handleReservationEvent_try, lookupEventType.
  rewrite (ownProperty_None _ Hno), Hproto. reflexivity.
Qed.

Lemma unhandled_event_ignored_witness :
  let event := scenarioGridEvent (js "reservation.updated") scenarioData in
  ((forall t, event.(EventGridEvent.eventType) <> eventTypeName t)
   /\ @inheritedProperty nodePrototype event.(EventGridEvent.eventType) = None)
  /\ @handleReservationEvent InMemory.runtime nodePrototype _ InMemory.host
       (memoryServices InMemory.delivered) event InMemory.initial
     = mkAdapterRun (inr tt) InMemory.initial
         [EvContext ContextLog
            (js "Received event: " ++ event.(EventGridEvent.eventType)
             ++ js " - " ++ event.(EventGridEvent.id));
          EvContext ContextLog
            (js "Ignoring unhandled event type: "
             ++ event.(EventGridEvent.eventType))].
Proof.
  intros event.
  assert (Hno : forall t, event.(EventGridEvent.eventType) <> eventTypeName t)
    by (intros t; destruct t; vm_compute; discriminate).
  assert (Hproto : @inheritedProperty nodePrototype
                     event.(EventGridEvent.eventType) = None)
    by (vm_compute; reflexivity).
  split; [split; assumption|].
  exact (@unhandled_event_ignored InMemory.runtime nodePrototype _
           InMemory.host (memoryServices InMemory.delivered) event
           InMemory.initial Hno Hproto).
Defined.

(** *** X18.  An event of a handled type whose [userEmail] or
    [reservationId] is missing or empty is skipped with one warning; the
    e-mail address is looked at first.  Neither the services nor the use
    case are called. *)
Theorem incomplete_event_skipped `{JsRuntime} `{ObjectPrototype} {W}
    (host : Host W) (services : AppServices W) (event : EventGridEvent)
    (w : W) (t : NotificationType) :
  event.(EventGridEvent.eventType) = eventTypeName t ->
  falsy event.(EventGridEvent.data).(ReservationEventData.userEmail) = true
  \/ falsy event.(EventGridEvent.data).(ReservationEventData.reservationId)
     = true ->
  handleReservationEvent host services event w
  = mkAdapterRun (inr tt) w
      [EvContext ContextLog
         (js "Received event: " ++ event.(EventGridEvent.eventType)
          ++ js " - " ++ event.(EventGridEvent.id));
       EvContext ContextWarn
         (if falsy event.(EventGridEvent.data).(ReservationEventData.userEmail)
          then js "Event " ++ event.(EventGridEvent.id)
               ++ js " missing userEmail, skipping notification"
          else js "Event " ++ event.(EventGridEvent.id)
               ++ js " missing reservationId, skipping notification")].
Proof.
  intros Htype Hmissing.
  unfold handleReservationEvent, handleReservationEvent_try.
  rewrite Htype, lookupEventType_own.
  destruct (falsy event.(EventGridEvent.data).(ReservationEventData.userEmail)).
  - cbn [settled worldAfter events app]. reflexivity.
  - destruct Hmissing as [Hm | Hm]; [discriminate|]. rewrite Hm.
    cbn [settled worldAfter events app]. reflexivity.
Qed.

Lemma incomplete_event_skipped_witness :
  let event :=
    scenarioGridEvent (js "reservation.created")
      (scenarioEvent (Some (js "U1")) None) in
  (event.(EventGridEvent.eventType) = eventTypeName ReservationCreated
   /\ (falsy event.(EventGridEvent.data).(ReservationEventData.userEmail)
       = true
       \/ falsy event.(EventGridEvent.data).(ReservationEventData.reservationId)
          = true))
  /\ @handleReservationEvent InMemory.runtime nodePrototype _ InMemory.host
       (memoryServices InMemory.delivered) event InMemory.initial
     = mkAdapterRun (inr tt) InMemory.initial
         [EvContext ContextLog
            (js "Received event: " ++ event.(EventGridEvent.eventType)
             ++ js " - " ++ event.(EventGridEvent.id));
          EvContext ContextWarn
            (if falsy
                  event.(EventGridEvent.data).(ReservationEventData.userEmail)
             then js "Event " ++ event.(EventGridEvent.id)
                  ++ js " missing userEmail, skipping notification"
             else js "Event " ++ event.(EventGridEvent.id)
                  ++ js " missing reservationId, skipping notification")].
Proof.
  intros event.
  split; [split; [reflexivity | left; reflexivity]|].
  exact (@incomplete_event_skipped InMemory.runtime nodePrototype _
           InMemory.host (memoryServices InMemory.delivered) event
           InMemory.initial ReservationCreated eq_refl
           (or_introl eq_refl)).
Defined.

(** *** X19.  A complete event of a handled type runs the use case once,
    with the notification type the table gives for the event type and on
    the world the two service look-ups leave.  The handler's lines frame
    the use case's effects: received, processing, the effects, and one line
    for the result ([log] on success, [error] with the result's error
    otherwise).  The handler resolves whatever the result is. *)
Theorem handled_event_runs_use_case `{JsRuntime} `{ObjectPrototype} {W}
    (host : Host W) (services : AppServices W) (event : EventGridEvent)
    (w w1 w2 : W) (t : NotificationType) (sender : EmailSender W)
    (repo : NotificationRepo W) :
  event.(EventGridEvent.eventType) = eventTypeName t ->
  truthy event.(EventGridEvent.data).(ReservationEventData.userEmail) = true ->
  truthy event.(EventGridEvent.data).(ReservationEventData.reservationId)
  = true ->
  getEmailSender services w = (inr sender, w1) ->
  getNotificationRepo services w1 = (inr repo, w2) ->
  let r :=
    sendReservationEmail host
      {| emailSender := sender; notificationRepo := repo |}
      (NotificationType_value t) event.(EventGridEvent.data) w2 in
  exists result,
    outcome r = inr result
    /\ handleReservationEvent host services event w
       = mkAdapterRun (inr tt) (world r)
           (EvContext ContextLog
              (js "Received event: " ++ event.(EventGridEvent.eventType)
               ++ js " - " ++ event.(EventGridEvent.id))
            :: EvContext ContextLog
                 (js "Processing " ++ NotificationType_value t
                  ++ js " for reservation "
                  ++ String_of
                       event.(EventGridEvent.data)
                         .(ReservationEventData.reservationId))
            :: map EvUseCase (trace r)
            ++ [if result.(SendReservationEmailResult.success) then
                  EvContext ContextLog
                    (js "Email sent successfully for event "
                     ++ event.(EventGridEvent.id))
                else
                  EvContext ContextError
                    (js "Failed to send email for event "
                     ++ event.(EventGridEvent.id) ++ js ": "
                     ++ String_of
                          result.(SendReservationEmailResult.error))]).
Proof.
  intros Htype Hemail Hres Hsender Hrepo r.
  destruct (sendReservationEmail_resolves host
              {| emailSender := sender; notificationRepo := repo |}
              (NotificationType_value t) event.(EventGridEvent.data) w2)
    as [result Hresult].
  exists result. split; [exact Hresult|].
  unfold handleReservationEvent, handleReservationEvent_try.
  rewrite Htype, lookupEventType_own.
  unfold truthy in Hemail, Hres.
  apply negb_true_iff in Hemail. apply negb_true_iff in Hres.
  rewrite Hemail, Hres, Hsender, Hrepo.
  cbn [renderTableValue]. cbv zeta. subst r. rewrite Hresult.
  cbn [settled worldAfter events]. reflexivity.
Qed.

Lemma handled_event_runs_use_case_witness :
  let event := scenarioGridEvent (js "reservation.created") scenarioData in
  let r := scenarioRun InMemory.delivered scenarioData in
  exists result,
    outcome r = inr result
    /\ @handleReservationEvent InMemory.runtime nodePrototype _ InMemory.host
         (memoryServices InMemory.delivered) event InMemory.initial
       = mkAdapterRun (inr tt) (world r)
           (EvContext ContextLog
              (js "Received event: " ++ event.(EventGridEvent.eventType)
               ++ js " - " ++ event.(EventGridEvent.id))
            :: EvContext ContextLog
                 (js "Processing " ++ NotificationType_value ReservationCreated
                  ++ js " for reservation "
                  ++ String_of
                       event.(EventGridEvent.data)
                         .(ReservationEventData.reservationId))
            :: map EvUseCase (trace r)
            ++ [if result.(SendReservationEmailResult.success) then
                  EvContext ContextLog
                    (js "Email sent successfully for event "
                     ++ event.(EventGridEvent.id))
                else
                  EvContext ContextError
                    (js "Failed to send email for event "
                     ++ event.(EventGridEvent.id) ++ js ": "
                     ++ String_of
                          result.(SendReservationEmailResult.error))]).
Proof.
  intros event.
  exact (@handled_event_runs_use_case InMemory.runtime nodePrototype _
           InMemory.host (memoryServices InMemory.delivered) event
           InMemory.initial InMemory.initial InMemory.initial
           ReservationCreated (InMemory.sender InMemory.delivered)
           InMemory.repo eq_refl eq_refl eq_refl eq_refl eq_refl).
Defined.

(** *** X20.  When a service cannot be built for a complete event of a
    handled type, the handler reports the error's message on the context
    and resolves; the use case is not run, so nothing is stored or sent. *)
Theorem service_failure_is_logged `{JsRuntime} `{ObjectPrototype} {W}
    (host : Host W) (services : AppServices W) (event : EventGridEvent)
    (w : W) (t : NotificationType) :
  event.(EventGridEvent.eventType) = eventTypeName t ->
  truthy event.(EventGridEvent.data).(ReservationEventData.userEmail) = true ->
  truthy event.(EventGridEvent.data).(ReservationEventData.reservationId)
  = true ->
  forall (error : Thrown) (wfail : W),
  (getEmailSender services w = (inl error, wfail)
   \/ exists sender w1,
        getEmailSender services w = (inr sender, w1)
        /\ getNotificationRepo services w1 = (inl error, wfail)) ->
  handleReservationEvent host services event w
  = mkAdapterRun (inr tt) wfail
      [EvContext ContextLog
         (js "Received event: " ++ event.(EventGridEvent.eventType)
          ++ js " - " ++ event.(EventGridEvent.id));
       EvContext ContextLog
         (js "Processing " ++ NotificationType_value t
          ++ js " for reservation "
          ++ String_of
               event.(EventGridEvent.data)
                 .(ReservationEventData.reservationId));
       EvContext ContextError
         (js "Error processing reservation event: " ++ errorMessage error)].
Proof.
  intros Htype Hemail Hres error wfail Hfail.
  unfold handleReservationEvent, handleReservationEvent_try.
  rewrite Htype, lookupEventType_own.
  unfold truthy in Hemail, Hres.
  apply negb_true_iff in Hemail. apply negb_true_iff in Hres.
  rewrite Hemail, Hres.
  destruct Hfail as [Hsender | (sender & w1 & Hsender & Hrepo)].
  - rewrite Hsender. cbn [renderTableValue settled worldAfter events app].
    reflexivity.
  - rewrite Hsender, Hrepo.
    cbn [renderTableValue settled worldAfter events app]. reflexivity.
Qed.

Lemma service_failure_is_logged_witness :
  let event := scenarioGridEvent (js "reservation.created") scenarioData in
  let error :=
    new_Error (js "ACS_CONNECTION_STRING environment variable is required") in
  @handleReservationEvent InMemory.runtime nodePrototype _ InMemory.host
    unconfiguredServices event InMemory.initial
  = mkAdapterRun (inr tt) InMemory.initial
      [EvContext ContextLog
         (js "Received event: " ++ event.(EventGridEvent.eventType)
          ++ js " - " ++ event.(EventGridEvent.id));
       EvContext ContextLog
         (js "Processing " ++ NotificationType_value ReservationCreated
          ++ js " for reservation "
          ++ String_of
               event.(EventGridEvent.data)
                 .(ReservationEventData.reservationId));
       EvContext ContextError
         (js "Error processing reservation event: " ++ errorMessage error)].
Proof.
  intros event error.
  exact (@service_failure_is_logged InMemory.runtime nodePrototype _
           InMemory.host unconfiguredServices event InMemory.initial
           ReservationCreated eq_refl eq_refl eq_refl error InMemory.initial
           (or_introl eq_refl)).
Defined.




(* ===================================================================== *)
(** * Properties of the CORS headers *)
(* ===================================================================== *)

Lemma includes_In (x : jsstring) (l : list jsstring) :
  existsb (jsstring_eqb x) l = true <-> In x l.
Proof.
  rewrite existsb_exists. split.
  - intros (y & Hin & Heq). apply jsstring_eqb_eq in Heq. subst. exact Hin.
  - intros Hin. exists x. split; [exact Hin | apply jsstring_eqb_eq; reflexivity].
Qed.

Lemma corsHeaderNames_distinct : NoDup corsHeaderNames.
Proof.
  unfold corsHeaderNames.
  repeat (apply NoDup_cons_2;
          [rewrite ?elem_of_cons, elem_of_nil; vm_compute; intuition discriminate
          |]).
  apply NoDup_nil_2.
Qed.

Lemma first_allowed_origin (env : jsval) :
  or_else (nth_error (ALLOWED_ORIGINS env) 0) (js "*")
  = js "http://localhost:5173".
Proof. vm_compute. reflexivity. Qed.

Lemma allowedOrigin_cases (env origin : jsval) :
  let requestOrigin := requestedOrigin origin in
  let allowed :=
    if existsb (jsstring_eqb requestOrigin) (ALLOWED_ORIGINS env)
    then requestOrigin
    else or_else (nth_error (ALLOWED_ORIGINS env) 0) (js "*") in
  In allowed (ALLOWED_ORIGINS env)
  /\ (In requestOrigin (ALLOWED_ORIGINS env) -> allowed = requestOrigin)
  /\ (~ In requestOrigin (ALLOWED_ORIGINS env)
      -> allowed = js "http://localhost:5173").
Proof.
  cbv zeta. rewrite first_allowed_origin.
  destruct (existsb (jsstring_eqb (requestedOrigin origin))
              (ALLOWED_ORIGINS env)) eqn:Hinc.
  - apply includes_In in Hinc. split; [exact Hinc|].
    split; [reflexivity | intros Hno; destruct (Hno Hinc)].
  - split; [left; reflexivity|].
    split; [|reflexivity].
    intros Hin. apply includes_In in Hin. congruence.
Qed.

Lemma cors_name_neq (a b : string) :
  bool_decide (js a = js b) = false -> js a <> js b.
Proof. intros Hd. apply bool_decide_eq_false in Hd. exact Hd. Qed.

Ltac cors_lookup :=
  repeat (rewrite lookup_insert_ne
            by (apply cors_name_neq; vm_compute; reflexivity));
  try rewrite lookup_insert_eq.

(** *** X22.  The [Access-Control-Allow-Origin] header of both CORS
    functions is always one of the allowed origins: the request's origin
    (or [*] when the request has none) when that is allowed, and the first
    allowed origin, [http://localhost:5173], otherwise.  An origin that is
    not allowed is never echoed. *)
Theorem cors_allow_origin_listed {Body} (env origin : jsval)
    (response : HttpResponseInit Body) :
  exists allowed,
    header (addCorsHeaders env response origin)
      (js "Access-Control-Allow-Origin") = Some allowed
    /\ header (@handleCorsPreflight Body env origin)
         (js "Access-Control-Allow-Origin") = Some allowed
    /\ In allowed (ALLOWED_ORIGINS env)
    /\ (In (requestedOrigin origin) (ALLOWED_ORIGINS env)
        -> allowed = requestedOrigin origin)
    /\ (~ In (requestedOrigin origin) (ALLOWED_ORIGINS env)
        -> allowed = js "http://localhost:5173").
Proof.
  pose proof (allowedOrigin_cases env origin) as Hcases. cbv zeta in Hcases.
  eexists. split; [|split; [|exact Hcases]].
  - unfold header, addCorsHeaders. cbn [HttpResponseInit.headers].
    cors_lookup. reflexivity.
  - unfold header, handleCorsPreflight. cbn [HttpResponseInit.headers].
    cors_lookup. reflexivity.
Qed.

(** An origin that is not allowed gets the first allowed origin, the
    configured one is echoed, and a request without origin gets the
    default unless [*] is configured. *)
Example cors_origins :
  let env := Some (js "https://loans.example.edu,*") in
  header (addCorsHeaders env healthyResponse (Some (js "https://evil.example")))
    (js "Access-Control-Allow-Origin") = Some (js "http://localhost:5173")
  /\ header (addCorsHeaders env healthyResponse
               (Some (js "https://loans.example.edu")))
       (js "Access-Control-Allow-Origin")
     = Some (js "https://loans.example.edu")
  /\ header (addCorsHeaders env healthyResponse None)
       (js "Access-Control-Allow-Origin") = Some (js "*")
  /\ header (addCorsHeaders None healthyResponse None)
       (js "Access-Control-Allow-Origin") = Some (js "http://localhost:5173").
Proof.
  cbv zeta. unfold header, addCorsHeaders. cbn [HttpResponseInit.headers].
  split; [|split; [|split]]; cors_lookup; vm_compute; reflexivity.
Qed.

(** *** X23.  [addCorsHeaders] keeps the status, the body and every header
    of the response other than the four CORS headers, which it sets
    (replacing values the response had under exactly these names).
    Applied twice, the last origin decides: in particular it is
    idempotent. *)
Theorem addCorsHeaders_frame {Body} (env origin origin' : jsval)
    (response : HttpResponseInit Body) :
  let r := addCorsHeaders env response origin in
  r.(HttpResponseInit.status) = response.(HttpResponseInit.status)
  /\ r.(HttpResponseInit.jsonBody) = response.(HttpResponseInit.jsonBody)
  /\ (forall name, ~ In name corsHeaderNames ->
        header r name = header response name)
  /\ header r (js "Access-Control-Allow-Methods")
     = Some (js "GET, POST, PUT, DELETE, OPTIONS")
  /\ header r (js "Access-Control-Allow-Headers")
     = Some (js "Content-Type, Authorization")
  /\ header r (js "Access-Control-Max-Age") = Some (js "3600")
  /\ addCorsHeaders env (addCorsHeaders env response origin') origin = r.
Proof.
  cbv zeta. split; [reflexivity|]. split; [reflexivity|].
  split; [|split; [|split; [|split]]].
  - intros name Hname. unfold header, addCorsHeaders, corsHeaderNames in *.
    cbn [HttpResponseInit.headers].
    assert (H1 : js "Access-Control-Allow-Origin" <> name)
      by (intros E; apply Hname; left; exact E).
    assert (H2 : js "Access-Control-Allow-Methods" <> name)
      by (intros E; apply Hname; right; left; exact E).
    assert (H3 : js "Access-Control-Allow-Headers" <> name)
      by (intros E; apply Hname; right; right; left; exact E).
    assert (H4 : js "Access-Control-Max-Age" <> name)
      by (intros E; apply Hname; right; right; right; left; exact E).
    rewrite !lookup_insert_ne by assumption.
    destruct (HttpResponseInit.headers response); reflexivity.
  - unfold header, addCorsHeaders. cbn [HttpResponseInit.headers].
    cors_lookup. reflexivity.
  - unfold header, addCorsHeaders. cbn [HttpResponseInit.headers].
    cors_lookup. reflexivity.
  - unfold header, addCorsHeaders. cbn [HttpResponseInit.headers].
    cors_lookup. reflexivity.
  - unfold addCorsHeaders.
    cbn [HttpResponseInit.headers HttpResponseInit.status
         HttpResponseInit.jsonBody spreadHeaders].
    f_equal. f_equal. apply map_eq. intros name.
    rewrite !lookup_insert.
    repeat case_decide; reflexivity.
Qed.

Lemma String_split_no_sep (sep : codeunit) (s : jsstring) :
  ~ In sep s -> String_split sep s = [s].
Proof.
  induction s as [|c s IH]; intros Hno; [reflexivity|].
  cbn [String_split].
  destruct (N.eqb_spec c sep) as [->|Hne]; [destruct Hno; left; reflexivity|].
  rewrite IH by (intros Hin; apply Hno; right; exact Hin). reflexivity.
Qed.

Lemma String_split_app (sep : codeunit) (s rest : jsstring) :
  ~ In sep s ->
  String_split sep (s ++ sep :: rest) = s :: String_split sep rest.
Proof.
  induction s as [|c s IH]; intros Hno.
  - cbn [app String_split]. rewrite N.eqb_refl. reflexivity.
  - cbn [app String_split].
    destruct (N.eqb_spec c sep) as [->|Hne]; [destruct Hno; left; reflexivity|].
    rewrite IH by (intros Hin; apply Hno; right; exact Hin). reflexivity.
Qed.

Lemma String_split_join (sep : codeunit) (pieces : list jsstring) :
  pieces <> [] ->
  Forall (fun piece => ~ In sep piece) pieces ->
  String_split sep (join [sep] pieces) = pieces.
Proof.
  induction pieces as [|x rest IH]; intros Hne Hall; [congruence|].
  apply Forall_cons_iff in Hall. destruct Hall as [Hx Hrest].
  destruct rest as [|y rest].
  - cbn [join]. apply String_split_no_sep. exact Hx.
  - change (join [sep] (x :: y :: rest))
      with (x ++ [sep] ++ join [sep] (y :: rest)).
    cbn [app]. rewrite String_split_app by exact Hx.
    rewrite IH by (congruence || exact Hrest). reflexivity.
Qed.

(** *** X24.  Origins are configured as a comma-separated list: with the
    environment variable set to [origins] joined by commas, the allowed
    origins are the two local defaults followed by [origins] as written,
    and a request from any of them gets its own origin back.  Nothing is
    trimmed. *)
Theorem configured_origins_are_echoed {Body} (origins : list jsstring)
    (origin : jsstring) (response : HttpResponseInit Body) :
  origins <> [] ->
  Forall (fun o => ~ In 44%N o) origins ->
  In origin origins ->
  origin <> [] ->
  let env := Some (join (js ",") origins) in
  ALLOWED_ORIGINS env
  = [js "http://localhost:5173"; js "http://localhost:3000"] ++ origins
  /\ header (addCorsHeaders env response (Some origin))
       (js "Access-Control-Allow-Origin") = Some origin.
Proof.
  intros Hne Hall Hin Horigin env.
  assert (Hallowed : ALLOWED_ORIGINS env
            = [js "http://localhost:5173"; js "http://localhost:3000"]
              ++ origins).
  { unfold ALLOWED_ORIGINS, env. f_equal.
    change (js ",") with [44%N].
    apply String_split_join; assumption. }
  split; [exact Hallowed|].
  unfold header, addCorsHeaders. cbn [HttpResponseInit.headers].
  cors_lookup. f_equal.
  assert (Hreq : or_else (Some origin) (js "*") = origin)
    by (destruct origin; [congruence | reflexivity]).
  rewrite Hreq.
  replace (existsb (jsstring_eqb origin) (ALLOWED_ORIGINS env)) with true;
    [reflexivity|].
  symmetry. apply includes_In. rewrite Hallowed.
  apply in_or_app. right. exact Hin.
Qed.

Lemma configured_origins_are_echoed_witness :
  let origins := [js "https://loans.example.edu"; js " https://x.example"] in
  let origin := js " https://x.example" in
  let env := Some (join (js ",") origins) in
  ALLOWED_ORIGINS env
  = [js "http://localhost:5173"; js "http://localhost:3000"] ++ origins
  /\ header (addCorsHeaders env healthyResponse (Some origin))
       (js "Access-Control-Allow-Origin") = Some origin.
Proof.
  intros origins origin.
  assert (Hne : origins <> []) by (vm_compute; discriminate).
  assert (Hall : Forall (fun o => ~ In 44%N o) origins).
  { unfold origins. repeat rewrite Forall_cons_iff.
    repeat split; try (vm_compute; intuition discriminate).
    constructor. }
  assert (Hin : In origin origins) by (right; left; reflexivity).
  assert (Horigin : origin <> []) by (vm_compute; discriminate).
  exact (configured_origins_are_echoed origins origin healthyResponse
           Hne Hall Hin Horigin).
Defined.

(* ===================================================================== *)
(** * Properties of the e-mail adapter *)
(* ===================================================================== *)

Ltac acs_cases host this w :=
  unfold AcsEmailSender_sendEmail, AcsEmailSender_sendEmail_catch;
  destruct (clock host w) as [?t0 ?w0];
  destruct (beginSend (client this) _ _) as [[?e|?poller] ?w1];
  [ destruct (clock host _) as [?t1 ?w2]
  | destruct (pollUntilDone (client this) _ _) as [[?e|?operation] ?w2];
    [ destruct (clock host _) as [?t1 ?w3]
    | destruct (clock host _) as [?t1 ?w3];
      destruct (jsstring_eqb _ KnownEmailSendStatus_Succeeded) eqn:?Hstatus ] ];
  cbn [value after did EmailSendResult.success EmailSendResult.messageId
       EmailSendResult.error].

Ltac in_events :=
  repeat match goal with
  | H : In _ (_ :: _) |- _ => destruct H as [H | H]
  | H : In _ [] |- _ => destruct H
  | H : SvLog _ = _ |- _ => discriminate H
  | H : SvBeginSend _ _ = SvLog _ |- _ => discriminate H
  | H : SvBeginSend _ _ = SvPollUntilDone _ |- _ => discriminate H
  | H : SvPollUntilDone _ = SvLog _ |- _ => discriminate H
  | H : SvPollUntilDone _ = SvBeginSend _ _ |- _ => discriminate H
  | H : SvBeginSend _ _ = SvBeginSend _ _ |- _ => inversion H; subst; clear H
  | H : SvPollUntilDone _ = SvPollUntilDone _ |- _ =>
    inversion H; subst; clear H
  end.

(** *** X25.  [AcsEmailSender.sendEmail] never rejects.  It reports
    success exactly when [beginSend] resolved and the operation ended with
    status [Succeeded]; the message id is then the operation's id.  Every
    failure carries an error: the message of what [beginSend] or the
    poller threw, or the status the operation ended with. *)
Theorem acs_send_result {W Poller} (host : Host W)
    (this : AcsEmailSender W Poller) (content : EmailContent) (w : W) :
  let r := AcsEmailSender_sendEmail host this content w in
  exists result,
    value r = inr result
    /\ (result.(EmailSendResult.success) = true <->
        exists message operation,
          In (SvBeginSend message None) (did r)
          /\ In (SvPollUntilDone (inr operation)) (did r)
          /\ operation.(SendOperation.status) = js "Succeeded")
    /\ (forall operation,
          In (SvPollUntilDone (inr operation)) (did r) ->
          result
          = if result.(EmailSendResult.success)
            then EmailSendResult.mk true
                   (Some operation.(SendOperation.id)) None
            else EmailSendResult.mk false None
                   (Some (js "Email send failed with status: "
                          ++ operation.(SendOperation.status))))
    /\ (forall message error,
          In (SvBeginSend message (Some error)) (did r)
          \/ In (SvPollUntilDone (inl error)) (did r) ->
          result = EmailSendResult.mk false None (Some (errorMessage error)))
    /\ (result.(EmailSendResult.success) = false ->
        result.(EmailSendResult.messageId) = None
        /\ result.(EmailSendResult.error) <> None).
Proof.
  cbv zeta. acs_cases host this w; eexists; (split; [reflexivity|]);
    cbn [EmailSendResult.success EmailSendResult.messageId
         EmailSendResult.error].
  - split; [split; [discriminate | intros (m & op & H1 & H2 & _); in_events]|].
    split; [intros op Hin; in_events|].
    split; [intros m err [Hin | Hin]; in_events; reflexivity|].
    intros _. split; [reflexivity | discriminate].
  - split; [split; [discriminate | intros (m & op & H1 & H2 & _); in_events]|].
    split; [intros op Hin; in_events|].
    split; [intros m err [Hin | Hin]; in_events; reflexivity|].
    intros _. split; [reflexivity | discriminate].
  - apply jsstring_eqb_eq in Hstatus.
    split.
    { split; [|reflexivity]. intros _.
      eexists _, operation. split; [right; left; reflexivity|].
      split; [right; right; left; reflexivity | exact Hstatus]. }
    split; [intros op Hin; in_events; reflexivity|].
    split; [intros m err [Hin | Hin]; in_events|].
    discriminate.
  - assert (Hne : SendOperation.status operation <> js "Succeeded").
    { intros Heq. apply jsstring_eqb_eq in Heq.
      unfold KnownEmailSendStatus_Succeeded in Hstatus. congruence. }
    split.
    { split; [discriminate|].
      intros (m & op & H1 & H2 & Hop). in_events. destruct (Hne Hop). }
    split; [intros op Hin; in_events; reflexivity|].
    split; [intros m err [Hin | Hin]; in_events|].
    intros _. split; [reflexivity | discriminate].
Qed.


(** The use case over the adapter: an operation that ends [Succeeded]
    gives a sent notification, and a client that cannot reach the service
    gives a failed one whose reason is the client's message. *)
Example use_case_over_acs :
  let run client :=
    @sendReservationEmail InMemory.runtime _ InMemory.host
      {| emailSender := acsEmailSender InMemory.host (memoryAcsSender client);
         notificationRepo := InMemory.repo |}
      (NotificationType_value ReservationCreated) scenarioData
      InMemory.initial in
  (exists n,
     outcome (run (memoryClient (js "Succeeded")))
     = inr (SendReservationEmailResult.mk true (Some n) None)
     /\ n.(EmailNotification.status) = Sent
     /\ InMemory.outbox (world (run (memoryClient (js "Succeeded"))))
        = [scenarioContent])
  /\ (exists n,
        outcome (run (memoryClient (js "Canceled")))
        = inr (SendReservationEmailResult.mk false (Some n)
                 (Some (js "Email send failed with status: Canceled")))
        /\ n.(EmailNotification.status) = Failed)
  /\ (exists n,
        outcome (run unreachableClient)
        = inr (SendReservationEmailResult.mk false (Some n)
                 (Some (js "getaddrinfo ENOTFOUND")))
        /\ n.(EmailNotification.status) = Failed
        /\ n.(EmailNotification.failureReason)
           = Some (js "getaddrinfo ENOTFOUND")
        /\ InMemory.outbox (world (run unreachableClient)) = []).
Proof.
  cbv zeta. split; [|split].
  - eexists. split; [vm_compute; reflexivity|].
    split; [reflexivity | vm_compute; reflexivity].
  - eexists. split; [vm_compute; reflexivity | reflexivity].
  - eexists. split; [vm_compute; reflexivity|].
    split; [reflexivity|]. split; [reflexivity | vm_compute; reflexivity].
Qed.


(* ===================================================================== *)
(** * Properties of the repository adapter *)
(* ===================================================================== *)

(** *** X27.  A notification survives being stored: mapping it to a
    document and the document back gives the same notification, field by
    field, provided its dates survive being written as ISO strings.  An
    absent [textBody], [sentAt] or [failureReason] stays absent. *)
Theorem document_round_trip `{JsDates} (notification : EmailNotification) :
  DateRoundTrips notification.(EmailNotification.createdAt) ->
  DateRoundTrips notification.(EmailNotification.updatedAt) ->
  (forall t, notification.(EmailNotification.sentAt) = Some t ->
             DateRoundTrips t) ->
  mapToDomain (mapToDocument notification) = inr (loaded notification).
Proof.
  intros [_ Hcreated] [_ Hupdated] Hsent.
  unfold mapToDomain, mapToDocument, loaded.
  cbn [NotificationDocument.createdAt NotificationDocument.updatedAt
       NotificationDocument.sentAt NotificationDocument.id
       NotificationDocument.userId NotificationDocument.userEmail
       NotificationDocument.type NotificationDocument.subject
       NotificationDocument.htmlBody NotificationDocument.textBody
       NotificationDocument.status NotificationDocument.reservationId
       NotificationDocument.failureReason NotificationDocument.retryCount].
  rewrite Hcreated, Hupdated. do 2 f_equal.
  destruct (EmailNotification.sentAt notification) as [t|]; [|reflexivity].
  destruct (Hsent t eq_refl) as [Hne Hparse].
  cbn [option_map str]. unfold truthy, falsy.
  destruct (toISOString t) eqn:Hiso; [congruence|].
  cbn [negb]. rewrite Hparse. reflexivity.
Qed.

Lemma document_round_trip_witness :
  (@DateRoundTrips IsoDates.runtime
     sentNotification.(EmailNotification.createdAt)
   /\ @DateRoundTrips IsoDates.runtime
        sentNotification.(EmailNotification.updatedAt)
   /\ sentNotification.(EmailNotification.sentAt) = Some 1767225603000%Z
   /\ @DateRoundTrips IsoDates.runtime 1767225603000%Z)
  /\ @mapToDomain IsoDates.runtime
       (@mapToDocument IsoDates.runtime sentNotification)
     = inr (loaded sentNotification).
Proof.
  assert (Hcreated : @DateRoundTrips IsoDates.runtime
                       sentNotification.(EmailNotification.createdAt))
    by (split; vm_compute; [discriminate | reflexivity]).
  assert (Hupdated : @DateRoundTrips IsoDates.runtime
                       sentNotification.(EmailNotification.updatedAt))
    by (split; vm_compute; [discriminate | reflexivity]).
  assert (Hsent : @DateRoundTrips IsoDates.runtime 1767225603000%Z)
    by (split; vm_compute; [discriminate | reflexivity]).
  split; [split; [exact Hcreated
                 | split; [exact Hupdated | split; [reflexivity | exact Hsent]]]|].
  apply (@document_round_trip IsoDates.runtime sentNotification
           Hcreated Hupdated).
  intros t Ht. vm_compute in Ht. inversion Ht; subst. exact Hsent.
Defined.

(** *** X28.  [mapToDomain] rejects a document exactly when its
    [createdAt] or its [updatedAt] is no date, naming the first of the two
    that fails and the stored string.  [sentAt] is not checked: a stored
    string that is no date is loaded as an Invalid Date, and an empty one
    as no date at all. *)
Theorem mapToDomain_date_checks `{JsDates} (document : NotificationDocument) :
  let createdAt := document.(NotificationDocument.createdAt) in
  let updatedAt := document.(NotificationDocument.updatedAt) in
  ((exists error, mapToDomain document = inl error)
   <-> parseDate createdAt = InvalidDate \/ parseDate updatedAt = InvalidDate)
  /\ (parseDate createdAt = InvalidDate ->
      mapToDomain document
      = inl (new_Error (js "Invalid createdAt value from Cosmos DB: "
                        ++ createdAt)))
  /\ (parseDate createdAt <> InvalidDate ->
      parseDate updatedAt = InvalidDate ->
      mapToDomain document
      = inl (new_Error (js "Invalid updatedAt value from Cosmos DB: "
                        ++ updatedAt)))
  /\ (forall notification,
        mapToDomain document = inr notification ->
        parseDate createdAt
        = ValidDate notification.(LoadedNotification.createdAt)
        /\ parseDate updatedAt
           = ValidDate notification.(LoadedNotification.updatedAt)
        /\ notification.(LoadedNotification.sentAt)
           = match document.(NotificationDocument.sentAt) with
             | None => None
             | Some [] => None
             | Some stored => Some (parseDate stored)
             end).
Proof.
  cbv zeta. unfold mapToDomain.
  destruct (parseDate (NotificationDocument.createdAt document)) as [c|];
    [destruct (parseDate (NotificationDocument.updatedAt document)) as [u|]|].
  - split; [split; [intros [e He]; discriminate
                   | intros [Hc | Hu]; discriminate]|].
    split; [discriminate|]. split; [discriminate|].
    intros n Hn. inversion Hn; subst; clear Hn.
    cbn [LoadedNotification.createdAt LoadedNotification.updatedAt
         LoadedNotification.sentAt].
    split; [reflexivity|]. split; [reflexivity|].
    destruct (NotificationDocument.sentAt document) as [[|c0 s]|]; reflexivity.
  - split; [split; [intros _; right; reflexivity | intros _; eexists; reflexivity]|].
    split; [discriminate|]. split; [reflexivity|]. discriminate.
  - split; [split; [intros _; left; reflexivity | intros _; eexists; reflexivity]|].
    split; [reflexivity|]. split; [congruence|]. discriminate.
Qed.

(** A stored [sentAt] that is no date passes, and so does an empty one. *)
Example mapToDomain_invalid_sentAt :
  let document sentAt :=
    let d := @mapToDocument IsoDates.runtime sentNotification in
    NotificationDocument.mk d.(NotificationDocument.id)
      d.(NotificationDocument.userId) d.(NotificationDocument.userEmail)
      d.(NotificationDocument.type) d.(NotificationDocument.subject)
      d.(NotificationDocument.htmlBody) d.(NotificationDocument.textBody)
      d.(NotificationDocument.status) d.(NotificationDocument.reservationId)
      d.(NotificationDocument.createdAt) sentAt
      d.(NotificationDocument.failureReason)
      d.(NotificationDocument.retryCount)
      d.(NotificationDocument.updatedAt) in
  (exists n, @mapToDomain IsoDates.runtime (document (Some (js "yesterday")))
             = inr n
             /\ n.(LoadedNotification.status) = Sent
             /\ n.(LoadedNotification.sentAt) = Some InvalidDate)
  /\ (exists n, @mapToDomain IsoDates.runtime (document (Some [])) = inr n
                /\ n.(LoadedNotification.status) = Sent
                /\ n.(LoadedNotification.sentAt) = None).
Proof.
  cbv zeta. split; eexists; (split; [vm_compute; reflexivity|]);
    split; reflexivity.
Qed.

Lemma errorMessage_new_Error (message : jsstring) :
  errorMessage (new_Error message) = message.
Proof. reflexivity. Qed.

Ltac repo_events :=
  repeat match goal with
  | H : In _ (_ :: _) |- _ => destruct H as [H | H]
  | H : In _ [] |- _ => destruct H
  | H : RvLog _ = _ |- _ => discriminate H
  | H : RvUpsert _ _ = RvLog _ |- _ => discriminate H
  | H : RvUpsert _ _ = RvUpsert _ _ |- _ => inversion H; subst; clear H
  end.

(** *** X29.  [save] writes the notification's document to the container
    once.  It resolves only with what the container stored, mapped back
    to the domain; every way of failing (the container rejects, returns no
    resource, or returns a document whose dates cannot be read) rejects
    with an [Error] whose message is [Failed to save EmailNotification: ]
    followed by the cause. *)
Theorem cosmos_save_outcome `{JsDates} {W} (host : Host W)
    (container : Container W) (notification : EmailNotification) (w : W) :
  let r := CosmosNotificationRepo_save host container notification w in
  let prefix := js "Failed to save EmailNotification: " in
  upserts (did r) = [mapToDocument notification]
  /\ (forall document stored,
        In (RvUpsert document (inr (Some stored))) (did r) ->
        value r
        = match mapToDomain stored with
          | inr loaded => inr loaded
          | inl error => inl (new_Error (prefix ++ errorMessage error))
          end)
  /\ (forall document,
        In (RvUpsert document (inr None)) (did r) ->
        value r = inl (new_Error (prefix ++ js "Upsert returned no resource")))
  /\ (forall document error,
        In (RvUpsert document (inl error)) (did r) ->
        value r
        = inl (new_Error (prefix ++ errorMessage error.(SdkError.thrown))))
  /\ (forall error,
        value r = inl error ->
        exists cause, error = new_Error (prefix ++ cause)).
Proof.
  assert (Hwrap : forall e,
             wrapError (js "Failed to save EmailNotification") e
             = new_Error (js "Failed to save EmailNotification: "
                          ++ errorMessage e)).
  { intros e. unfold wrapError. rewrite app_assoc.
    replace (js "Failed to save EmailNotification" ++ js ": ")
      with (js "Failed to save EmailNotification: ")
      by (vm_compute; reflexivity).
    reflexivity. }
  cbv zeta.
  unfold CosmosNotificationRepo_save, CosmosNotificationRepo_save_catch.
  destruct (clock host w) as [t0 w0].
  destruct (items_upsert container _ w0) as [[error|[stored|]] w1].
  - destruct (clock host w1) as [t1 w2]. cbn [value after did].
    rewrite Hwrap.
    split; [reflexivity|].
    split; [intros d s Hin; repo_events|].
    split; [intros d Hin; repo_events|].
    split; [intros d e Hin; repo_events; reflexivity|].
    intros e He. exists (errorMessage (SdkError.thrown error)).
    congruence.
  - destruct (clock host w1) as [t1 w2].
    destruct (mapToDomain stored) as [error|ok] eqn:Hmap.
    + destruct (clock host w2) as [t2 w3]. cbn [value after did].
      rewrite Hwrap.
      split; [reflexivity|].
      split; [intros d s Hin; repo_events; rewrite Hmap; reflexivity|].
      split; [intros d Hin; repo_events|].
      split; [intros d e Hin; repo_events|].
      intros e He. exists (errorMessage error). congruence.
    + cbn [value after did].
      split; [reflexivity|].
      split; [intros d s Hin; repo_events; rewrite Hmap; reflexivity|].
      split; [intros d Hin; repo_events|].
      split; [intros d e Hin; repo_events|].
      intros e He. discriminate He.
  - destruct (clock host w1) as [t1 w2].
    destruct (clock host w2) as [t2 w3]. cbn [value after did].
    rewrite Hwrap, errorMessage_new_Error.
    split; [reflexivity|].
    split; [intros d s Hin; repo_events|].
    split; [intros d Hin; repo_events; reflexivity|].
    split; [intros d e Hin; repo_events|].
    intros e He. exists (js "Upsert returned no resource").
    congruence.
Qed.

Lemma code_is_404 (code : option CodeValue) :
  match code with
  | Some (CodeNumber 404) => true
  | _ => false
  end = true
  <-> code = Some (CodeNumber 404).
Proof.
  split; [|intros ->; reflexivity].
  destruct code as [[n|s]|]; try discriminate.
  destruct n as [|p|p]; try discriminate.
  repeat (destruct p as [p|p|]; try discriminate).
  reflexivity.
Qed.

(** *** X30.  Not found is not an error: when the container rejects with
    the numeric code 404 (under [code], or under [statusCode] when the
    error has no [code]), [getById] resolves with [null] and [delete]
    resolves.  Any other rejection is passed on as an [Error] that names
    the operation and the cause. *)
Theorem cosmos_not_found `{JsDates} {W} (host : Host W)
    (container : Container W) (id : jsstring) (w : W) :
  (forall error w1,
     item_read container id id (snd (clock host w)) = (inl error, w1) ->
     value (CosmosNotificationRepo_getById host container id w)
     = if isNotFound error then inr None
       else inl (new_Error (js "Failed to get EmailNotification by id: "
                            ++ errorMessage error.(SdkError.thrown))))
  /\ (forall error w1,
        item_delete container id id (snd (clock host w)) = (inl error, w1) ->
        value (CosmosNotificationRepo_delete host container id w)
        = if isNotFound error then inr tt
          else inl (new_Error (js "Failed to delete EmailNotification: "
                               ++ errorMessage error.(SdkError.thrown))))
  /\ (forall error,
        isNotFound error = true
        <-> error.(SdkError.code) = Some (CodeNumber 404)
            \/ (error.(SdkError.code) = None
                /\ error.(SdkError.statusCode) = Some (CodeNumber 404))).
Proof.
  split; [|split].
  - intros error w1 Hread.
    unfold CosmosNotificationRepo_getById,
      CosmosNotificationRepo_getById_catch.
    destruct (clock host w) as [t0 w0]. cbn [snd] in Hread. rewrite Hread.
    destruct (isNotFound error);
      destruct (clock host w1) as [t1 w2]; cbn [value]; [reflexivity|].
    unfold wrapError. rewrite app_assoc.
    replace (js "Failed to get EmailNotification by id" ++ js ": ")
      with (js "Failed to get EmailNotification by id: ")
      by (vm_compute; reflexivity).
    reflexivity.
  - intros error w1 Hdelete.
    unfold CosmosNotificationRepo_delete.
    destruct (clock host w) as [t0 w0]. cbn [snd] in Hdelete. rewrite Hdelete.
    destruct (clock host w1) as [t1 w2].
    destruct (isNotFound error); cbn [value]; [reflexivity|].
    unfold wrapError. rewrite app_assoc.
    replace (js "Failed to delete EmailNotification" ++ js ": ")
      with (js "Failed to delete EmailNotification: ")
      by (vm_compute; reflexivity).
    reflexivity.
  - intros error. unfold isNotFound.
    destruct (SdkError.code error) as [c|].
    + rewrite (code_is_404 (Some c)). split; [intros ->; left; reflexivity|].
      intros [Heq | [Heq _]]; [inversion Heq; reflexivity | discriminate].
    + rewrite (code_is_404 (SdkError.statusCode error)).
      split; [intros ->; right; split; reflexivity|].
      intros [Heq | [_ Heq]]; [discriminate | exact Heq].
Qed.

(** A container that returns no resource makes [save] fail, a missing
    item is [null] for [getById] and nothing to do for [delete], and an
    unavailable service is an error for all three. *)
Example repository_on_reference_containers :
  let save := @CosmosNotificationRepo_save IsoDates.runtime _ InMemory.host in
  let getById :=
    @CosmosNotificationRepo_getById IsoDates.runtime _ InMemory.host in
  let delete := @CosmosNotificationRepo_delete _ InMemory.host in
  value (save emptyContainer sampleNotification InMemory.initial)
  = inl (new_Error
           (js "Failed to save EmailNotification: Upsert returned no resource"))
  /\ value (getById emptyContainer (js "n-1") InMemory.initial) = inr None
  /\ value (delete emptyContainer (js "n-1") InMemory.initial) = inr tt
  /\ value (save unavailableContainer sampleNotification InMemory.initial)
     = inl (new_Error
              (js "Failed to save EmailNotification: Service Unavailable"))
  /\ value (getById unavailableContainer (js "n-1") InMemory.initial)
     = inl (new_Error
              (js "Failed to get EmailNotification by id: Service Unavailable"))
  /\ value (delete unavailableContainer (js "n-1") InMemory.initial)
     = inl (new_Error
              (js "Failed to delete EmailNotification: Service Unavailable")).
Proof.
  cbv zeta.
  split; [|split; [|split; [|split; [|split]]]]; vm_compute; reflexivity.
Qed.
